(** * R Sanju Store: invoicing, expenses and reports (app.py)

    A shallow embedding of the Flask application [app.py]: the in-memory
    document [_data], its JSON file [DATA_FILE], and the request handlers
    that read and mutate them.

    Conventions of the embedding.
    - Python values are the inductive [value]; a [dict] is an association
      list in insertion order, as Python keeps it and [json.dump] writes it.
    - A Python [str] is a [string] whose characters are the code points
      below 256; [float] is the kernel's binary64 [PrimFloat.float].
    - An exception is the [Raise] case of [result]; handlers are functions
      on the explicit [state] (the module globals, the file, the flashed
      messages) that return the state even when they raise, since Python
      keeps the mutations done before the exception.
    - The wall clock is the handler's argument [now].
    - The builtins that read or print floats are parameters; [json.dump]
      and [json.load] are those of [Module Json], and the handlers take
      the text [json.dump] writes as a parameter. *)

From Stdlib Require Import ZArith List String Ascii Bool Lia Floats.
From Stdlib Require Import Permutation Sorted.
From Stdlib Require OrderedTypeEx.
From stdpp Require Import base list.
Import ListNotations.

Local Open Scope string_scope.
Local Open Scope Z_scope.

Set Default Proof Using "Type".

(** ** Python strings *)

Module PyStr.

(** [str.isspace] on the code points below 256. *)
Definition is_space (c : ascii) : bool :=
  let n := N_of_ascii c in
  ((9 <=? n) && (n <=? 13) || (28 <=? n) && (n <=? 32)
   || (n =? 133) || (n =? 160))%N.

Fixpoint lstrip (s : string) : string :=
  match s with
  | EmptyString => EmptyString
  | String c r => if is_space c then lstrip r else s
  end.

Fixpoint rstrip (s : string) : string :=
  match s with
  | EmptyString => EmptyString
  | String c r =>
      match rstrip r with
      | EmptyString => if is_space c then EmptyString else String c EmptyString
      | r' => String c r'
      end
  end.

(** [s.strip()] *)
Definition strip (s : string) : string := rstrip (lstrip s).

Definition upper_char (c : ascii) : ascii :=
  let n := N_of_ascii c in
  if ((97 <=? n) && (n <=? 122))%N then ascii_of_N (n - 32) else c.

(** [s.upper()]; only a-z change (no other code point below 256 has an
    upper-case form made of the letters A-Z without S). *)
Fixpoint upper (s : string) : string :=
  match s with
  | EmptyString => EmptyString
  | String c r => String (upper_char c) (upper r)
  end.

(** [s.split(sep)] for a one-character separator: the pieces between the
    separators, at least one. *)
Fixpoint split (sep : ascii) (s : string) : list string :=
  match s with
  | EmptyString => [EmptyString]
  | String c r =>
      if Ascii.eqb c sep then EmptyString :: split sep r
      else match split sep r with
           | p :: ps => String c p :: ps
           | [] => [String c EmptyString]
           end
  end.

Definition is_digit (c : ascii) : bool :=
  let n := N_of_ascii c in ((48 <=? n) && (n <=? 57))%N.

Definition digit_val (c : ascii) : Z := Z.of_N (N_of_ascii c) - 48.

Definition digit_char (d : Z) : ascii := ascii_of_N (Z.to_N (48 + d)).

Fixpoint all_digits (s : string) : bool :=
  match s with
  | EmptyString => true
  | String c r => is_digit c && all_digits r
  end.

(** The digits of a decimal literal, read left to right; a single
    underscore may sit between two digits. [prev] tells whether the
    previous character was a digit. *)
Fixpoint int_digits (s : string) (acc : Z) (prev : bool) : option Z :=
  match s with
  | EmptyString => if prev then Some acc else None
  | String c r =>
      if is_digit c then int_digits r (10 * acc + digit_val c) true
      else if Ascii.eqb c "_" then
             if prev then int_digits r acc false else None
           else None
  end.

(** The white space [int()] skips around a literal: the ASCII white space
    (the separators 28 to 31, which [str.isspace] counts, are not in it),
    and the two other spaces below 256, which reach the parser as blanks. *)
Definition is_blank (c : ascii) : bool :=
  let n := N_of_ascii c in
  ((9 <=? n) && (n <=? 13) || (n =? 32) || (n =? 133) || (n =? 160))%N.

Fixpoint skip_blanks (s : string) : string :=
  match s with
  | EmptyString => EmptyString
  | String c r => if is_blank c then skip_blanks r else s
  end.

Fixpoint drop_blanks (s : string) : string :=
  match s with
  | EmptyString => EmptyString
  | String c r =>
      match drop_blanks r with
      | EmptyString => if is_blank c then EmptyString else String c EmptyString
      | r' => String c r'
      end
  end.

(** The integer a decimal literal denotes: white space, an optional sign,
    the digits, white space; [None] when [s] is no such literal. *)
Definition int_of_str (s : string) : option Z :=
  match drop_blanks (skip_blanks s) with
  | String "-" r => option_map Z.opp (int_digits r 0 false)
  | String "+" r => int_digits r 0 false
  | t => int_digits t 0 false
  end.

Fixpoint count_digits (s : string) : Z :=
  match s with
  | EmptyString => 0
  | String c r => (if is_digit c then 1 else 0) + count_digits r
  end.

(** [sys.get_int_max_str_digits()], as the interpreter starts. *)
Definition max_str_digits : Z := 4300.

(** [int(s)] for a string: [None] is [ValueError], raised for a text that
    is no literal and for a literal of more than [max_str_digits] digits. *)
Definition int_ (s : string) : option Z :=
  if count_digits s <=? max_str_digits then int_of_str s else None.

(** The decimal digits of [n >= 0], most significant first. *)
Fixpoint digits_aux (fuel : nat) (n : Z) (acc : string) : string :=
  let acc' := String (digit_char (n mod 10)) acc in
  match fuel with
  | O => acc'
  | S f => if n <? 10 then acc' else digits_aux f (n / 10) acc'
  end.

Definition digits (n : Z) : string :=
  digits_aux (Z.to_nat (Z.log2 n)) n EmptyString.

Fixpoint zeros (k : nat) : string :=
  match k with
  | O => EmptyString
  | S k' => String "0" (zeros k')
  end.

(** Left padding with zeros up to [width] characters. *)
Definition zfill (width : nat) (s : string) : string :=
  zeros (width - String.length s) ++ s.

(** [str(n)] and [f"{n}"] for an int. *)
Definition str_of_int (n : Z) : string :=
  if n <? 0 then String "-" (digits (- n)) else digits n.

(** [f"{n:0<width>d}"]: the sign counts in the width. *)
Definition format_0d (width : nat) (n : Z) : string :=
  if n <? 0 then String "-" (zfill (width - 1) (digits (- n)))
  else zfill width (digits n).

(** The number a string of digits denotes, after the digits [acc] already
    read. *)
Fixpoint eval_digits (s : string) (acc : Z) : Z :=
  match s with
  | EmptyString => acc
  | String c r => eval_digits r (10 * acc + digit_val c)
  end.

(** A string that does not begin with white space. *)
Definition no_lead (s : string) : Prop :=
  match s with
  | EmptyString => True
  | String c _ => is_space c = false
  end.

End PyStr.

(** ** Calendar dates: [datetime.date], [strptime], [strftime] *)

Module PyDate.
Import PyStr.

Record date : Type := mkdate { year : Z; month : Z; day : Z }.

Record datetime : Type := mkdatetime {
  dt_year : Z; dt_month : Z; dt_day : Z;
  dt_hour : Z; dt_minute : Z; dt_second : Z }.

(** [dt.date()] *)
Definition date_of (dt : datetime) : date :=
  mkdate (dt_year dt) (dt_month dt) (dt_day dt).

Definition date_eqb (a b : date) : bool :=
  (year a =? year b) && (month a =? month b) && (day a =? day b).

Definition is_leap (y : Z) : bool :=
  (y mod 4 =? 0) && (negb (y mod 100 =? 0) || (y mod 400 =? 0)).

Definition days_in_month (y m : Z) : Z :=
  if m =? 2 then (if is_leap y then 29 else 28)
  else if (m =? 4) || (m =? 6) || (m =? 9) || (m =? 11) then 30
  else 31.

(** What [date(y, m, d)] accepts. *)
Definition valid_date (y m d : Z) : bool :=
  (1 <=? y) && (y <=? 9999) && (1 <=? m) && (m <=? 12)
  && (1 <=? d) && (d <=? days_in_month y m).

Definition in_range (lo hi : ascii) (c : ascii) : bool :=
  ((N_of_ascii lo <=? N_of_ascii c) && (N_of_ascii c <=? N_of_ascii hi))%N.

(** The directive [%m]: [1[0-2]|0[1-9]|[1-9]]. *)
Definition parse_month (s : string) : option Z :=
  match s with
  | String a EmptyString =>
      if in_range "1" "9" a then Some (digit_val a) else None
  | String a (String b EmptyString) =>
      if Ascii.eqb a "1" && in_range "0" "2" b then Some (10 + digit_val b)
      else if Ascii.eqb a "0" && in_range "1" "9" b then Some (digit_val b)
      else None
  | _ => None
  end.

(** The directive [%d]: [3[0-1]|[1-2]\d|0[1-9]|[1-9]| [1-9]]. *)
Definition parse_day (s : string) : option Z :=
  match s with
  | String a EmptyString =>
      if in_range "1" "9" a then Some (digit_val a) else None
  | String a (String b EmptyString) =>
      if Ascii.eqb a "3" && in_range "0" "1" b then Some (30 + digit_val b)
      else if in_range "1" "2" a && is_digit b
           then Some (10 * digit_val a + digit_val b)
      else if (Ascii.eqb a "0" || Ascii.eqb a " ") && in_range "1" "9" b
           then Some (digit_val b)
      else None
  | _ => None
  end.

(** The directive [%Y]: four digits. *)
Definition parse_year (a b c d : ascii) : option Z :=
  if is_digit a && is_digit b && is_digit c && is_digit d
  then Some (1000 * digit_val a + 100 * digit_val b
             + 10 * digit_val c + digit_val d)
  else None.

(** [datetime.strptime(s, "%Y-%m-%d").date()]; [None] is [ValueError]:
    the whole string has to match the three directives, and the numbers
    have to form a date of the calendar. *)
Definition strptime (s : string) : option date :=
  match s with
  | String a (String b (String c (String d (String "-" rest)))) =>
      match parse_year a b c d, split "-" rest with
      | Some y, [ms; ds] =>
          match parse_month ms, parse_day ds with
          | Some m, Some dd =>
              if valid_date y m dd then Some (mkdate y m dd) else None
          | _, _ => None
          end
      | _, _ => None
      end
  | _ => None
  end.

(** [d.strftime("%Y-%m-%d")]; [%Y] prints four digits, which is what
    every platform does from the year 1000 on. *)
Definition strftime_date (d : date) : string :=
  format_0d 4 (year d) ++ "-" ++ format_0d 2 (month d)
  ++ "-" ++ format_0d 2 (day d).

(** [dt.strftime("%Y-%m")] *)
Definition strftime_month (dt : datetime) : string :=
  format_0d 4 (dt_year dt) ++ "-" ++ format_0d 2 (dt_month dt).

(** [dt.strftime("%Y-%m-%d %H:%M:%S")] *)
Definition strftime_datetime (dt : datetime) : string :=
  strftime_date (date_of dt) ++ " " ++ format_0d 2 (dt_hour dt)
  ++ ":" ++ format_0d 2 (dt_minute dt) ++ ":" ++ format_0d 2 (dt_second dt).

End PyDate.

(** ** Python values, exceptions *)

Inductive exn : Type :=
| AttributeError | TypeError | ValueError | OverflowError.

Inductive result (A : Type) : Type :=
| Ok (a : A)
| Raise (e : exn).
Arguments Ok {A} a.
Arguments Raise {A} e.

Definition bindR {A B : Type} (r : result A) (k : A -> result B) : result B :=
  match r with
  | Ok a => k a
  | Raise e => Raise e
  end.

Notation "'let?' x ':=' r 'in' k" := (bindR r (fun x => k))
  (at level 10, x name, r at level 100, k at level 200).

#[warnings="-register-all"]
Inductive value : Type :=
| VNone
| VBool (b : bool)
| VInt (n : Z)
| VFloat (x : float)
| VStr (s : string)
| VList (l : list value)
| VDict (d : list (string * value)).

Definition dict : Type := list (string * value).

Module Py.
Import PyStr.

(** [bool(v)] *)
Definition truthy (v : value) : bool :=
  match v with
  | VNone => false
  | VBool b => b
  | VInt n => negb (n =? 0)
  | VFloat x => negb (PrimFloat.eqb x 0)
  | VStr s => negb (String.eqb s "")
  | VList l => match l with [] => false | _ => true end
  | VDict d => match d with [] => false | _ => true end
  end.

(** [a or b] *)
Definition or_ (a b : value) : value := if truthy a then a else b.

(** [v == s] for a string [s]: only a string equals a string. *)
Definition eq_str (v : value) (s : string) : bool :=
  match v with
  | VStr t => String.eqb t s
  | _ => false
  end.

Fixpoint lookup (d : dict) (k : string) : option value :=
  match d with
  | [] => None
  | (k', v) :: r => if String.eqb k' k then Some v else lookup r k
  end.

(** [d[k] = v]: a key already there keeps its place. *)
Fixpoint store (d : dict) (k : string) (v : value) : dict :=
  match d with
  | [] => [(k, v)]
  | (k', v') :: r =>
      if String.eqb k' k then (k, v) :: r else (k', v') :: store r k v
  end.

(** [v.get(k, default)] *)
Definition get (v : value) (k : string) (default : value) : result value :=
  match v with
  | VDict d => Ok (match lookup d k with Some x => x | None => default end)
  | _ => Raise AttributeError
  end.

(** [k in v] for a string [k]: a key of a dict, an element of a list, a
    substring of a string. *)
Fixpoint is_prefix (p s : string) : bool :=
  match p, s with
  | EmptyString, _ => true
  | String a p', String b s' => Ascii.eqb a b && is_prefix p' s'
  | String _ _, EmptyString => false
  end.

Fixpoint is_substring (p s : string) : bool :=
  is_prefix p s
  || match s with
     | EmptyString => false
     | String _ s' => is_substring p s'
     end.

Definition contains (v : value) (k : string) : result bool :=
  match v with
  | VDict d => Ok (match lookup d k with Some _ => true | None => false end)
  | VList l => Ok (existsb (fun x => eq_str x k) l)
  | VStr s => Ok (is_substring k s)
  | _ => Raise TypeError
  end.

(** [v[k] = x] for a string key. *)
Definition setitem (v : value) (k : string) (x : value) : result value :=
  match v with
  | VDict d => Ok (VDict (store d k x))
  | _ => Raise TypeError
  end.

Fixpoint chars (s : string) : list value :=
  match s with
  | EmptyString => []
  | String c r => VStr (String c EmptyString) :: chars r
  end.

(** [for x in v]: the elements visited. *)
Definition iter (v : value) : result (list value) :=
  match v with
  | VList l => Ok l
  | VDict d => Ok (map (fun kv => VStr (fst kv)) d)
  | VStr s => Ok (chars s)
  | _ => Raise TypeError
  end.

(** [len(v)] *)
Definition len (v : value) : result Z :=
  match v with
  | VList l => Ok (Z.of_nat (length l))
  | VDict d => Ok (Z.of_nat (length d))
  | VStr s => Ok (Z.of_nat (String.length s))
  | _ => Raise TypeError
  end.

(** [v.split(" ")[0]] *)
Definition split_first (v : value) : result value :=
  match v with
  | VStr s => Ok (VStr (hd EmptyString (split " " s)))
  | _ => Raise AttributeError
  end.

(** [v.strip()] *)
Definition strip (v : value) : result string :=
  match v with
  | VStr s => Ok (PyStr.strip s)
  | _ => Raise AttributeError
  end.

(** [v.upper()] *)
Definition upper (v : value) : result string :=
  match v with
  | VStr s => Ok (PyStr.upper s)
  | _ => Raise AttributeError
  end.

(** [float(n)] for an int: the nearest double, [OverflowError] past the
    largest one. *)
Definition float_of_int (n : Z) : result float :=
  let x := SF2Prim (binary_normalize prec emax n 0 false) in
  if PrimFloat.is_infinity x then Raise OverflowError else Ok x.

(** [v + 1] *)
Definition add_one (v : value) : result value :=
  match v with
  | VInt n => Ok (VInt (n + 1))
  | VBool b => Ok (VInt ((if b then 1 else 0) + 1))
  | VFloat x => Ok (VFloat (x + 1)%float)
  | _ => Raise TypeError
  end.

(** [f"{v:04d}"] *)
Definition format_04d (v : value) : result string :=
  match v with
  | VInt n => Ok (format_0d 4 n)
  | VBool b => Ok (format_0d 4 (if b then 1 else 0))
  | VFloat _ | VStr _ => Raise ValueError
  | _ => Raise TypeError
  end.

(** [str(n)] *)
Definition str (n : Z) : string := str_of_int n.

End Py.

(** ** The process state and the handler monad *)

(** The file [data.json] as a handler finds it. *)
Inductive file : Type :=
| Missing
| Unreadable
| Content (text : string).

(** The module globals, the file and the messages flashed so far (text,
    category). Writing the file is taken to succeed. *)
Record state : Type := mkstate {
  _data : value;
  DATA_FILE : file;
  flashed : list (string * string) }.

(** What a handler returns to Flask. *)
Inductive response : Type :=
| Render (template : string) (context : dict)
| Redirect (endpoint : string) (args : list (string * string)).

Definition M (A : Type) : Type := state -> result A * state.

Definition ret {A : Type} (a : A) : M A := fun st => (Ok a, st).

Definition bindM {A B : Type} (m : M A) (k : A -> M B) : M B :=
  fun st =>
    match m st with
    | (Ok a, st') => k a st'
    | (Raise e, st') => (Raise e, st')
    end.

Notation "'let*' x ':=' m 'in' k" := (bindM m (fun x => k))
  (at level 10, x name, m at level 100, k at level 200).

Definition liftR {A : Type} (r : result A) : M A := fun st => (r, st).

(** A request's form or query string: the fields in submission order. *)
Definition multidict : Type := list (string * string).

Module Form.

(** [form.get(k)] *)
Fixpoint get (f : multidict) (k : string) : value :=
  match f with
  | [] => VNone
  | (k', v) :: r => if String.eqb k' k then VStr v else get r k
  end.

(** [form.get(k, "")] *)
Definition get_str (f : multidict) (k : string) : string :=
  match get f k with
  | VStr s => s
  | _ => ""
  end.

(** [form.getlist(k)] *)
Fixpoint getlist (f : multidict) (k : string) : list string :=
  match f with
  | [] => []
  | (k', v) :: r =>
      if String.eqb k' k then v :: getlist r k else getlist r k
  end.

End Form.

Record request : Type := mkrequest {
  method : string;
  form : multidict;
  args : multidict }.

(** [zip(a, b, c)] *)
Fixpoint zip3 {A B C : Type} (a : list A) (b : list B) (c : list C)
  : list (A * B * C) :=
  match a, b, c with
  | x :: a', y :: b', z :: c' => (x, y, z) :: zip3 a' b' c'
  | _, _, _ => []
  end.

(** [sum(xs)] of floats: left to right from zero. *)
Definition sum_floats (xs : list float) : float :=
  fold_left PrimFloat.add xs 0%float.

(** ** The JSON codec *)

(** What [json.load] makes of a text: the value it returns, an exception,
    or a value outside the embedding (a string with a code point above
    255, which a text of code points below 256 can spell with a [\u]
    escape). *)
Inductive loaded : Type :=
| Loaded (v : value)
| Fails
| Outside.

Module Json.
Import PyStr.

Definition dq : ascii := "034".
Definition bs : ascii := "092".
Definition lf : ascii := "010".

(** A text that does not go on a number: it is empty, or begins with a
    character that is no digit, point, sign or letter [e]. *)
Definition number_char (c : ascii) : bool :=
  is_digit c || Ascii.eqb c "." || Ascii.eqb c "e" || Ascii.eqb c "E"
  || Ascii.eqb c "+" || Ascii.eqb c "-".

Definition delimited (rest : string) : Prop :=
  match rest with
  | EmptyString => True
  | String c _ => number_char c = false
  end.

Section Codec.

(** [float.__repr__] of a finite float, and [float(s)]. *)
Variable float_repr : float -> string.
Variable float_of_str : string -> option float.

(** The nesting of lists and dicts beyond which the interpreter gives up
    with [RecursionError]. *)
Variable max_depth : nat.

(** *** [json.dump(v, f, ensure_ascii=False, indent=2)] *)

Definition hex_char (n : N) : ascii :=
  if (n <? 10)%N then ascii_of_N (48 + n) else ascii_of_N (87 + n).

(** [ESCAPE_DCT]: the quote, the backslash and the control characters. *)
Definition escape_char (c : ascii) : string :=
  let n := N_of_ascii c in
  if (n =? 34)%N then String bs (String dq "")
  else if (n =? 92)%N then String bs (String bs "")
  else if (n =? 8)%N then String bs "b"
  else if (n =? 12)%N then String bs "f"
  else if (n =? 10)%N then String bs "n"
  else if (n =? 13)%N then String bs "r"
  else if (n =? 9)%N then String bs "t"
  else if (n <? 32)%N
       then String bs (String "u" (String "0" (String "0"
              (String (hex_char (n / 16)) (String (hex_char (n mod 16)) "")))))
  else String c "".

Fixpoint escape (s : string) : string :=
  match s with
  | EmptyString => EmptyString
  | String c r => (escape_char c ++ escape r)%string
  end.

(** [encode_basestring] *)
Definition encode_string (s : string) : string :=
  String dq (escape s ++ String dq "").

(** The text of a member of a dict, given the text of its value. *)
Definition member (enc : value -> string) (kv : string * value) : string :=
  (encode_string (fst kv) ++ ": " ++ enc (snd kv))%string.

(** [floatstr] with [allow_nan] *)
Definition floatstr (x : float) : string :=
  match Prim2SF x with
  | S754_nan => "NaN"
  | S754_infinity false => "Infinity"
  | S754_infinity true => "-Infinity"
  | _ => float_repr x
  end.

Fixpoint spaces (n : nat) : string :=
  match n with
  | O => EmptyString
  | S k => String " " (spaces k)
  end.

(** The line break and the indentation of a nesting level. *)
Definition newline_indent (level : nat) : string :=
  String lf (spaces (2 * level)).

Fixpoint join (sep : string) (parts : list string) : string :=
  match parts with
  | [] => EmptyString
  | [p] => p
  | p :: rest => (p ++ sep ++ join sep rest)%string
  end.

(** [_iterencode] at a nesting level: an empty list or dict on one line,
    the others with one item a line. *)
Fixpoint encode (level : nat) (v : value) : string :=
  match v with
  | VNone => "null"
  | VBool b => if b then "true" else "false"
  | VInt n => str_of_int n
  | VFloat x => floatstr x
  | VStr s => encode_string s
  | VList [] => "[]"
  | VList l =>
      ("[" ++ newline_indent (S level)
       ++ join ("," ++ newline_indent (S level)) (map (encode (S level)) l)
       ++ newline_indent level ++ "]")%string
  | VDict [] => "{}"
  | VDict d =>
      ("{" ++ newline_indent (S level)
       ++ join ("," ++ newline_indent (S level))
            (map (fun kv => (encode_string (fst kv) ++ ": "
                             ++ encode (S level) (snd kv))%string) d)
       ++ newline_indent level ++ "}")%string
  end.

Definition dumps (v : value) : string := encode 0 v.

(** *** [json.load] *)

(** [WHITESPACE]: blank, tab, line feed, carriage return. *)
Definition is_ws (c : ascii) : bool :=
  let n := N_of_ascii c in
  ((n =? 32) || (n =? 9) || (n =? 10) || (n =? 13))%N.

Fixpoint skip_ws (s : string) : string :=
  match s with
  | EmptyString => EmptyString
  | String c r => if is_ws c then skip_ws r else s
  end.

(** A text that begins with a character of a value. *)
Definition begins (s : string) : Prop :=
  exists c r, s = String c r /\ is_ws c = false /\ Ascii.eqb c "]" = false.

Definition hex_val (c : ascii) : option N :=
  let n := N_of_ascii c in
  if ((48 <=? n) && (n <=? 57))%N then Some (n - 48)%N
  else if ((65 <=? n) && (n <=? 70))%N then Some (n - 55)%N
  else if ((97 <=? n) && (n <=? 102))%N then Some (n - 87)%N
  else None.

(** [BACKSLASH]: the character of a one-letter escape. *)
Definition unescape (e : ascii) : option ascii :=
  let n := N_of_ascii e in
  if (n =? 34)%N then Some dq
  else if (n =? 92)%N then Some bs
  else if (n =? 47)%N then Some "/"%char
  else if (n =? 98)%N then Some "008"%char
  else if (n =? 102)%N then Some "012"%char
  else if (n =? 110)%N then Some "010"%char
  else if (n =? 114)%N then Some "013"%char
  else if (n =? 116)%N then Some "009"%char
  else None.

(** [scanstring], strict, on the text after the opening quote: the
    string, whether an escape spelled a code point above 255 (a half of
    a surrogate pair is one), and the text after the closing quote. A
    control character, an unknown escape and the end of the text are
    errors. *)
Fixpoint scanstring (s : string) : option (string * bool * string) :=
  match s with
  | EmptyString => None
  | String c r =>
      if Ascii.eqb c dq then Some (EmptyString, false, r)
      else if Ascii.eqb c bs then
        match r with
        | EmptyString => None
        | String e r1 =>
            if Ascii.eqb e "u" then
              match r1 with
              | String h1 (String h2 (String h3 (String h4 r2))) =>
                  match hex_val h1, hex_val h2, hex_val h3, hex_val h4 with
                  | Some a, Some b, Some c', Some d =>
                      let n := (((a * 16 + b) * 16 + c') * 16 + d)%N in
                      match scanstring r2 with
                      | Some (t, w, rest) =>
                          if (n <? 256)%N
                          then Some (String (ascii_of_N n) t, w, rest)
                          else Some (t, true, rest)
                      | None => None
                      end
                  | _, _, _, _ => None
                  end
              | _ => None
              end
            else
              match unescape e with
              | Some c' =>
                  match scanstring r1 with
                  | Some (t, w, rest) => Some (String c' t, w, rest)
                  | None => None
                  end
              | None => None
              end
        end
      else if (N_of_ascii c <? 32)%N then None
      else
        match scanstring r with
        | Some (t, w, rest) => Some (String c t, w, rest)
        | None => None
        end
  end.

(** The digits at the head of a text, and the text after them. *)
Fixpoint span_digits (s : string) : string * string :=
  match s with
  | EmptyString => (EmptyString, EmptyString)
  | String c r =>
      if is_digit c
      then let (ds, rest) := span_digits r in (String c ds, rest)
      else (EmptyString, s)
  end.

(** [NUMBER_RE]: an optional minus and a zero or a number without a
    leading zero; then, when it is complete, a point and digits; then,
    when it is complete, an [e] or [E], an optional sign and digits. *)
Definition lex_int (s : string) : option (string * string) :=
  let signed :=
    match s with
    | String c r => if Ascii.eqb c "-" then ("-", r) else (EmptyString, s)
    | EmptyString => (EmptyString, s)
    end in
  match snd signed with
  | EmptyString => None
  | String c r =>
      if Ascii.eqb c "0" then Some ((fst signed ++ "0")%string, r)
      else if is_digit c
      then let (ds, rest) := span_digits r in
           Some ((fst signed ++ String c ds)%string, rest)
      else None
  end.

Definition lex_frac (s : string) : string * string :=
  match s with
  | String p (String c r) =>
      if Ascii.eqb p "." && is_digit c
      then let (ds, rest) := span_digits r in (String p (String c ds), rest)
      else (EmptyString, s)
  | _ => (EmptyString, s)
  end.

Definition lex_exp (s : string) : string * string :=
  match s with
  | EmptyString => (EmptyString, s)
  | String e r =>
      if Ascii.eqb e "e" || Ascii.eqb e "E" then
        let signed :=
          match r with
          | String c r' =>
              if Ascii.eqb c "+" || Ascii.eqb c "-"
              then (String c EmptyString, r')
              else (EmptyString, r)
          | EmptyString => (EmptyString, r)
          end in
        match snd signed with
        | String c r2 =>
            if is_digit c
            then let (ds, rest) := span_digits r2 in
                 (String e (fst signed ++ String c ds), rest)
            else (EmptyString, s)
        | EmptyString => (EmptyString, s)
        end
      else (EmptyString, s)
  end.

(** The three groups of the number at the head of a text. *)
Definition lex_number (s : string)
  : option (string * string * string * string) :=
  match lex_int s with
  | None => None
  | Some (ip, r) =>
      let (fp, r1) := lex_frac r in
      let (ep, r2) := lex_exp r1 in
      Some (ip, fp, ep, r2)
  end.

(** [s[idx:idx + len(p)] == p], and the text after. *)
Fixpoint after (p s : string) : option string :=
  match p, s with
  | EmptyString, _ => Some s
  | String a p', String b s' => if Ascii.eqb a b then after p' s' else None
  | String _ _, EmptyString => None
  end.

(** The items of an array from the first one on: [p] reads an item,
    [steps] bounds the items by the length of the text. *)
Fixpoint parse_elements (p : string -> option (value * bool * string))
    (steps : nat) (s : string) : option (list value * bool * string) :=
  match steps with
  | O => None
  | S k =>
      match p s with
      | None => None
      | Some (v, w, r) =>
          match skip_ws r with
          | EmptyString => None
          | String c r' =>
              if Ascii.eqb c "]" then Some ([v], w, r')
              else if Ascii.eqb c "," then
                match parse_elements p k (skip_ws r') with
                | Some (vs, w', rest) => Some (v :: vs, w || w', rest)
                | None => None
                end
              else None
          end
      end
  end.

(** The members of an object from the quote of the first key on; [acc]
    holds the pairs read so far, as [dict(pairs)] keeps them: a key read
    again keeps its place and takes the later value. *)
Fixpoint parse_members (p : string -> option (value * bool * string))
    (steps : nat) (s : string) (acc : dict)
  : option (dict * bool * string) :=
  match steps with
  | O => None
  | S k =>
      match s with
      | EmptyString => None
      | String q r =>
          if Ascii.eqb q dq then
            match scanstring r with
            | None => None
            | Some (key, w1, r1) =>
                match skip_ws r1 with
                | EmptyString => None
                | String c r2 =>
                    if Ascii.eqb c ":" then
                      match p (skip_ws r2) with
                      | None => None
                      | Some (v, w2, r3) =>
                          let acc' := Py.store acc key v in
                          match skip_ws r3 with
                          | EmptyString => None
                          | String c' r4 =>
                              if Ascii.eqb c' "}"
                              then Some (acc', w1 || w2, r4)
                              else if Ascii.eqb c' "," then
                                match parse_members p k (skip_ws r4) acc' with
                                | Some (d, w, rest) =>
                                    Some (d, w1 || w2 || w, rest)
                                | None => None
                                end
                              else None
                          end
                      end
                    else None
                end
            end
          else None
      end
  end.

(** [scan_once] at the head of a text: the value, whether a string in it
    goes beyond the embedding, and the text after it. [depth] is the
    nesting still allowed. *)
Fixpoint parse_value (depth : nat) (s : string)
  : option (value * bool * string) :=
  match s with
  | EmptyString => None
  | String c r =>
      if Ascii.eqb c dq then
        match scanstring r with
        | Some (t, w, rest) => Some (VStr t, w, rest)
        | None => None
        end
      else if Ascii.eqb c "{" then
        match depth with
        | O => None
        | S d =>
            match skip_ws r with
            | EmptyString => None
            | String c' r' =>
                if Ascii.eqb c' "}" then Some (VDict [], false, r')
                else
                  match parse_members (parse_value d) (String.length r)
                                      (skip_ws r) []
                  with
                  | Some (m, w, rest) => Some (VDict m, w, rest)
                  | None => None
                  end
            end
        end
      else if Ascii.eqb c "[" then
        match depth with
        | O => None
        | S d =>
            match skip_ws r with
            | EmptyString => None
            | String c' r' =>
                if Ascii.eqb c' "]" then Some (VList [], false, r')
                else
                  match parse_elements (parse_value d) (String.length r)
                                       (skip_ws r)
                  with
                  | Some (l, w, rest) => Some (VList l, w, rest)
                  | None => None
                  end
            end
        end
      else
        match after "null" s, after "true" s, after "false" s with
        | Some rest, _, _ => Some (VNone, false, rest)
        | _, Some rest, _ => Some (VBool true, false, rest)
        | _, _, Some rest => Some (VBool false, false, rest)
        | None, None, None =>
            match lex_number s with
            | Some (ip, fp, ep, rest) =>
                if String.eqb fp "" && String.eqb ep ""
                then match int_ ip with
                     | Some n => Some (VInt n, false, rest)
                     | None => None
                     end
                else match float_of_str (ip ++ fp ++ ep) with
                     | Some x => Some (VFloat x, false, rest)
                     | None => None
                     end
            | None =>
                match after "NaN" s, after "Infinity" s, after "-Infinity" s
                with
                | Some rest, _, _ => Some (VFloat nan, false, rest)
                | _, Some rest, _ => Some (VFloat infinity, false, rest)
                | _, _, Some rest => Some (VFloat neg_infinity, false, rest)
                | None, None, None => None
                end
            end
        end
  end.

(** [json.load]: one value between white space, and nothing after. *)
Definition loads (text : string) : loaded :=
  match parse_value max_depth (skip_ws text) with
  | None => Fails
  | Some (v, w, rest) =>
      match skip_ws rest with
      | EmptyString => if w then Outside else Loaded v
      | String _ _ => Fails
      end
  end.

(** *** The values that come back *)

(** The nesting of a value. *)
Fixpoint depth (v : value) : nat :=
  match v with
  | VList l => S (fold_right (fun x n => Nat.max (depth x) n) O l)
  | VDict d => S (fold_right (fun kv n => Nat.max (depth (snd kv)) n) O d)
  | _ => O
  end.

(** The text of a finite float is a number with a fraction or an
    exponent, which [float] reads back as the float. *)
Definition float_text_ok (x : float) : bool :=
  match Prim2SF x with
  | S754_nan | S754_infinity _ => true
  | _ =>
      match lex_number (float_repr x) with
      | Some (ip, fp, ep, EmptyString) =>
          negb (String.eqb fp "" && String.eqb ep "")
      | _ => false
      end
  end.

Definition float_ok (x : float) : Prop :=
  float_text_ok x = true
  /\ match Prim2SF x with
     | S754_nan | S754_infinity _ => True
     | _ => float_of_str (float_repr x) = Some x
     end.

(** The values [json.dump] writes and [json.load] reads back: ints of at
    most [max_str_digits] digits, floats whose text reads back, dicts
    without a repeated key. *)
Fixpoint json_ok (v : value) : Prop :=
  match v with
  | VInt n => count_digits (str_of_int n) <= max_str_digits
  | VFloat x => float_ok x
  | VList l => fold_right (fun x P => json_ok x /\ P) True l
  | VDict d =>
      List.NoDup (map fst d)
      /\ fold_right (fun kv P => json_ok (snd kv) /\ P) True d
  | _ => True
  end.

(** A value whose text, at every level and before every text that does
    not go on a number, reads back as the value and begins with a
    character of a value. *)
Definition reads_back (v : value) : Prop :=
  forall (level fuel : nat) (rest : string),
    json_ok v -> (depth v <= fuel)%nat -> delimited rest ->
    parse_value fuel (encode level v ++ rest) = Some (v, false, rest)
    /\ begins (encode level v).

End Codec.

End Json.

(** ** The application *)

Section App.

(** [float(s)] for a string ([None] is [ValueError]) and [f"{x:.2f}"]. *)
Variable float_of_str : string -> option float.
Variable format_2f : float -> string.

(** [json.dump(v, f, ensure_ascii=False, indent=2)] as the text written,
    and [json.load]. *)
Variable json_dumps : value -> string.
Variable json_loads : string -> loaded.

(** *** Storage *)

Definition empty_document : value :=
  VDict [("store_settings", VNone); ("invoices", VList []);
         ("invoice_counter", VInt 0); ("expenses", VList [])].

(** [_load_data()]: what the file holds, the default where the file is
    missing or [open] or [json.load] raise. [None] stands for a document
    outside the embedding; the function itself never raises. *)
Definition _load_data (f : file) : option value :=
  match f with
  | Missing => Some empty_document
  | Unreadable => Some empty_document
  | Content text =>
      match json_loads text with
      | Loaded v => Some v
      | Fails => Some empty_document
      | Outside => None
      end
  end.

(** The module's start: [_data = _load_data()], then the [expenses] key
    for older files. *)
Definition startup (f : file) : option (result state) :=
  match _load_data f with
  | None => None
  | Some d =>
      Some (let? present := Py.contains d "expenses" in
            let? d' := (if negb present then Py.setitem d "expenses" (VList [])
                        else Ok d) in
            Ok (mkstate d' f []))
  end.

Definition _save_data : M unit :=
  fun st =>
    (Ok tt, mkstate (_data st) (Content (json_dumps (_data st))) (flashed st)).

(** [_data.get(k, default)] *)
Definition data_get (k : string) (default : value) : M value :=
  fun st => (Py.get (_data st) k default, st).

(** [_data[k] = v] *)
Definition data_set (k : string) (v : value) : M unit :=
  fun st =>
    match Py.setitem (_data st) k v with
    | Ok d => (Ok tt, mkstate d (DATA_FILE st) (flashed st))
    | Raise e => (Raise e, st)
    end.

(** [_data.setdefault(k, default)] *)
Definition data_setdefault (k : string) (default : value) : M value :=
  fun st =>
    match _data st with
    | VDict d =>
        match Py.lookup d k with
        | Some v => (Ok v, st)
        | None =>
            (Ok default,
             mkstate (VDict (Py.store d k default)) (DATA_FILE st) (flashed st))
        end
    | _ => (Raise AttributeError, st)
    end.

(** [flash(message, category)] *)
Definition flash (message category : string) : M unit :=
  fun st =>
    (Ok tt,
     mkstate (_data st) (DATA_FILE st) (flashed st ++ [(message, category)])).

(** [float(v)] *)
Definition float_ (v : value) : result float :=
  match v with
  | VFloat x => Ok x
  | VInt n => Py.float_of_int n
  | VBool b => Ok (if b then 1 else 0)%float
  | VStr s =>
      match float_of_str s with
      | Some x => Ok x
      | None => Raise ValueError
      end
  | _ => Raise TypeError
  end.

(** *** Settings *)

Definition default_settings : value :=
  VDict [("store_name", VStr "R Sanju Store"); ("address", VStr "");
         ("phone", VStr ""); ("email", VStr ""); ("logo_url", VStr "")].

Definition get_store_settings : M value :=
  let* settings := data_get "store_settings" VNone in
  if Py.truthy settings then ret settings else ret default_settings.

Definition save_store_settings (data : value) : M unit :=
  let* _ := data_set "store_settings" data in
  _save_data.

(** *** Invoice numbers *)

Definition generate_invoice_number (now : PyDate.datetime) : M string :=
  let* current := data_get "invoice_counter" (VInt 0) in
  let* new_value := liftR (Py.add_one current) in
  let* _ := data_set "invoice_counter" new_value in
  let* _ := _save_data in
  let year := PyDate.dt_year now in
  let* suffix := liftR (Py.format_04d new_value) in
  ret ("RS-" ++ PyStr.str_of_int year ++ "-" ++ suffix)%string.

(** *** Creating an invoice *)

(** [try: float(v or 0) except ValueError: 0.0] *)
Definition float_or_zero (v : value) : result float :=
  match float_ (Py.or_ v (VInt 0)) with
  | Raise ValueError => Ok 0%float
  | r => r
  end.

(** The [try] block of a row: both numbers fall to [0.0] when either
    string is not a number. *)
Definition qty_price (qty_str price_str : string) : result (float * float) :=
  match (let? qty := float_ (Py.or_ (VStr qty_str) (VInt 0)) in
         let? price := float_ (Py.or_ (VStr price_str) (VInt 0)) in
         Ok (qty, price)) with
  | Raise ValueError => Ok (0%float, 0%float)
  | r => r
  end.

Definition make_item (desc : string) (qty price line_total : float) : value :=
  VDict [("description", VStr (PyStr.strip desc)); ("quantity", VFloat qty);
         ("unit_price", VFloat price); ("line_total", VFloat line_total)].

(** The loop over [zip(descriptions, quantities, unit_prices)], from the
    [items] and [subtotal] accumulated so far. *)
Fixpoint item_loop (rows : list (string * string * string))
    (items : list value) (subtotal : float) : result (list value * float) :=
  match rows with
  | [] => Ok (items, subtotal)
  | (desc, qty_str, price_str) :: rest =>
      if String.eqb (PyStr.strip desc) "" then item_loop rest items subtotal
      else
        let? qp := qty_price qty_str price_str in
        let line_total := (fst qp * snd qp)%float in
        item_loop rest
          (items ++ [make_item desc (fst qp) (snd qp) line_total])
          (subtotal + line_total)%float
  end.

(** [invoices.append(x)] on the list held under [_data["invoices"]]. *)
Definition invoices_append (invoices : value) (x : value) : M unit :=
  match invoices with
  | VList l => data_set "invoices" (VList (l ++ [x]))
  | _ => liftR (Raise AttributeError)
  end.

Definition new_invoice (req : request) (now : PyDate.datetime) : M response :=
  let* store := get_store_settings in
  if String.eqb (method req) "POST" then
    let form := form req in
    let created_at := PyDate.strftime_datetime now in
    let invoice_date :=
      Py.or_ (Form.get form "invoice_date")
             (VStr (PyDate.strftime_date (PyDate.date_of now))) in
    let* invoice_number := generate_invoice_number now in
    let descriptions := Form.getlist form "item_description[]" in
    let quantities := Form.getlist form "item_quantity[]" in
    let unit_prices := Form.getlist form "item_unit_price[]" in
    let* acc := liftR (item_loop (zip3 descriptions quantities unit_prices)
                                 [] 0%float) in
    let items := fst acc in
    let subtotal := snd acc in
    let* discount := liftR (float_or_zero (Form.get form "discount")) in
    let* tax := liftR (float_or_zero (Form.get form "tax")) in
    let total := (subtotal - discount + tax)%float in
    let payment_mode := Form.get form "payment_mode" in
    let payment_reference := PyStr.strip (Form.get_str form "payment_reference") in
    let notes := PyStr.strip (Form.get_str form "notes") in
    let customer_name := PyStr.strip (Form.get_str form "customer_name") in
    let customer_phone := PyStr.strip (Form.get_str form "customer_phone") in
    let customer_address := PyStr.strip (Form.get_str form "customer_address") in
    let customer_gstin := PyStr.strip (Form.get_str form "customer_gstin") in
    let invoice_data : dict :=
      [("invoice_number", VStr invoice_number);
       ("created_at", VStr created_at);
       ("invoice_date", invoice_date);
       ("customer_name", VStr customer_name);
       ("customer_phone", VStr customer_phone);
       ("customer_address", VStr customer_address);
       ("customer_gstin", VStr customer_gstin);
       ("items", VList items);
       ("subtotal", VFloat subtotal);
       ("discount", VFloat discount);
       ("tax", VFloat tax);
       ("total", VFloat total);
       ("payment_mode", payment_mode);
       ("payment_reference", VStr payment_reference);
       ("notes", VStr notes)] in
    let* invoices := data_setdefault "invoices" (VList []) in
    let* n := liftR (Py.len invoices) in
    let new_id := Py.str (n + 1) in
    let invoice_data := Py.store invoice_data "id" (VStr new_id) in
    let* _ := invoices_append invoices (VDict invoice_data) in
    let* _ := _save_data in
    let* _ := flash "Invoice created successfully." "success" in
    ret (Redirect "invoice_view" [("invoice_id", new_id)])
  else
    let today := PyDate.strftime_date (PyDate.date_of now) in
    ret (Render "new_invoice.html" [("store", store); ("today", VStr today)]).

(** *** Looking an invoice up *)

(** The first element whose [id] equals [invoice_id], with its index,
    scanning from index [idx]; what [enumerate] with [break] and
    [next(... for inv in invoices if inv.get("id") == invoice_id)] visit. *)
Fixpoint find_by_id (l : list value) (invoice_id : string) (idx : nat)
  : result (option (nat * value)) :=
  match l with
  | [] => Ok None
  | inv :: rest =>
      let? i := Py.get inv "id" VNone in
      if Py.eq_str i invoice_id then Ok (Some (idx, inv))
      else find_by_id rest invoice_id (S idx)
  end.

(** *** Deleting an invoice *)

(** [invoices.pop(i)] on the list held under [_data["invoices"]]. *)
Definition invoices_pop (invoices : value) (i : nat) : M unit :=
  match invoices with
  | VList l => data_set "invoices" (VList (delete i l))
  | _ => liftR (Raise AttributeError)
  end.

Definition delete_invoice (invoice_id : string) : M response :=
  let* invoices := data_get "invoices" (VList []) in
  let* elems := liftR (Py.iter invoices) in
  let* found := liftR (find_by_id elems invoice_id 0) in
  let index_to_remove := option_map fst found in
  let* _ :=
    match index_to_remove with
    | None => flash "Invoice not found." "error"
    | Some i =>
        let* _ := invoices_pop invoices i in
        let* _ := _save_data in
        flash "Invoice deleted successfully." "success"
    end in
  ret (Redirect "invoice_list" []).

(** *** Converting a credit invoice to cash *)

(** [invoice[k] = v], where [invoice] is the dict at index [i] of
    [_data["invoices"]]: the list sees the change. Returns the dict as it
    is afterwards. *)
Definition invoice_setitem (i : nat) (invoice : value) (k : string)
    (v : value) : M value :=
  let* invoice' := liftR (Py.setitem invoice k v) in
  let* invoices := data_get "invoices" (VList []) in
  match invoices with
  | VList l =>
      let* _ := data_set "invoices" (VList (<[i := invoice']> l)) in
      ret invoice'
  | _ => liftR (Raise TypeError)
  end.

Definition conversion_note (now : PyDate.datetime) : string :=
  ("[Converted from CREDIT to CASH on " ++ PyDate.strftime_datetime now ++ "]")%string.

Definition convert_credit_to_cash (invoice_id : string)
    (now : PyDate.datetime) : M response :=
  let* invoices := data_get "invoices" (VList []) in
  let* elems := liftR (Py.iter invoices) in
  let* found := liftR (find_by_id elems invoice_id 0) in
  let invoice := match found with Some (_, inv) => inv | None => VNone end in
  let idx := match found with Some (i, _) => i | None => O end in
  if negb (Py.truthy invoice) then
    let* _ := flash "Invoice not found." "error" in
    ret (Redirect "invoice_list" [])
  else
    let* mode := liftR (Py.get invoice "payment_mode" VNone) in
    let* mode_upper := liftR (Py.upper (Py.or_ mode (VStr ""))) in
    if negb (String.eqb mode_upper "CREDIT") then
      let* _ := flash "Invoice is not in CREDIT payment mode." "error" in
      ret (Redirect "invoice_view" [("invoice_id", invoice_id)])
    else
      let* invoice := invoice_setitem idx invoice "payment_mode" (VStr "CASH") in
      let timestamp_note := conversion_note now in
      let* notes := liftR (Py.get invoice "notes" VNone) in
      let* existing_notes := liftR (Py.strip (Py.or_ notes (VStr ""))) in
      let* _ :=
        if negb (String.eqb existing_notes "") then
          invoice_setitem idx invoice "notes"
            (VStr (existing_notes ++ String "010" timestamp_note)%string)
        else invoice_setitem idx invoice "notes" (VStr timestamp_note) in
      let* _ := _save_data in
      let* _ := flash "Invoice payment changed from CREDIT to CASH." "success" in
      ret (Redirect "invoice_view" [("invoice_id", invoice_id)]).

(** *** Reports *)

(** [inv.get("invoice_date") or inv.get("created_at", "").split(" ")[0]] *)
Definition effective_date_str (inv : value) : result value :=
  let? invoice_date := Py.get inv "invoice_date" VNone in
  if Py.truthy invoice_date then Ok invoice_date
  else
    let? created_at := Py.get inv "created_at" (VStr "") in
    Py.split_first created_at.

(** [datetime.strptime(v, "%Y-%m-%d").date()] *)
Definition strptime_value (v : value) : result PyDate.date :=
  match v with
  | VStr s =>
      match PyDate.strptime s with
      | Some d => Ok d
      | None => Raise ValueError
      end
  | _ => Raise TypeError
  end.

(** The loop that fills [inv_filtered]: an invoice whose date does not
    parse is skipped; [keep] is the test on the parsed date. *)
Fixpoint filter_invoices (keep : PyDate.date -> bool) (invoices : list value)
    (inv_filtered : list value) : result (list value) :=
  match invoices with
  | [] => Ok inv_filtered
  | inv :: rest =>
      let? inv_date_str := effective_date_str inv in
      match strptime_value inv_date_str with
      | Raise _ => filter_invoices keep rest inv_filtered
      | Ok inv_d =>
          if keep inv_d then filter_invoices keep rest (inv_filtered ++ [inv])
          else filter_invoices keep rest inv_filtered
      end
  end.

(** The monthly loop that fills [exp_filtered]. *)
Fixpoint filter_expenses_month (year month : Z) (expenses_data : list value)
    (exp_filtered : list value) : result (list value) :=
  match expenses_data with
  | [] => Ok exp_filtered
  | exp :: rest =>
      let? exp_date_str := Py.get exp "date" VNone in
      if negb (Py.truthy exp_date_str)
      then filter_expenses_month year month rest exp_filtered
      else
        match strptime_value exp_date_str with
        | Raise _ => filter_expenses_month year month rest exp_filtered
        | Ok exp_d =>
            if (PyDate.year exp_d =? year) && (PyDate.month exp_d =? month)
            then filter_expenses_month year month rest (exp_filtered ++ [exp])
            else filter_expenses_month year month rest exp_filtered
        end
  end.

(** [[exp for exp in expenses_data if exp.get("date") == selected_date]] *)
Fixpoint filter_expenses_day (selected_date : string)
    (expenses_data : list value) : result (list value) :=
  match expenses_data with
  | [] => Ok []
  | exp :: rest =>
      let? d := Py.get exp "date" VNone in
      let? tl := filter_expenses_day selected_date rest in
      Ok (if Py.eq_str d selected_date then exp :: tl else tl)
  end.

(** [sum(float(x.get(k) or 0) for x in l)], from the partial sum [acc]:
    the additions are made left to right. (Of no elements Python's [sum]
    is the int [0], which equals and prints as the float.) *)
Fixpoint sum_field (k : string) (l : list value) (acc : float) : result float :=
  match l with
  | [] => Ok acc
  | x :: rest =>
      let? v := Py.get x k VNone in
      let? f := float_ (Py.or_ v (VInt 0)) in
      sum_field k rest (acc + f)%float
  end.

(** [year, month = map(int, selected_month.split("-"))]; [None] is
    [ValueError]. *)
Definition parse_year_month (selected_month : string) : option (Z * Z) :=
  match map PyStr.int_ (PyStr.split "-" selected_month) with
  | [Some year; Some month] => Some (year, month)
  | _ => None
  end.

(** [request.args.get(k) or default] *)
Definition arg_or (args : multidict) (k : string) (default : string) : string :=
  match Py.or_ (Form.get args k) (VStr default) with
  | VStr s => s
  | _ => default
  end.

Definition trend_of (net_total : float) : string :=
  if (0 <? net_total)%float then "profitable"
  else if (net_total <? 0)%float then "loss-making"
  else "balanced".

Definition no_activity : string :=
  "No financial activity recorded for this period.".

Definition narrative (label : string) (sales_total expenses_total net_total : float)
    (invoice_count expense_count : Z) : string :=
  if (invoice_count =? 0) && (expense_count =? 0) then no_activity
  else
    let trend := trend_of net_total in
    ("AI summary: For " ++ label ++ ", total sales are Rs. "
     ++ format_2f sales_total ++ " across " ++ PyStr.str_of_int invoice_count
     ++ " invoice(s), with expenses of Rs. " ++ format_2f expenses_total
     ++ ". The period is " ++ trend ++ " with a net of Rs. "
     ++ format_2f net_total ++ ". "
     ++ (if (0 <? expenses_total)%float
         then "Consider reviewing infrastructure and operational costs to optimize profit."
         else "No expenses recorded, so all sales are currently counted as profit."))%string.

(** The first half of [reports]: the filtered lists, the label, and the
    [selected_date] as it stands afterwards. *)
Definition filter_period (invoices expenses_data : value)
    (period selected_date selected_month : string) (now : PyDate.datetime)
  : result (list value * list value * string * string) :=
  if String.eqb period "monthly" then
    let ym := match parse_year_month selected_month with
              | Some ym => ym
              | None => (PyDate.dt_year now, PyDate.dt_month now)
              end in
    let year := fst ym in
    let month := snd ym in
    let? invs := Py.iter invoices in
    let? inv_filtered :=
      filter_invoices
        (fun inv_d => (PyDate.year inv_d =? year) && (PyDate.month inv_d =? month))
        invs [] in
    let? exps := Py.iter expenses_data in
    let? exp_filtered := filter_expenses_month year month exps [] in
    let label := (PyStr.str_of_int year ++ "-" ++ PyStr.format_0d 2 month
                  ++ " (Monthly)")%string in
    Ok (inv_filtered, exp_filtered, label, selected_date)
  else
    let d_sel :=
      match PyDate.strptime selected_date with
      | Some d => (d, selected_date)
      | None => (PyDate.date_of now, PyDate.strftime_date (PyDate.date_of now))
      end in
    let d := fst d_sel in
    let selected_date := snd d_sel in
    let? invs := Py.iter invoices in
    let? inv_filtered :=
      filter_invoices (fun inv_d => PyDate.date_eqb inv_d d) invs [] in
    let? exps := Py.iter expenses_data in
    let? exp_filtered := filter_expenses_day selected_date exps in
    let label := (selected_date ++ " (Daily)")%string in
    Ok (inv_filtered, exp_filtered, label, selected_date).

Definition reports (req : request) (now : PyDate.datetime) : M response :=
  let* store := get_store_settings in
  let* invoices := data_get "invoices" (VList []) in
  let* expenses_data := data_get "expenses" (VList []) in
  let today_str := PyDate.strftime_date (PyDate.date_of now) in
  let current_month_str := PyDate.strftime_month now in
  let period := arg_or (args req) "period" "daily" in
  let selected_date := arg_or (args req) "date" today_str in
  let selected_month := arg_or (args req) "month" current_month_str in
  let* filtered :=
    liftR (filter_period invoices expenses_data period selected_date
                         selected_month now) in
  let '(inv_filtered, exp_filtered, label, selected_date) := filtered in
  let* sales_total := liftR (sum_field "total" inv_filtered 0%float) in
  let* expenses_total := liftR (sum_field "amount" exp_filtered 0%float) in
  let net_total := (sales_total - expenses_total)%float in
  let invoice_count := Z.of_nat (length inv_filtered) in
  let expense_count := Z.of_nat (length exp_filtered) in
  let ai_summary :=
    narrative label sales_total expenses_total net_total
              invoice_count expense_count in
  let report : dict :=
    [("label", VStr label);
     ("sales_total", VFloat sales_total);
     ("expenses_total", VFloat expenses_total);
     ("net_total", VFloat net_total);
     ("invoice_count", VInt invoice_count);
     ("expense_count", VInt expense_count);
     ("invoices", VList inv_filtered);
     ("expenses", VList exp_filtered);
     ("ai_summary", VStr ai_summary)] in
  ret (Render "reports.html"
         [("store", store); ("report", VDict report);
          ("period", VStr period); ("selected_date", VStr selected_date);
          ("selected_month", VStr selected_month)]).

(** *** What the theorems speak of *)

(** The record stored under [store_settings], [None] when the key is
    missing. *)
Definition stored_settings (d : dict) : value :=
  match Py.lookup d "store_settings" with
  | Some v => v
  | None => VNone
  end.

(** [_data.get("invoice_counter", 0)] *)
Definition counter_of (d : dict) : value :=
  match Py.lookup d "invoice_counter" with
  | Some v => v
  | None => VInt 0
  end.

(** [f"RS-{year}-{m:04d}"] *)
Definition invoice_number_text (year m : Z) : string :=
  ("RS-" ++ PyStr.str_of_int year ++ "-" ++ PyStr.format_0d 4 m)%string.

(** Successive calls of the generator at the clock readings [nows]: what
    each call returned, and the state after the last. *)
Fixpoint successive_numbers (nows : list PyDate.datetime) (st : state)
  : list (result string) * state :=
  match nows with
  | [] => ([], st)
  | now :: rest =>
      let (r, st') := generate_invoice_number now st in
      let (rs, st'') := successive_numbers rest st' in
      (r :: rs, st'')
  end.

(** A computation that, run on a document with an int counter, leaves a
    document whose counter is an int that is not smaller, whether it
    returns or raises. *)
Definition counter_grows {A : Type} (m : M A) : Prop :=
  forall (st : state) (d : dict) (n : Z),
    _data st = VDict d ->
    counter_of d = VInt n ->
    exists (d' : dict) (n' : Z),
      _data (snd (m st)) = VDict d' /\ counter_of d' = VInt n' /\ n <= n'.

(** No handler of the model lowers or resets the counter. *)
Definition counter_never_lowered : Prop :=
  (forall req now, counter_grows (new_invoice req now))
  /\ (forall invoice_id, counter_grows (delete_invoice invoice_id))
  /\ (forall invoice_id now,
         counter_grows (convert_credit_to_cash invoice_id now))
  /\ (forall req now, counter_grows (reports req now))
  /\ (forall data, counter_grows (save_store_settings data))
  /\ counter_grows get_store_settings.

(** [_data.get("invoices", [])] *)
Definition invoices_of (d : dict) : value :=
  match Py.lookup d "invoices" with
  | Some v => v
  | None => VList []
  end.

(** A dict whose [id] is the string [invoice_id]. *)
Definition has_id (invoice_id : string) (inv : value) : bool :=
  match inv with
  | VDict d =>
      match Py.lookup d "id" with
      | Some v => Py.eq_str v invoice_id
      | None => false
      end
  | _ => false
  end.

(** A dict whose [id] is something else, or missing. *)
Definition other_record (invoice_id : string) (inv : value) : bool :=
  match inv with
  | VDict _ => negb (has_id invoice_id inv)
  | _ => false
  end.

(** [invoice.get("payment_mode")] and [invoice.get("notes")] *)
Definition payment_mode_of (inv : dict) : value :=
  match Py.lookup inv "payment_mode" with
  | Some v => v
  | None => VNone
  end.

Definition notes_of (inv : dict) : value :=
  match Py.lookup inv "notes" with
  | Some v => v
  | None => VNone
  end.

(** The invoice after a conversion at [now], [n] being its notes before. *)
Definition converted (inv : dict) (n : string) (now : PyDate.datetime) : dict :=
  Py.store (Py.store inv "payment_mode" (VStr "CASH")) "notes"
    (VStr (if String.eqb n "" then conversion_note now
           else (n ++ String "010" (conversion_note now))%string)).

Definition not_credit_flash : string * string :=
  ("Invoice is not in CREDIT payment mode.", "error").

(** [float(s or 0)] where a string that is no number counts as [None]. *)
Definition number_of (s : string) : option float :=
  if String.eqb s "" then Some 0%float else float_of_str s.

(** The quantity and unit price a submitted row is stored with. *)
Definition row_numbers (row : string * string * string) : float * float :=
  match number_of (snd (fst row)), number_of (snd row) with
  | Some qty, Some price => (qty, price)
  | _, _ => (0%float, 0%float)
  end.

Definition row_total (row : string * string * string) : float :=
  (fst (row_numbers row) * snd (row_numbers row))%float.

Definition row_item (row : string * string * string) : value :=
  make_item (fst (fst row)) (fst (row_numbers row)) (snd (row_numbers row))
            (row_total row).

(** A row is kept when its trimmed description is not empty. *)
Definition kept (row : string * string * string) : bool :=
  negb (String.eqb (PyStr.strip (fst (fst row))) "").

(** [float(form.get(k) or 0)], [0.0] on [ValueError]. *)
Definition amount_of (form : multidict) (k : string) : float :=
  match Form.get form k with
  | VStr s => match number_of s with Some x => x | None => 0%float end
  | _ => 0%float
  end.

(** The [line_total] stored in an item. *)
Definition item_line_total (item : value) : option float :=
  match item with
  | VDict it =>
      match Py.lookup it "line_total" with
      | Some (VFloat x) => Some x
      | _ => None
      end
  | _ => None
  end.

(** [zip(descriptions, quantities, unit_prices)] of a submitted form. *)
Definition submitted_rows (form : multidict) : list (string * string * string) :=
  zip3 (Form.getlist form "item_description[]")
       (Form.getlist form "item_quantity[]")
       (Form.getlist form "item_unit_price[]").

(** The invoice [new_invoice] stores for a form, given its number and id. *)
Definition created_invoice (form : multidict) (now : PyDate.datetime)
    (invoice_number new_id : string) : dict :=
  let rows := List.filter kept (submitted_rows form) in
  let subtotal := sum_floats (map row_total rows) in
  let discount := amount_of form "discount" in
  let tax := amount_of form "tax" in
  [("invoice_number", VStr invoice_number);
   ("created_at", VStr (PyDate.strftime_datetime now));
   ("invoice_date",
    Py.or_ (Form.get form "invoice_date")
           (VStr (PyDate.strftime_date (PyDate.date_of now))));
   ("customer_name", VStr (PyStr.strip (Form.get_str form "customer_name")));
   ("customer_phone", VStr (PyStr.strip (Form.get_str form "customer_phone")));
   ("customer_address", VStr (PyStr.strip (Form.get_str form "customer_address")));
   ("customer_gstin", VStr (PyStr.strip (Form.get_str form "customer_gstin")));
   ("items", VList (map row_item rows));
   ("subtotal", VFloat subtotal);
   ("discount", VFloat discount);
   ("tax", VFloat tax);
   ("total", VFloat (subtotal - discount + tax)%float);
   ("payment_mode", Form.get form "payment_mode");
   ("payment_reference", VStr (PyStr.strip (Form.get_str form "payment_reference")));
   ("notes", VStr (PyStr.strip (Form.get_str form "notes")));
   ("id", VStr new_id)].

(** [x.get(k)] on a record, [None] for anything that is not a dict. *)
Definition field (x : value) (k : string) : value :=
  match x with
  | VDict d => match Py.lookup d k with Some v => v | None => VNone end
  | _ => VNone
  end.

(** [_data.get("expenses", [])] *)
Definition expenses_of (d : dict) : value :=
  match Py.lookup d "expenses" with
  | Some v => v
  | None => VList []
  end.

(** The effective date of an invoice as text: [invoice_date] if present,
    else the part of [created_at] before the first space. *)
Definition effective_date_text (inv : value) : option string :=
  if Py.truthy (field inv "invoice_date") then
    match field inv "invoice_date" with
    | VStr s => Some s
    | _ => None
    end
  else
    match inv with
    | VDict d =>
        match Py.lookup d "created_at" with
        | Some (VStr s) => Some (hd EmptyString (PyStr.split " " s))
        | Some _ => None
        | None => Some EmptyString
        end
    | _ => None
    end.

(** The effective date as a date of the calendar, when it parses. *)
Definition effective_date (inv : value) : option PyDate.date :=
  match effective_date_text inv with
  | Some s => PyDate.strptime s
  | None => None
  end.

(** The date of an expense, when it is there and parses. *)
Definition expense_date (exp : value) : option PyDate.date :=
  match field exp "date" with
  | VStr s => PyDate.strptime s
  | _ => None
  end.

Definition in_month (year month : Z) (d : option PyDate.date) : bool :=
  match d with
  | Some d => (PyDate.year d =? year) && (PyDate.month d =? month)
  | None => false
  end.

Definition on_day (day : PyDate.date) (d : option PyDate.date) : bool :=
  match d with
  | Some d => PyDate.date_eqb d day
  | None => false
  end.

(** An invoice record whose date can be read: a dict whose [created_at],
    if [invoice_date] does not stand for it, is a string or missing. *)
Definition date_readable (inv : value) : bool :=
  match inv with
  | VDict d =>
      Py.truthy (field inv "invoice_date")
      || match Py.lookup d "created_at" with
         | Some (VStr _) | None => true
         | Some _ => false
         end
  | _ => false
  end.

Definition is_dict (x : value) : bool :=
  match x with
  | VDict _ => true
  | _ => false
  end.

(** [float(x.get(k) or 0)], when it does not raise. *)
Definition amount_opt (k : string) (x : value) : option float :=
  match float_ (Py.or_ (field x k) (VInt 0)) with
  | Ok a => Some a
  | Raise _ => None
  end.

Definition amount (k : string) (x : value) : float :=
  match amount_opt k x with
  | Some a => a
  | None => 0%float
  end.

(** A record whose amount under [k] can be read as a float. *)
Definition amount_readable (k : string) (x : value) : bool :=
  is_dict x && match amount_opt k x with Some _ => true | None => false end.

(** The report built from the filtered lists. *)
Definition report_of (label : string) (inv_filtered exp_filtered : list value)
  : dict :=
  let sales_total := sum_floats (map (amount "total") inv_filtered) in
  let expenses_total := sum_floats (map (amount "amount") exp_filtered) in
  let net_total := (sales_total - expenses_total)%float in
  let invoice_count := Z.of_nat (length inv_filtered) in
  let expense_count := Z.of_nat (length exp_filtered) in
  [("label", VStr label);
   ("sales_total", VFloat sales_total);
   ("expenses_total", VFloat expenses_total);
   ("net_total", VFloat net_total);
   ("invoice_count", VInt invoice_count);
   ("expense_count", VInt expense_count);
   ("invoices", VList inv_filtered);
   ("expenses", VList exp_filtered);
   ("ai_summary",
    VStr (narrative label sales_total expenses_total net_total
                    invoice_count expense_count))].

(** The year and month a monthly report is made for. *)
Definition report_month (selected_month : string) (now : PyDate.datetime)
  : Z * Z :=
  match parse_year_month selected_month with
  | Some ym => ym
  | None => (PyDate.dt_year now, PyDate.dt_month now)
  end.

(** The day a daily report is made for. *)
Definition report_day (selected_date : string) (now : PyDate.datetime)
  : PyDate.date :=
  match PyDate.strptime selected_date with
  | Some d => d
  | None => PyDate.date_of now
  end.

(** The [selected_date] handed to the template. *)
Definition echoed_date (selected_date : string) (now : PyDate.datetime)
  : string :=
  match PyDate.strptime selected_date with
  | Some _ => selected_date
  | None => PyDate.strftime_date (PyDate.date_of now)
  end.

(** The query string of a request, with the defaults of [reports]. *)
Definition period_of (req : request) : string :=
  arg_or (args req) "period" "daily".

Definition selected_date_of (req : request) (now : PyDate.datetime) : string :=
  arg_or (args req) "date" (PyDate.strftime_date (PyDate.date_of now)).

Definition selected_month_of (req : request) (now : PyDate.datetime) : string :=
  arg_or (args req) "month" (PyDate.strftime_month now).

(** The documents on which [reports] reads every record without an
    exception. *)
Definition readable (d : dict) (l e : list value) : Prop :=
  invoices_of d = VList l
  /\ expenses_of d = VList e
  /\ Forall (fun inv => date_readable inv = true) l
  /\ Forall (fun inv => amount_readable "total" inv = true) l
  /\ Forall (fun exp => amount_readable "amount" exp = true) e.

Definition settings_shown (d : dict) : value :=
  if Py.truthy (stored_settings d) then stored_settings d else default_settings.

End App.

(** ** The other pages *)

(** The pages that list, show and download invoices, the expenses page
    and the settings form. *)

Module PyText.

Definition lower_char (c : ascii) : ascii :=
  let n := N_of_ascii c in
  if ((65 <=? n) && (n <=? 90)
      || (192 <=? n) && (n <=? 222) && negb (n =? 215))%N
  then ascii_of_N (n + 32) else c.

(** [s.lower()] on the code points below 256: A-Z and the accented
    capitals of Latin-1 move 32 places up. *)
Fixpoint lower (s : string) : string :=
  match s with
  | EmptyString => EmptyString
  | String c r => String (lower_char c) (lower r)
  end.

(** [v.lower()] *)
Definition lower_value (v : value) : result string :=
  match v with
  | VStr s => Ok (lower s)
  | _ => Raise AttributeError
  end.

(** [s.find(sub) != -1] *)
Definition found_in (sub s : string) : bool := Py.is_substring sub s.

(** One step of a stable sort in descending order: [x], which stood
    before every record of [l], goes in front of the first record whose
    key is not above its own. *)
Fixpoint insert_desc (x : value * string) (l : list (value * string))
  : list (value * string) :=
  match l with
  | [] => [x]
  | y :: r =>
      if String.ltb (snd x) (snd y) then y :: insert_desc x r else x :: l
  end.

(** [l.sort(key=..., reverse=True)] for records with string keys: by key,
    largest first, records with equal keys in the order they had. *)
Definition sort_desc (l : list (value * string)) : list (value * string) :=
  fold_right insert_desc [] l.

Definition string_key (kv : value * value) : option (value * string) :=
  match snd kv with
  | VStr s => Some (fst kv, s)
  | _ => None
  end.

Definition is_string (v : value) : bool :=
  match v with
  | VStr _ => true
  | _ => false
  end.

(** The keys [x.get(k, default)] of the records, in order. *)
Fixpoint keys_of (k : string) (default : value) (l : list value)
  : result (list (value * value)) :=
  match l with
  | [] => Ok []
  | x :: rest =>
      let? key := Py.get x k default in
      let? tl := keys_of k default rest in
      Ok ((x, key) :: tl)
  end.

Fixpoint string_keys (l : list (value * value)) : list (value * string) :=
  match l with
  | [] => []
  | (x, VStr s) :: rest => (x, s) :: string_keys rest
  | _ :: rest => string_keys rest
  end.

End PyText.

Section Pages.

Variable float_of_str : string -> option float.
Variable format_2f : float -> string.
Variable json_dumps : value -> string.

(** The order [list.sort] gives to two or more records none of whose
    keys is a string (numbers, lists), or the exception it raises. *)
Variable sort_other : list (value * value) -> result (list value).

(** [str(v)] for a value that is not a string, [None], a bool or an
    int. *)
Variable str_other : value -> string.

(** [l.sort(key=lambda x: x.get(k, default), reverse=True)] on a copy of
    the list: the keys are read first; fewer than two records are not
    compared; a string is compared with strings only, so a string key
    among other keys ends in [TypeError]. *)
Definition sorted_by (k : string) (default : value) (l : list value)
  : result (list value) :=
  let? keyed := PyText.keys_of k default l in
  if (length l <? 2)%nat then Ok l
  else if forallb (fun kv => PyText.is_string (snd kv)) keyed
       then Ok (map fst (PyText.sort_desc (PyText.string_keys keyed)))
  else if existsb (fun kv => PyText.is_string (snd kv)) keyed
       then Raise TypeError
  else sort_other keyed.

(** [str(v)] and [f"{v}"] *)
Definition str_ (v : value) : string :=
  match v with
  | VStr s => s
  | VNone => "None"
  | VBool b => if b then "True" else "False"
  | VInt n => PyStr.str_of_int n
  | _ => str_other v
  end.

(** *** The list of invoices *)

(** [[inv for inv in invoices
      if (inv.get("customer_name") or "").lower().find(f) != -1]] *)
Fixpoint filter_customer (customer_filter : string) (invoices : list value)
  : result (list value) :=
  match invoices with
  | [] => Ok []
  | inv :: rest =>
      let? name := Py.get inv "customer_name" VNone in
      let? low := PyText.lower_value (Py.or_ name (VStr "")) in
      let? tl := filter_customer customer_filter rest in
      Ok (if PyText.found_in customer_filter low then inv :: tl else tl)
  end.

(** [[inv for inv in invoices if _get_invoice_date(inv) == search_date]] *)
Fixpoint filter_date (search_date : string) (invoices : list value)
  : result (list value) :=
  match invoices with
  | [] => Ok []
  | inv :: rest =>
      let? inv_date_str := effective_date_str inv in
      let? tl := filter_date search_date rest in
      Ok (if Py.eq_str inv_date_str search_date then inv :: tl else tl)
  end.

Definition invoice_list (req : request) : M response :=
  let* store := get_store_settings in
  let search_customer := PyStr.strip (arg_or (args req) "customer" "") in
  let search_date := PyStr.strip (arg_or (args req) "date" "") in
  let* stored := data_get "invoices" (VList []) in
  let* invoices := liftR (Py.iter stored) in
  let* invoices := liftR (sorted_by "created_at" (VStr "") invoices) in
  let customer_filter := PyText.lower search_customer in
  let* invoices :=
    if negb (String.eqb customer_filter "")
    then liftR (filter_customer customer_filter invoices)
    else ret invoices in
  let* invoices :=
    if negb (String.eqb search_date "")
    then liftR (filter_date search_date invoices)
    else ret invoices in
  ret (Render "invoice_list.html"
         [("store", store); ("invoices", VList invoices);
          ("search_customer", VStr search_customer);
          ("search_date", VStr search_date)]).

(** *** One invoice *)

Definition invoice_view (invoice_id : string) : M response :=
  let* store := get_store_settings in
  let* invoices := data_get "invoices" (VList []) in
  let* elems := liftR (Py.iter invoices) in
  let* found := liftR (find_by_id elems invoice_id 0) in
  let invoice := match found with Some (_, inv) => inv | None => VNone end in
  if negb (Py.truthy invoice) then
    let* _ := flash "Invoice not found." "error" in
    ret (Redirect "invoice_list" [])
  else
    ret (Render "invoice_view.html" [("store", store); ("invoice", invoice)]).

(** What [make_response] is given, and the headers set on it. *)
Inductive reply : Type :=
| Plain (r : response)
| Made (body : response) (headers : list (string * string))
| MadeText (body : string) (headers : list (string * string)).

Definition cr : ascii := "013".
Definition nl : ascii := "010".

(** A text that holds a carriage return or a line feed. *)
Fixpoint has_newline (s : string) : bool :=
  match s with
  | EmptyString => false
  | String c r => Ascii.eqb c cr || Ascii.eqb c nl || has_newline r
  end.

(** [response.headers[name] = value]: the header is refused with
    [ValueError] when its value holds a carriage return or a line feed. *)
Definition set_header (name value : string) (headers : list (string * string))
    : result (list (string * string)) :=
  if has_newline value then Raise ValueError
  else Ok (headers ++ [(name, value)])%list.

Definition download_invoice (invoice_id : string) : M reply :=
  let* store := get_store_settings in
  let* invoices := data_get "invoices" (VList []) in
  let* elems := liftR (Py.iter invoices) in
  let* found := liftR (find_by_id elems invoice_id 0) in
  let invoice := match found with Some (_, inv) => inv | None => VNone end in
  if negb (Py.truthy invoice) then
    let* _ := flash "Invoice not found." "error" in
    ret (Plain (Redirect "invoice_list" []))
  else
    let html := Render "invoice_view.html"
                  [("store", store); ("invoice", invoice)] in
    let* number := liftR (Py.get invoice "invoice_number" (VStr invoice_id)) in
    let filename := ("invoice-" ++ str_ number ++ ".html")%string in
    let* headers :=
      liftR (set_header "Content-Type" "text/html; charset=utf-8" []) in
    let* headers :=
      liftR (set_header "Content-Disposition"
                        ("attachment; filename=" ++ filename)%string headers) in
    ret (Made html headers).

(** *** Expenses *)

(** [exp_list.append(x)] on the list held under [_data["expenses"]]. *)
Definition expenses_append (exp_list : value) (x : value) : M unit :=
  match exp_list with
  | VList l => data_set "expenses" (VList (l ++ [x]))
  | _ => liftR (Raise AttributeError)
  end.

Definition expenses (req : request) (now : PyDate.datetime) : M response :=
  let* store := get_store_settings in
  if String.eqb (method req) "POST" then
    let form := form req in
    let d := Py.or_ (Form.get form "date")
                    (VStr (PyDate.strftime_date (PyDate.date_of now))) in
    let desc := PyStr.strip (Form.get_str form "description") in
    let category := PyStr.strip (Form.get_str form "category") in
    let* amount := liftR (float_or_zero float_of_str (Form.get form "amount")) in
    let* exp_list := data_setdefault "expenses" (VList []) in
    let* n := liftR (Py.len exp_list) in
    let new_id := Py.str (n + 1) in
    let* _ :=
      expenses_append exp_list
        (VDict [("id", VStr new_id); ("date", d); ("description", VStr desc);
                ("category", VStr category); ("amount", VFloat amount)]) in
    let* _ := _save_data json_dumps in
    let* _ := flash "Expense recorded." "success" in
    ret (Redirect "expenses" [])
  else
    let* stored := data_get "expenses" (VList []) in
    let* all_expenses := liftR (Py.iter stored) in
    let* all_expenses := liftR (sorted_by "date" (VStr "") all_expenses) in
    let today := PyDate.strftime_date (PyDate.date_of now) in
    ret (Render "expenses.html"
           [("store", store); ("expenses", VList all_expenses);
            ("today", VStr today)]).

(** *** The settings form *)

Definition settings (req : request) : M response :=
  if String.eqb (method req) "POST" then
    let data :=
      VDict [("store_name", VStr (PyStr.strip (Form.get_str (form req) "store_name")));
             ("address", VStr (PyStr.strip (Form.get_str (form req) "address")));
             ("phone", VStr (PyStr.strip (Form.get_str (form req) "phone")));
             ("email", VStr (PyStr.strip (Form.get_str (form req) "email")));
             ("logo_url", VStr (PyStr.strip (Form.get_str (form req) "logo_url")))] in
    let* _ := save_store_settings json_dumps data in
    let* _ := flash "Store settings saved." "success" in
    ret (Redirect "settings" [])
  else
    let* store := get_store_settings in
    ret (Render "settings.html" [("store", store)]).

(** *** The CSV export *)

Definition dquote : ascii := ascii_of_nat 34.

(** A field has to be quoted when it holds the delimiter, the quote
    character or a character of the line terminator. *)
Fixpoint needs_quote (s : string) : bool :=
  match s with
  | EmptyString => false
  | String c r =>
      Ascii.eqb c "," || Ascii.eqb c dquote || Ascii.eqb c cr
      || Ascii.eqb c nl || needs_quote r
  end.

(** Every quote character written twice. *)
Fixpoint double_quotes (s : string) : string :=
  match s with
  | EmptyString => EmptyString
  | String c r =>
      if Ascii.eqb c dquote then String c (String c (double_quotes r))
      else String c (double_quotes r)
  end.

(** The text [csv.writer] makes of a field: nothing for [None], the
    string itself, [str] of anything else. *)
Definition csv_text (v : value) : string :=
  match v with
  | VNone => EmptyString
  | _ => str_ v
  end.

Definition csv_field (s : string) : string :=
  if needs_quote s
  then String dquote (double_quotes s ++ String dquote EmptyString)
  else s.

Fixpoint join_comma (fields : list string) : string :=
  match fields with
  | [] => EmptyString
  | [f] => f
  | f :: rest => (f ++ String "," (join_comma rest))%string
  end.

(** [writer.writerow(fields)] in the default dialect: the line with its
    terminator; a row of one empty field is written as two quotes. *)
Definition csv_row (fields : list value) : string :=
  let line := join_comma (map (fun v => csv_field (csv_text v)) fields) in
  let line :=
    match fields with
    | [_] => if String.eqb line "" then String dquote (String dquote EmptyString)
             else line
    | _ => line
    end in
  (line ++ String cr (String nl EmptyString))%string.

(** The cell with the date of an invoice:
    [inv.get("invoice_date") or (inv.get("created_at", "").split(" ")[0]
     if inv.get("created_at") else "")]. *)
Definition date_cell (inv : value) : result value :=
  let? invoice_date := Py.get inv "invoice_date" VNone in
  if Py.truthy invoice_date then Ok invoice_date
  else
    let? created := Py.get inv "created_at" VNone in
    if Py.truthy created then
      let? created_at := Py.get inv "created_at" (VStr "") in
      Py.split_first created_at
    else Ok (VStr "").

(** The rows of the invoices, one [writerow] after the other. *)
Fixpoint invoice_rows (inv_filtered : list value) : result string :=
  match inv_filtered with
  | [] => Ok EmptyString
  | inv :: rest =>
      let? number := Py.get inv "invoice_number" (VStr "") in
      let? date := date_cell inv in
      let? customer := Py.get inv "customer_name" VNone in
      let? total := Py.get inv "total" VNone in
      let? total := float_ float_of_str (Py.or_ total (VInt 0)) in
      let? mode := Py.get inv "payment_mode" VNone in
      let row := csv_row [number; date; Py.or_ customer (VStr "-");
                          VStr (format_2f total); Py.or_ mode (VStr "-")] in
      let? tl := invoice_rows rest in
      Ok (row ++ tl)%string
  end.

(** The rows of the expenses. *)
Fixpoint expense_rows (exp_filtered : list value) : result string :=
  match exp_filtered with
  | [] => Ok EmptyString
  | exp :: rest =>
      let? date := Py.get exp "date" (VStr "") in
      let? description := Py.get exp "description" (VStr "") in
      let? category := Py.get exp "category" VNone in
      let? amount := Py.get exp "amount" VNone in
      let? amount := float_ float_of_str (Py.or_ amount (VInt 0)) in
      let row := csv_row [date; description; Py.or_ category (VStr "-");
                          VStr (format_2f amount)] in
      let? tl := expense_rows rest in
      Ok (row ++ tl)%string
  end.

Definition export_report (req : request) (now : PyDate.datetime) : M reply :=
  let* invoices := data_get "invoices" (VList []) in
  let* expenses_data := data_get "expenses" (VList []) in
  let today_str := PyDate.strftime_date (PyDate.date_of now) in
  let current_month_str := PyDate.strftime_month now in
  let period := arg_or (args req) "period" "daily" in
  let selected_date := arg_or (args req) "date" today_str in
  let selected_month := arg_or (args req) "month" current_month_str in
  let* filtered :=
    liftR (filter_period invoices expenses_data period selected_date
                         selected_month now) in
  let '(inv_filtered, exp_filtered, label, selected_date) := filtered in
  let* sales_total := liftR (sum_field float_of_str "total" inv_filtered 0%float) in
  let* expenses_total :=
    liftR (sum_field float_of_str "amount" exp_filtered 0%float) in
  let net_total := (sales_total - expenses_total)%float in
  let summary :=
    (csv_row [VStr "Report"; VStr label]
     ++ csv_row [VStr "Total sales"; VStr (format_2f sales_total)]
     ++ csv_row [VStr "Total expenses"; VStr (format_2f expenses_total)]
     ++ csv_row [VStr "Net (sales - expenses)"; VStr (format_2f net_total)]
     ++ csv_row [])%string in
  let invoices_head :=
    (csv_row [VStr "Invoices"]
     ++ csv_row [VStr "Invoice #"; VStr "Date"; VStr "Customer"; VStr "Total";
                 VStr "Payment mode"])%string in
  let* invoices_body := liftR (invoice_rows inv_filtered) in
  let expenses_head :=
    (csv_row []
     ++ csv_row [VStr "Expenses"]
     ++ csv_row [VStr "Date"; VStr "Description"; VStr "Category";
                 VStr "Amount"])%string in
  let* expenses_body := liftR (expense_rows exp_filtered) in
  let csv_data :=
    (summary ++ invoices_head ++ invoices_body ++ expenses_head
     ++ expenses_body)%string in
  let filename_period :=
    if String.eqb period "monthly" then selected_month else selected_date in
  let filename :=
    ("report-" ++ period ++ "-" ++ filename_period ++ ".csv")%string in
  let* headers :=
    liftR (set_header "Content-Type" "text/csv; charset=utf-8" []) in
  let* headers :=
    liftR (set_header "Content-Disposition"
                      ("attachment; filename=" ++ filename)%string headers) in
  ret (MadeText csv_data headers).

(** *** What the theorems on the pages speak of *)

(** The expense [expenses] stores for a form, given its id. *)
Definition recorded_expense (form : multidict) (now : PyDate.datetime)
    (new_id : string) : value :=
  VDict [("id", VStr new_id);
         ("date", Py.or_ (Form.get form "date")
                         (VStr (PyDate.strftime_date (PyDate.date_of now))));
         ("description", VStr (PyStr.strip (Form.get_str form "description")));
         ("category", VStr (PyStr.strip (Form.get_str form "category")));
         ("amount", VFloat (amount_of float_of_str form "amount"))].

(** The record the settings form stores. *)
Definition submitted_settings (form : multidict) : value :=
  VDict [("store_name", VStr (PyStr.strip (Form.get_str form "store_name")));
         ("address", VStr (PyStr.strip (Form.get_str form "address")));
         ("phone", VStr (PyStr.strip (Form.get_str form "phone")));
         ("email", VStr (PyStr.strip (Form.get_str form "email")));
         ("logo_url", VStr (PyStr.strip (Form.get_str form "logo_url")))].

(** The key [x.get(k, "")] of a record, when it is a string. *)
Definition text_key (k : string) (x : value) : option string :=
  match x with
  | VDict d =>
      match Py.lookup d k with
      | Some (VStr s) => Some s
      | Some _ => None
      | None => Some EmptyString
      end
  | _ => None
  end.

Definition key_text (k : string) (x : value) : string :=
  match text_key k x with
  | Some s => s
  | None => EmptyString
  end.

Definition has_text_key (k : string) (x : value) : bool :=
  match text_key k x with
  | Some _ => true
  | None => false
  end.

(** [sorted] holds the records of [l] with the largest key first, the
    records of one key in the order they have in [l]. *)
Definition sorted_descending (k : string) (l sorted : list value) : Prop :=
  Permutation sorted l
  /\ StronglySorted
       (fun a b => String.ltb (key_text k a) (key_text k b) = false) sorted
  /\ forall s,
       List.filter (fun x => String.eqb (key_text k x) s) sorted
       = List.filter (fun x => String.eqb (key_text k x) s) l.

(** [inv.get("customer_name") or ""], when it is a string. *)
Definition customer_text (inv : value) : option string :=
  match Py.or_ (field inv "customer_name") (VStr "") with
  | VStr s => Some s
  | _ => None
  end.

(** An invoice the list page can sort and search: a dict whose
    [created_at] is a string or missing, whose [customer_name] is a string
    or falsy, and whose date can be read. *)
Definition listable (inv : value) : bool :=
  has_text_key "created_at" inv
  && match customer_text inv with Some _ => true | None => false end
  && date_readable inv.

(** The customer's name holds the search text, case not counting. *)
Definition customer_matches (search : string) (inv : value) : bool :=
  match customer_text inv with
  | Some s => PyText.found_in (PyText.lower search) (PyText.lower s)
  | None => false
  end.

(** The effective date of the invoice is the search text. *)
Definition date_matches (search : string) (inv : value) : bool :=
  match effective_date_text inv with
  | Some s => String.eqb s search
  | None => false
  end.

(** The date column of the export: the effective date of the invoice as
    text, or its [invoice_date] when that is no string. *)
Definition date_column (inv : value) : value :=
  match effective_date_text inv with
  | Some s => VStr s
  | None => field inv "invoice_date"
  end.

(** The line of the export for an invoice and for an expense. *)
Definition invoice_line (inv : value) : string :=
  csv_row [field inv "invoice_number"; date_column inv;
           Py.or_ (field inv "customer_name") (VStr "-");
           VStr (format_2f (amount float_of_str "total" inv));
           Py.or_ (field inv "payment_mode") (VStr "-")].

Definition expense_line (exp : value) : string :=
  csv_row [field exp "date"; field exp "description";
           Py.or_ (field exp "category") (VStr "-");
           VStr (format_2f (amount float_of_str "amount" exp))].

(** The records and the numbers of a report. *)
Definition records_of (report : value) (k : string) : list value :=
  match field report k with
  | VList l => l
  | _ => []
  end.

Definition money_of (report : value) (k : string) : string :=
  match field report k with
  | VFloat x => format_2f x
  | _ => EmptyString
  end.

(** The CSV text of a report as the reports page shows it. *)
Definition report_csv (report : value) : string :=
  (csv_row [VStr "Report"; field report "label"]
   ++ csv_row [VStr "Total sales"; VStr (money_of report "sales_total")]
   ++ csv_row [VStr "Total expenses"; VStr (money_of report "expenses_total")]
   ++ csv_row [VStr "Net (sales - expenses)"; VStr (money_of report "net_total")]
   ++ csv_row []
   ++ csv_row [VStr "Invoices"]
   ++ csv_row [VStr "Invoice #"; VStr "Date"; VStr "Customer"; VStr "Total";
               VStr "Payment mode"]
   ++ fold_right (fun inv rest => invoice_line inv ++ rest) EmptyString
                 (records_of report "invoices")
   ++ csv_row []
   ++ csv_row [VStr "Expenses"]
   ++ csv_row [VStr "Date"; VStr "Description"; VStr "Category"; VStr "Amount"]
   ++ fold_right (fun exp rest => expense_line exp ++ rest) EmptyString
                 (records_of report "expenses"))%string.

(** The report of a request on the invoices [l] and the expenses [e]:
    the filtered lists, the label and the date that is shown. *)
Definition period_filter (l e : list value) (req : request)
    (now : PyDate.datetime) : list value * list value * string * string :=
  if String.eqb (period_of req) "monthly" then
    let ym := report_month (selected_month_of req now) now in
    (List.filter (fun inv => in_month (fst ym) (snd ym) (effective_date inv)) l,
     List.filter (fun exp => in_month (fst ym) (snd ym) (expense_date exp)) e,
     (PyStr.str_of_int (fst ym) ++ "-" ++ PyStr.format_0d 2 (snd ym)
      ++ " (Monthly)")%string,
     selected_date_of req now)
  else
    let day := report_day (selected_date_of req now) now in
    let shown := echoed_date (selected_date_of req now) now in
    (List.filter (fun inv => on_day day (effective_date inv)) l,
     List.filter (fun exp => Py.eq_str (field exp "date") shown) e,
     (shown ++ " (Daily)")%string,
     shown).

(** Invoices that carry the ids [new_invoice] gives when none has been
    deleted: the one at index [i] has the id [str(i + 1)]. *)
Definition numbered (l : list value) : Prop :=
  forall (i : nat) (x : value),
    l !! i = Some x -> field x "id" = VStr (Py.str (Z.of_nat i + 1)).

(** [v or ""] is a string. *)
Definition text_or_blank (v : value) : bool :=
  match Py.or_ v (VStr "") with
  | VStr _ => true
  | _ => false
  end.

(** The invoices and expenses every handler can work on: an invoice is
    listable, has a total that reads as a number, and a payment mode and
    notes that are strings or falsy; an expense has a string date, or
    none, and an amount that reads as a number. *)
Definition invoice_ok (inv : value) : bool :=
  listable inv && amount_readable float_of_str "total" inv
  && text_or_blank (field inv "payment_mode")
  && text_or_blank (field inv "notes").

Definition expense_ok (exp : value) : bool :=
  has_text_key "date" exp && amount_readable float_of_str "amount" exp.

(** The documents with an int counter and such invoices and expenses. *)
Definition well_formed (d : dict) : Prop :=
  (exists n, counter_of d = VInt n)
  /\ (exists l, invoices_of d = VList l
                /\ Forall (fun inv => invoice_ok inv = true) l)
  /\ (exists e, expenses_of d = VList e
                /\ Forall (fun exp => expense_ok exp = true) e).

Definition sound (st : state) : Prop :=
  exists d, _data st = VDict d /\ well_formed d.

(** An invoice with a number the download can name its file after: a
    string without a carriage return or a line feed. *)
Definition downloadable (inv : value) : bool :=
  match field inv "invoice_number" with
  | VStr s => negb (has_newline s)
  | _ => false
  end.

(** The well formed documents whose invoices all are. *)
Definition servable (d : dict) : Prop :=
  well_formed d
  /\ exists l, invoices_of d = VList l
               /\ Forall (fun inv => downloadable inv = true) l.

Definition ready (st : state) : Prop :=
  exists d, _data st = VDict d /\ servable d.

(** A computation that, on a ready state, returns without an exception
    and leaves a ready state. *)
Definition never_fails {A : Type} (m : M A) : Prop :=
  forall st : state,
    ready st -> (exists a, fst (m st) = Ok a) /\ ready (snd (m st)).

(** Where the name of the exported file holds a carriage return or a line
    feed: in the period, or in the month of a monthly report. *)
Definition export_refused (req : request) (now : PyDate.datetime) : bool :=
  has_newline (period_of req)
  || String.eqb (period_of req) "monthly"
     && has_newline (selected_month_of req now).

(** The document and the file are what they were, or the file holds the
    text of the document. *)
Definition kept_or_written (st st' : state) : Prop :=
  (_data st' = _data st /\ DATA_FILE st' = DATA_FILE st)
  \/ DATA_FILE st' = Content (json_dumps (_data st')).

(** A computation that, on a sound state, changes the document only if
    it writes the document it leaves to the file. *)
Definition writes_through {A : Type} (m : M A) : Prop :=
  forall st : state, sound st -> kept_or_written st (snd (m st)).

(** What one request does to a document: nothing, or one of the five
    changes the handlers make. *)
Inductive change (d : dict) : dict -> Prop :=
| Unchanged : change d d
| Created (n : Z) (l : list value) (form : multidict)
    (now : PyDate.datetime) :
    counter_of d = VInt n ->
    invoices_of d = VList l ->
    change d
      (Py.store (Py.store d "invoice_counter" (VInt (n + 1))) "invoices"
         (VList (l ++ [VDict (created_invoice float_of_str form now
                                (invoice_number_text (PyDate.dt_year now)
                                                     (n + 1))
                                (Py.str (Z.of_nat (length l) + 1)))])))
| Deleted (l : list value) (i : nat) :
    invoices_of d = VList l ->
    (i < length l)%nat ->
    change d (Py.store d "invoices" (VList (delete i l)))
| Converted (l : list value) (i : nat) (x : dict) (n : string)
    (now : PyDate.datetime) :
    invoices_of d = VList l ->
    l !! i = Some (VDict x) ->
    change d (Py.store d "invoices"
                (VList (<[i := VDict (converted x n now)]> l)))
| Recorded (e : list value) (form : multidict) (now : PyDate.datetime) :
    expenses_of d = VList e ->
    change d (Py.store d "expenses"
                (VList (e ++ [recorded_expense form now
                                (Py.str (Z.of_nat (length e) + 1))])))
| Saved (form : multidict) :
    change d (Py.store d "store_settings" (submitted_settings form)).

(** A computation that, on a well formed document, returns without an
    exception, has made one of these changes, and has written the file
    unless the document is what it was. *)
Definition steps {A : Type} (m : M A) : Prop :=
  forall (d : dict) (f : file) (fl : list (string * string)),
    well_formed d ->
    exists (a : A) (d' : dict) (f' : file) (fl' : list (string * string)),
      m (mkstate (VDict d) f fl) = (Ok a, mkstate (VDict d') f' fl')
      /\ change d d'
      /\ ((d' = d /\ f' = f) \/ f' = Content (json_dumps (VDict d'))).

(** The invoice numbers of [l] were made at counters from 1 to [n]. *)
Definition numbers_upto (n : Z) (l : list value) : Prop :=
  Forall (fun inv =>
            exists y m,
              field inv "invoice_number" = VStr (invoice_number_text y m)
              /\ 0 < m <= n) l.

(** No two invoices of [l] have the same invoice number. *)
Definition distinct_numbers (l : list value) : Prop :=
  forall (i j : nat) (x y : value),
    l !! i = Some x -> l !! j = Some y ->
    field x "invoice_number" = field y "invoice_number" -> i = j.

(** The documents whose invoice numbers are distinct and were made at
    counters up to the stored one. *)
Definition numbers_distinct (d : dict) : Prop :=
  exists (n : Z) (l : list value),
    counter_of d = VInt n /\ 0 <= n /\ invoices_of d = VList l
    /\ numbers_upto n l /\ distinct_numbers l.

(** A computation that keeps them so on well formed documents. *)
Definition keeps_numbers_distinct {A : Type} (m : M A) : Prop :=
  forall st : state,
    sound st ->
    (exists d, _data st = VDict d /\ numbers_distinct d) ->
    exists d', _data (snd (m st)) = VDict d' /\ numbers_distinct d'.

(** The documents whose expenses carry the ids [1], [2], ... in order. *)
Definition expenses_numbered (d : dict) : Prop :=
  exists e, expenses_of d = VList e /\ numbered e.

(** A computation that keeps a property of well formed documents. *)
Definition keeps {A : Type} (P : dict -> Prop) (m : M A) : Prop :=
  forall st : state,
    sound st ->
    (exists d, _data st = VDict d /\ P d) ->
    exists d', _data (snd (m st)) = VDict d' /\ P d'.

(** A computation that leaves the document and the file as they are,
    whether it returns or raises. *)
Definition leaves_document {A : Type} (m : M A) : Prop :=
  forall st : state,
    _data (snd (m st)) = _data st /\ DATA_FILE (snd (m st)) = DATA_FILE st.

End Pages.

(** ** The application at concrete builtins *)

(** Stand-ins for the parameters of the sections, used by the examples
    below: a reader of plain decimal literals, the two-decimals format,
    and a [json] codec whose loader knows the text of one document. *)

Module Demo.
Import PyStr.

Definition float_of_Z (n : Z) : float :=
  SF2Prim (binary_normalize prec emax n 0 false).

Definition decimal (neg : bool) (ip fp : string) : option float :=
  let m := eval_digits (ip ++ fp) 0 in
  let k := Z.of_nat (String.length fp) in
  if all_digits ip && all_digits fp
     && negb (String.eqb (ip ++ fp) "") && (m <? 2 ^ 53) && (k <=? 22)
  then
    let x := (float_of_Z m / float_of_Z (10 ^ k))%float in
    Some (if neg then (- x)%float else x)
  else None.

(** [float(s)] on a sign, digits and an optional fraction of at most 15
    digits in all, where the quotient of the two exact doubles is the
    nearest double; [None] on every other string, also on the literals
    with an exponent, an underscore, [inf] or [nan], which the examples do
    not use. *)
Definition float_of_str (s : string) : option float :=
  let t := drop_blanks (skip_blanks s) in
  let signed :=
    match t with
    | String "-" r => (true, r)
    | String "+" r => (false, r)
    | _ => (false, t)
    end in
  match split "." (snd signed) with
  | [ip] => decimal (fst signed) ip EmptyString
  | [ip; fp] => decimal (fst signed) ip fp
  | _ => None
  end.

(** [f"{x:.2f}"]: the exact value of the double, rounded to hundredths,
    ties to even. *)
Definition format_2f (x : float) : string :=
  match Prim2SF x with
  | S754_zero s => ((if s then "-" else "") ++ "0.00")%string
  | S754_infinity s => if s then "-inf" else "inf"
  | S754_nan => "nan"
  | S754_finite s m e =>
      let scaled := Z.pos m * 100 in
      let hundredths :=
        if 0 <=? e then scaled * 2 ^ e
        else
          let den := 2 ^ (- e) in
          let q := scaled / den in
          let r := scaled mod den in
          if (den <? 2 * r) || ((den =? 2 * r) && Z.odd q) then q + 1 else q in
      ((if s then "-" else "") ++ digits (hundredths / 100) ++ "."
       ++ zfill 2 (digits (hundredths mod 100)))%string
  end.

Definition quote : string := String (ascii_of_nat 34) EmptyString.

(** [repr(x)] of a float that is the double nearest to a number of
    hundredths of at most 15 digits: that number, with one fraction digit
    when the second is zero. Of the other finite floats this is not the
    text Python prints; the session has none. *)
Definition float_repr (x : float) : string :=
  match Prim2SF x with
  | S754_zero s => ((if s then "-" else "") ++ "0.0")%string
  | S754_infinity s => if s then "-inf" else "inf"
  | S754_nan => "nan"
  | S754_finite s m e =>
      let scaled := Z.pos m * 100 in
      let hundredths :=
        if 0 <=? e then scaled * 2 ^ e
        else
          let den := 2 ^ (- e) in
          let q := scaled / den in
          let r := scaled mod den in
          if (den <? 2 * r) || ((den =? 2 * r) && Z.odd q) then q + 1 else q in
      let tenths := (hundredths mod 100) / 10 in
      let last := hundredths mod 10 in
      ((if s then "-" else "") ++ digits (hundredths / 100) ++ "."
       ++ String (digit_char tenths)
            (if Z.eqb last 0 then EmptyString
             else String (digit_char last) EmptyString))%string
  end.

(** The nesting the session's interpreter allows. *)
Definition max_depth : nat := 100.

(** [json.dump] and [json.load] with these. *)
Definition json_dumps : value -> string := Json.dumps float_repr.

Definition json_loads : string -> loaded := Json.loads float_of_str max_depth.

(** The order of two or more records with int keys, largest first and
    stable; [TypeError] on the other keys that are not strings, of which
    the examples have [None] only. *)
Fixpoint insert_int (x : value * Z) (l : list (value * Z)) : list (value * Z) :=
  match l with
  | [] => [x]
  | y :: r => if snd x <? snd y then y :: insert_int x r else x :: l
  end.

Fixpoint int_keys (l : list (value * value)) : option (list (value * Z)) :=
  match l with
  | [] => Some []
  | (x, VInt n) :: rest => option_map (cons (x, n)) (int_keys rest)
  | _ :: _ => None
  end.

Definition sort_other (keyed : list (value * value)) : result (list value) :=
  match int_keys keyed with
  | Some l => Ok (map fst (fold_right insert_int [] l))
  | None => Raise TypeError
  end.

(** [str] of the empty list and of the empty dict; the examples print no
    other value of these kinds. *)
Definition str_other (v : value) : string :=
  match v with
  | VDict [] => "{}"
  | _ => "[]"
  end.

End Demo.

(** ** A session of the application *)

Module Session.

Definition now : PyDate.datetime := PyDate.mkdatetime 2024 3 15 10 30 0.

(** The empty default document, read when [data.json] is missing. *)
Definition d0 : dict :=
  [("store_settings", VNone); ("invoices", VList []);
   ("invoice_counter", VInt 0); ("expenses", VList [])].

Definition st0 : state := mkstate (VDict d0) Missing [].

(** A submitted invoice: a row with a blank description between two rows
    that are kept, the second of them with a quantity that is no number. *)
Definition post : request :=
  mkrequest "POST"
    [("customer_name", " Asha "); ("invoice_date", "2024-03-15");
     ("item_description[]", " pen "); ("item_quantity[]", "2");
     ("item_unit_price[]", "10.5");
     ("item_description[]", "   "); ("item_quantity[]", "1");
     ("item_unit_price[]", "1");
     ("item_description[]", "ink"); ("item_quantity[]", "x");
     ("item_unit_price[]", "3");
     ("discount", "1"); ("tax", "");
     ("payment_mode", "Credit"); ("notes", " on account ")]
    [].

(** The state after the invoice is created, its document and its list of
    invoices. *)
Definition st1 : state :=
  Eval vm_compute in
    snd (new_invoice Demo.float_of_str Demo.json_dumps post now st0).

Definition d1 : dict :=
  Eval vm_compute in match _data st1 with VDict d => d | _ => [] end.

Definition l1 : list value :=
  Eval vm_compute in match invoices_of d1 with VList l => l | _ => [] end.

Definition inv1 : dict :=
  Eval vm_compute in match l1 with VDict inv :: _ => inv | _ => [] end.

(** The same document with one expense of the day. *)
Definition e2 : list value :=
  [VDict [("id", VStr "1"); ("date", VStr "2024-03-15");
          ("description", VStr "rent"); ("category", VStr "");
          ("amount", VFloat 5)]].

Definition d2 : dict := Eval vm_compute in Py.store d1 "expenses" (VList e2).

Definition daily : request := mkrequest "GET" [] [("date", "2024-03-15")].

Definition monthly : request :=
  mkrequest "GET" [] [("period", "monthly"); ("month", "2024-03")].

(** The value of a key of the report in a response of [reports]. *)
Definition report_field (out : result response * state) (k : string)
  : option value :=
  match fst out with
  | Ok (Render _ ctx) =>
      match Py.lookup ctx "report" with
      | Some (VDict report) => Py.lookup report k
      | _ => None
      end
  | _ => None
  end.

Definition ids (v : option value) : list value :=
  match v with
  | Some (VList l) => map (fun x => field x "id") l
  | _ => []
  end.

(** One invoice and one expense of 15 March 2024. *)
Definition day_document : state :=
  mkstate
    (VDict [("store_settings", VNone);
            ("invoices",
             VList [VDict [("id", VStr "1"); ("invoice_date", VStr "2024-03-15");
                           ("total", VFloat 500)]]);
            ("invoice_counter", VInt 1);
            ("expenses",
             VList [VDict [("id", VStr "1"); ("date", VStr "2024-03-15");
                           ("amount", VFloat 200)]])])
    Missing [].

Definition day_report : result response * state :=
  reports Demo.float_of_str Demo.format_2f daily now day_document.

(** Invoices and expenses around March 2024: the last day of February,
    three days of March (one dated by [created_at] alone), the first of
    April, a date that is no date and a record without any. *)
Definition month_document : state :=
  mkstate
    (VDict [("invoices",
             VList [VDict [("id", VStr "feb"); ("invoice_date", VStr "2024-02-29")];
                    VDict [("id", VStr "mar1"); ("invoice_date", VStr "2024-03-01")];
                    VDict [("id", VStr "mar31"); ("invoice_date", VStr "2024-03-31")];
                    VDict [("id", VStr "made"); ("created_at", VStr "2024-03-10 09:00:00")];
                    VDict [("id", VStr "apr"); ("invoice_date", VStr "2024-04-01")];
                    VDict [("id", VStr "bad"); ("invoice_date", VStr "March")];
                    VDict [("id", VStr "none")]]);
            ("expenses",
             VList [VDict [("id", VStr "feb"); ("date", VStr "2024-02-15")];
                    VDict [("id", VStr "mar"); ("date", VStr "2024-03-20")];
                    VDict [("id", VStr "apr"); ("date", VStr "2024-04-02")];
                    VDict [("id", VStr "bad"); ("date", VStr "20/03/2024")];
                    VDict [("id", VStr "none")]])])
    Missing [].

(** Two invoices, the first deleted, then a third: the id is the number
    of stored invoices plus one, so the third invoice gets the id the
    second one has. *)
Definition after_two_and_a_delete : state :=
  let st2 := snd (new_invoice Demo.float_of_str Demo.json_dumps post now st1) in
  snd (delete_invoice Demo.json_dumps "1" st2).

Definition third_invoice : result response * state :=
  new_invoice Demo.float_of_str Demo.json_dumps post now after_two_and_a_delete.

Definition stored_ids (st : state) : list value :=
  match _data st with
  | VDict d =>
      match invoices_of d with
      | VList l => map (fun inv => field inv "id") l
      | _ => []
      end
  | _ => []
  end.

Definition stored_numbers (st : state) : list value :=
  match _data st with
  | VDict d =>
      match invoices_of d with
      | VList l => map (fun inv => field inv "invoice_number") l
      | _ => []
      end
  | _ => []
  end.

(** A daily report asked for a date that is no date. *)
Definition daily_unparsed : request := mkrequest "GET" [] [("date", "15/03/2024")].

(** The session's invoices followed by one whose [created_at] is null, as
    a file edited by hand can hold it. *)
Definition null_created : dict := [("id", VStr "9"); ("created_at", VNone)].

Definition d_null : dict :=
  [("store_settings", VNone);
   ("invoices", VList (l1 ++ [VDict null_created]));
   ("invoice_counter", VInt 1); ("expenses", VList [])].

(** An export whose month text ends in a line feed, and an invoice whose
    number holds one. *)
Definition monthly_newline : request :=
  mkrequest "GET" []
    [("period", "monthly"); ("month", String.append "2024-03" (String "010" ""))].

Definition d_newline : dict :=
  [("store_settings", VNone);
   ("invoices",
    VList [VDict [("id", VStr "1");
                  ("invoice_number",
                   VStr (String.append "RS" (String "010" "X")))]]);
   ("invoice_counter", VInt 1); ("expenses", VList [])].

(** The settings form, an expense of the day and two queries. *)
Definition settings_post : request :=
  mkrequest "POST"
    [("store_name", " Corner Shop "); ("address", ""); ("phone", " 12345 ")]
    [].

Definition expense_post : request :=
  mkrequest "POST"
    [("date", "2024-03-15"); ("description", " paper "); ("category", "office");
     ("amount", "7")]
    [].

Definition get : request := mkrequest "GET" [] [].

Definition search : request := mkrequest "GET" [] [("customer", " ASH ")].

(** The document after a second invoice, and its invoices. *)
Definition d12 : dict :=
  Eval vm_compute in
    match _data (snd (new_invoice Demo.float_of_str Demo.json_dumps post now
                        (mkstate (VDict d1) Missing [])))
    with VDict d => d | _ => [] end.

Definition l12 : list value :=
  Eval vm_compute in match invoices_of d12 with VList l => l | _ => [] end.

(** An invoice and an expense of 15 March 2024, dated without the zero of
    the month. *)
Definition spelled : dict :=
  [("invoices",
    VList [VDict [("id", VStr "1"); ("invoice_date", VStr "2024-3-15");
                  ("total", VFloat 500)]]);
   ("expenses",
    VList [VDict [("id", VStr "1"); ("date", VStr "2024-3-15");
                  ("amount", VFloat 200)]])].

End Session.

(** ** Properties *)

(** *** Dictionaries *)

Lemma lookup_store_eq (d : dict) (k : string) (v : value) :
  Py.lookup (Py.store d k v) k = Some v.
Proof.
  induction d as [|[k' v'] d IH]; simpl.
  - now rewrite String.eqb_refl.
  - destruct (String.eqb k' k) eqn:E; simpl.
    + now rewrite String.eqb_refl.
    + now rewrite E.
Qed.

Lemma lookup_store_ne (d : dict) (k k' : string) (v : value) :
  k <> k' -> Py.lookup (Py.store d k v) k' = Py.lookup d k'.
Proof.
  intros Hne. induction d as [|[k0 v0] d IH]; simpl.
  - destruct (String.eqb k k') eqn:E; [|reflexivity].
    apply String.eqb_eq in E. contradiction.
  - destruct (String.eqb k0 k) eqn:E; simpl.
    + apply String.eqb_eq in E. subst k0.
      destruct (String.eqb k k') eqn:E'; [|reflexivity].
      apply String.eqb_eq in E'. contradiction.
    + now rewrite IH.
Qed.

(** *** Reading the settings *)

Lemma get_store_settings_at (d : dict) (f : file) (fl : list (string * string)) :
  get_store_settings (mkstate (VDict d) f fl)
  = (Ok (settings_shown d), mkstate (VDict d) f fl).
Proof.
  unfold get_store_settings, bindM, data_get, ret, settings_shown,
    stored_settings. simpl.
  destruct (Py.lookup d "store_settings") as [v|]; simpl; [|reflexivity].
  now destruct (Py.truthy v).
Qed.

(** *** Decimal text *)

Module PyStrFacts.
Import PyStr.

Lemma append_assoc (s t u : string) : ((s ++ t) ++ u = s ++ (t ++ u))%string.
Proof. induction s as [|c s IH]; simpl; [reflexivity|]. now rewrite IH. Qed.

Lemma length_append (s t : string) :
  String.length (s ++ t) = (String.length s + String.length t)%nat.
Proof. induction s as [|c s IH]; simpl; [reflexivity|]. now rewrite IH. Qed.

Lemma all_digits_app (s t : string) :
  all_digits (s ++ t) = all_digits s && all_digits t.
Proof.
  induction s as [|c s IH]; simpl; [reflexivity|].
  rewrite IH. now rewrite andb_assoc.
Qed.

Lemma eval_digits_app (s t : string) (acc : Z) :
  eval_digits (s ++ t) acc = eval_digits t (eval_digits s acc).
Proof.
  revert acc. induction s as [|c s IH]; intros acc; simpl; [reflexivity|].
  apply IH.
Qed.

Lemma int_digits_all_digits (s : string) (acc : Z) :
  all_digits s = true -> int_digits s acc true = Some (eval_digits s acc).
Proof.
  revert acc. induction s as [|c s IH]; intros acc H; simpl in *; [reflexivity|].
  apply andb_prop in H. destruct H as [Hc Hs]. rewrite Hc. now apply IH.
Qed.

Lemma is_digit_digit_char (d : Z) :
  0 <= d < 10 -> is_digit (digit_char d) = true /\ digit_val (digit_char d) = d.
Proof.
  intros H.
  assert (E : d = 0 \/ d = 1 \/ d = 2 \/ d = 3 \/ d = 4 \/ d = 5 \/ d = 6
              \/ d = 7 \/ d = 8 \/ d = 9) by lia.
  destruct E as [->|[->|[->|[->|[->|[->|[->|[->|[->| ->]]]]]]]]];
    split; reflexivity.
Qed.

Lemma is_digit_not_space (c : ascii) : is_digit c = true -> is_space c = false.
Proof.
  unfold is_digit, is_space. intros H.
  apply andb_prop in H. destruct H as [H1 H2].
  apply N.leb_le in H1. apply N.leb_le in H2.
  repeat match goal with
         | |- context [(?a <=? ?b)%N] => destruct (N.leb_spec a b)
         | |- context [(?a =? ?b)%N] => destruct (N.eqb_spec a b)
         end; simpl; try reflexivity; lia.
Qed.

Lemma digits_aux_spec (fuel : nat) (n : Z) (acc : string) :
  0 <= n < 2 ^ (Z.of_nat fuel + 1) ->
  exists ds, digits_aux fuel n acc = ds ++ acc
             /\ all_digits ds = true
             /\ ds <> ""
             /\ eval_digits ds 0 = n.
Proof.
  revert n acc. induction fuel as [|f IH]; intros n acc Hn.
  - simpl in *. assert (n < 10) by lia.
    exists (String (digit_char (n mod 10)) "").
    rewrite Z.mod_small by lia.
    destruct (is_digit_digit_char n) as [H1 H2]; [lia|].
    split; [reflexivity|]. split; [simpl; now rewrite H1|].
    split; [discriminate|]. simpl. rewrite H2. lia.
  - cbn [digits_aux]. destruct (Z.ltb_spec n 10) as [Hlt|Hge].
    + exists (String (digit_char (n mod 10)) "").
      rewrite Z.mod_small by lia.
      destruct (is_digit_digit_char n) as [H1 H2]; [lia|].
      split; [reflexivity|]. split; [simpl; now rewrite H1|].
      split; [discriminate|]. simpl. rewrite H2. lia.
    + destruct (IH (n / 10) (String (digit_char (n mod 10)) acc))
        as (ds & E & Hd & Hne & Hev).
      { split; [apply Z.div_pos; lia|].
        apply Z.div_lt_upper_bound; [lia|].
        replace (Z.of_nat (S f) + 1) with (Z.succ (Z.of_nat f + 1)) in Hn by lia.
        rewrite Z.pow_succ_r in Hn by lia. lia. }
      exists (ds ++ String (digit_char (n mod 10)) "").
      destruct (is_digit_digit_char (n mod 10)) as [H1 H2];
        [apply Z.mod_pos_bound; lia|].
      split; [|split; [|split]].
      * rewrite E. now rewrite append_assoc.
      * rewrite all_digits_app, Hd. simpl. now rewrite H1.
      * destruct ds; discriminate.
      * rewrite eval_digits_app, Hev. simpl. rewrite H2.
        pose proof (Z.div_mod n 10). lia.
Qed.

Lemma digits_spec (n : Z) :
  0 <= n ->
  all_digits (digits n) = true /\ digits n <> "" /\ eval_digits (digits n) 0 = n.
Proof.
  intros Hn. unfold digits.
  destruct (digits_aux_spec (Z.to_nat (Z.log2 n)) n "") as (ds & E & Hd & Hne & Hev).
  { split; [lia|]. rewrite Z2Nat.id by apply Z.log2_nonneg.
    destruct (Z.eq_dec n 0) as [->|Hnz]; [reflexivity|].
    apply Z.log2_spec. lia. }
  rewrite E. assert (Hnil : (ds ++ "")%string = ds).
  { clear. induction ds as [|c ds IH]; simpl; [reflexivity|]. now rewrite IH. }
  rewrite Hnil. auto.
Qed.

Lemma all_digits_zeros (k : nat) : all_digits (zeros k) = true.
Proof. induction k as [|k IH]; simpl; [reflexivity|]. exact IH. Qed.

Lemma eval_digits_zeros (k : nat) : eval_digits (zeros k) 0 = 0.
Proof. induction k as [|k IH]; simpl; [reflexivity|]. exact IH. Qed.

Lemma length_zeros (k : nat) : String.length (zeros k) = k.
Proof. induction k as [|k IH]; simpl; [reflexivity|]. now rewrite IH. Qed.

Lemma zfill_spec (w : nat) (s : string) :
  all_digits s = true ->
  all_digits (zfill w s) = true
  /\ (w <= String.length (zfill w s))%nat
  /\ eval_digits (zfill w s) 0 = eval_digits s 0.
Proof.
  intros H. unfold zfill. split; [|split].
  - now rewrite all_digits_app, all_digits_zeros.
  - rewrite length_append, length_zeros. lia.
  - now rewrite eval_digits_app, eval_digits_zeros.
Qed.

Lemma lstrip_digits (s : string) : all_digits s = true -> lstrip s = s.
Proof.
  destruct s as [|c s]; simpl; [reflexivity|].
  intros H. apply andb_prop in H. destruct H as [Hc _].
  now rewrite (is_digit_not_space c Hc).
Qed.

Lemma rstrip_digits (s : string) : all_digits s = true -> rstrip s = s.
Proof.
  induction s as [|c s IH]; simpl; [reflexivity|].
  intros H. apply andb_prop in H. destruct H as [Hc Hs].
  rewrite (IH Hs). destruct s; [|reflexivity].
  now rewrite (is_digit_not_space c Hc).
Qed.

Lemma digit_is_not_blank (c : ascii) : is_digit c = true -> is_blank c = false.
Proof. destruct c as [[] [] [] [] [] [] [] []]; now intros. Qed.

Lemma skip_blanks_digits (s : string) :
  all_digits s = true -> skip_blanks s = s.
Proof.
  destruct s as [|c s]; simpl; [reflexivity|].
  intros H. apply andb_prop in H. destruct H as [Hc _].
  now rewrite (digit_is_not_blank c Hc).
Qed.

Lemma drop_blanks_digits (s : string) :
  all_digits s = true -> drop_blanks s = s.
Proof.
  induction s as [|c s IH]; simpl; [reflexivity|].
  intros H. apply andb_prop in H. destruct H as [Hc Hs].
  rewrite (IH Hs). destruct s; [|reflexivity].
  now rewrite (digit_is_not_blank c Hc).
Qed.

Lemma count_digits_all (s : string) :
  all_digits s = true -> count_digits s = Z.of_nat (String.length s).
Proof.
  induction s as [|c s IH]; [reflexivity|].
  cbn [all_digits count_digits String.length]. intros H.
  apply andb_prop in H. destruct H as [Hc Hs].
  rewrite Hc, (IH Hs). lia.
Qed.

Lemma int_of_str_digits (s : string) :
  all_digits s = true -> s <> "" -> int_of_str s = Some (eval_digits s 0).
Proof.
  intros H Hne. unfold int_of_str.
  rewrite (skip_blanks_digits s H), (drop_blanks_digits s H).
  destruct s as [|c s]; [contradiction|].
  simpl in H. apply andb_prop in H. destruct H as [Hc Hs].
  assert (E : int_digits (String c s) 0 false = Some (eval_digits (String c s) 0)).
  { simpl. rewrite Hc. now apply int_digits_all_digits. }
  destruct c as [[] [] [] [] [] [] [] []]; try discriminate Hc; exact E.
Qed.

(** The text of a nonnegative int, padded with zeros, reads back as the
    int. *)
Lemma int_of_str_format_0d (w : nat) (n : Z) :
  0 <= n ->
  all_digits (format_0d w n) = true
  /\ (w <= String.length (format_0d w n))%nat
  /\ int_of_str (format_0d w n) = Some n.
Proof.
  intros Hn. unfold format_0d.
  destruct (Z.ltb_spec n 0) as [|_]; [lia|].
  destruct (digits_spec n Hn) as (Hd & Hne & Hev).
  destruct (zfill_spec w (digits n) Hd) as (Hz & Hlen & Hzev).
  split; [exact Hz|]. split; [exact Hlen|].
  rewrite int_of_str_digits; [congruence|exact Hz|].
  unfold zfill. destruct (zeros _); simpl; [exact Hne|discriminate].
Qed.

Lemma digits_four (y : Z) :
  1000 <= y <= 9999 -> String.length (digits y) = 4%nat.
Proof.
  intros Hy. unfold digits.
  assert (Hl : 9 <= Z.log2 y).
  { change 9 with (Z.log2 1000). apply Z.log2_le_mono. lia. }
  destruct (Z.to_nat (Z.log2 y)) as [|[|[|[|f]]]] eqn:E; try lia.
  cbn [digits_aux].
  assert (H1 : 100 <= y / 10) by (apply Z.div_le_lower_bound; lia).
  assert (H2 : 10 <= y / 10 / 10) by (apply Z.div_le_lower_bound; lia).
  assert (H3 : y / 10 / 10 / 10 < 10).
  { rewrite !Z.div_div by lia. apply Z.div_lt_upper_bound; lia. }
  destruct (Z.ltb_spec y 10); [lia|].
  destruct (Z.ltb_spec (y / 10) 10); [lia|].
  destruct (Z.ltb_spec (y / 10 / 10) 10); [lia|].
  destruct (Z.ltb_spec (y / 10 / 10 / 10) 10); [reflexivity|lia].
Qed.

Lemma lstrip_no_lead (s : string) : no_lead (lstrip s).
Proof.
  induction s as [|c s IH]; simpl; [exact I|].
  destruct (is_space c) eqn:E; [exact IH|exact E].
Qed.

Lemma lstrip_id (s : string) : no_lead s -> lstrip s = s.
Proof. destruct s as [|c s]; simpl; [reflexivity|]. now intros ->. Qed.

Lemma rstrip_no_lead (s : string) : no_lead s -> no_lead (rstrip s).
Proof.
  destruct s as [|c s]; simpl; [trivial|]. intros H.
  destruct (rstrip s); [rewrite H|]; exact H.
Qed.

Lemma rstrip_idem (s : string) : rstrip (rstrip s) = rstrip s.
Proof.
  induction s as [|c s IH]; simpl; [reflexivity|].
  destruct (rstrip s) as [|c' r'] eqn:E.
  - destruct (is_space c) eqn:Ec; simpl; [reflexivity|]. now rewrite Ec.
  - cbn [rstrip] in IH |- *. rewrite IH. reflexivity.
Qed.

(** Trimming twice is trimming once. *)
Lemma strip_idem (s : string) : strip (strip s) = strip s.
Proof.
  unfold strip.
  rewrite (lstrip_id (rstrip (lstrip s)))
    by apply rstrip_no_lead, lstrip_no_lead.
  apply rstrip_idem.
Qed.

Lemma rstrip_app (a b : string) :
  rstrip b <> "" -> rstrip (a ++ b) = (a ++ rstrip b)%string.
Proof.
  intros Hb. induction a as [|c a IH]; simpl; [reflexivity|].
  rewrite IH. destruct (a ++ rstrip b)%string eqn:E; [|reflexivity].
  destruct a; simpl in E; [contradiction|discriminate].
Qed.

(** A trimmed text stays trimmed when a line that ends in a bracket is
    put after it. *)
Lemma strip_app_bracket (n rest : string) :
  strip n = n -> n <> "" ->
  strip (n ++ rest ++ "]") = (n ++ rest ++ "]")%string.
Proof.
  intros Hn Hne. unfold strip.
  assert (Hlead : no_lead (n ++ rest ++ "]")).
  { assert (H : no_lead n).
    { rewrite <- Hn. apply rstrip_no_lead, lstrip_no_lead. }
    destruct n as [|c n]; [contradiction|exact H]. }
  rewrite (lstrip_id _ Hlead).
  rewrite <- append_assoc.
  rewrite rstrip_app by discriminate. reflexivity.
Qed.

Lemma strip_bracket (rest : string) :
  strip (String "[" rest ++ "]") = (String "[" rest ++ "]")%string.
Proof.
  unfold strip. cbn [lstrip append]. change (is_space "[") with false. cbv iota.
  change (String "[" (rest ++ "]")) with (String "[" rest ++ "]")%string.
  rewrite rstrip_app by discriminate. reflexivity.
Qed.

End PyStrFacts.

(** ** The codec reads back what it writes *)

Module JsonFacts.
Import PyStr Json.

Lemma append_nil_r (s : string) : (s ++ "")%string = s.
Proof. induction s as [|c s IH]; [reflexivity|]. cbn [append]. now rewrite IH. Qed.

(** *** White space *)

Lemma skip_ws_head (c : ascii) (r : string) :
  is_ws c = false -> skip_ws (String c r) = String c r.
Proof. intros H. cbn [skip_ws]. now rewrite H. Qed.

Lemma skip_ws_spaces (k : nat) (s : string) :
  skip_ws (spaces k ++ s) = skip_ws s.
Proof. induction k as [|k IH]; [reflexivity|]. exact IH. Qed.

Lemma skip_ws_newline_indent (level : nat) (s : string) :
  skip_ws (newline_indent level ++ s) = skip_ws s.
Proof. unfold newline_indent. cbn [append skip_ws]. apply skip_ws_spaces. Qed.

(** *** Strings *)

Lemma scanstring_escape_char (c : ascii) (tail : string) :
  scanstring (escape_char c ++ tail)
  = match scanstring tail with
    | Some (t, w, rest) => Some (String c t, w, rest)
    | None => None
    end.
Proof. destruct c as [[] [] [] [] [] [] [] []]; reflexivity. Qed.

Lemma scanstring_escape (s rest : string) :
  scanstring (escape s ++ String dq rest) = Some (s, false, rest).
Proof.
  induction s as [|c s IH]; [reflexivity|].
  cbn [escape]. rewrite PyStrFacts.append_assoc, scanstring_escape_char.
  now rewrite IH.
Qed.

(** *** Numbers *)

Lemma number_char_false (c : ascii) :
  number_char c = false ->
  is_digit c = false /\ Ascii.eqb c "." = false /\ Ascii.eqb c "e" = false
  /\ Ascii.eqb c "E" = false /\ Ascii.eqb c "+" = false
  /\ Ascii.eqb c "-" = false.
Proof.
  unfold number_char. rewrite !orb_false_iff. tauto.
Qed.

Lemma span_digits_app (s rest : string) :
  delimited rest ->
  span_digits (s ++ rest)
  = (fst (span_digits s), (snd (span_digits s) ++ rest)%string).
Proof.
  intros Hr. induction s as [|c s IH].
  - destruct rest as [|c r]; [reflexivity|].
    cbn. cbn in Hr. apply number_char_false in Hr. destruct Hr as [-> _].
    reflexivity.
  - cbn [append span_digits]. destruct (is_digit c); [|reflexivity].
    rewrite IH. now destruct (span_digits s).
Qed.

Lemma span_digits_whole (s : string) :
  s = (fst (span_digits s) ++ snd (span_digits s))%string.
Proof.
  induction s as [|c s IH]; [reflexivity|].
  cbn [span_digits]. destruct (is_digit c); [|reflexivity].
  destruct (span_digits s) as [ds r]. cbn in IH |- *. now rewrite <- IH.
Qed.

Lemma span_digits_all (s : string) :
  all_digits s = true -> span_digits s = (s, EmptyString).
Proof.
  induction s as [|c s IH]; [reflexivity|].
  cbn [all_digits span_digits]. intros H.
  apply andb_prop in H. destruct H as [-> Hs]. now rewrite (IH Hs).
Qed.

Lemma lex_int_app (s rest ip r : string) :
  lex_int s = Some (ip, r) ->
  delimited rest ->
  lex_int (s ++ rest) = Some (ip, (r ++ rest)%string).
Proof.
  intros H Hr. unfold lex_int in *.
  destruct s as [|c s]; [discriminate H|]. cbn [append].
  destruct (Ascii.eqb c "-").
  - cbn [fst snd] in *. destruct s as [|c' s]; [discriminate H|].
    cbn [append]. destruct (Ascii.eqb c' "0"); [now injection H as <- <-|].
    destruct (is_digit c'); [|discriminate H].
    rewrite (span_digits_app s rest Hr).
    destruct (span_digits s) as [ds r0]. cbn [fst snd] in *.
    now injection H as <- <-.
  - cbn [fst snd] in *.
    destruct (Ascii.eqb c "0"); [now injection H as <- <-|].
    destruct (is_digit c); [|discriminate H].
    rewrite (span_digits_app s rest Hr).
    destruct (span_digits s) as [ds r0]. cbn [fst snd] in *.
    now injection H as <- <-.
Qed.

Lemma lex_frac_app (s rest : string) :
  delimited rest ->
  lex_frac (s ++ rest)
  = (fst (lex_frac s), (snd (lex_frac s) ++ rest)%string).
Proof.
  intros Hr. unfold lex_frac.
  destruct s as [|p [|c s]]; cbn [append].
  - destruct rest as [|p [|c r]]; try reflexivity.
    cbn in Hr. apply number_char_false in Hr.
    destruct Hr as (_ & -> & _). reflexivity.
  - destruct rest as [|c r]; [reflexivity|].
    cbn in Hr. apply number_char_false in Hr. destruct Hr as (-> & _).
    now rewrite andb_false_r.
  - destruct (Ascii.eqb p "." && is_digit c); [|reflexivity].
    rewrite (span_digits_app s rest Hr). now destruct (span_digits s).
Qed.

Lemma lex_exp_app (s rest : string) :
  delimited rest ->
  lex_exp (s ++ rest)
  = (fst (lex_exp s), (snd (lex_exp s) ++ rest)%string).
Proof.
  intros Hr. unfold lex_exp.
  destruct s as [|e s]; cbn [append].
  - destruct rest as [|e r]; [reflexivity|].
    cbn in Hr. apply number_char_false in Hr.
    destruct Hr as (_ & _ & -> & -> & _). reflexivity.
  - destruct (Ascii.eqb e "e" || Ascii.eqb e "E"); [|reflexivity].
    destruct s as [|c s]; cbn [append].
    + destruct rest as [|c r]; [reflexivity|].
      cbn in Hr. apply number_char_false in Hr.
      destruct Hr as (Hd & _ & _ & _ & -> & ->). cbn [orb fst snd].
      now rewrite Hd.
    + destruct (Ascii.eqb c "+" || Ascii.eqb c "-"); cbn [fst snd].
      * destruct s as [|c' s]; cbn [append].
        -- destruct rest as [|c' r]; [reflexivity|].
           cbn in Hr. apply number_char_false in Hr.
           destruct Hr as (-> & _). reflexivity.
        -- destruct (is_digit c'); [|reflexivity].
           rewrite (span_digits_app s rest Hr). now destruct (span_digits s).
      * destruct (is_digit c); [|reflexivity].
        rewrite (span_digits_app s rest Hr). now destruct (span_digits s).
Qed.

Lemma lex_number_app (s rest ip fp ep r : string) :
  lex_number s = Some (ip, fp, ep, r) ->
  delimited rest ->
  lex_number (s ++ rest) = Some (ip, fp, ep, (r ++ rest)%string).
Proof.
  intros H Hr. unfold lex_number in *.
  destruct (lex_int s) as [[ip0 r0]|] eqn:Ei; [|discriminate H].
  rewrite (lex_int_app s rest ip0 r0 Ei Hr).
  rewrite (lex_frac_app r0 rest Hr).
  destruct (lex_frac r0) as [fp0 r1]. cbn [fst snd].
  rewrite (lex_exp_app r1 rest Hr).
  destruct (lex_exp r1) as [ep0 r2]. cbn [fst snd].
  now injection H as <- <- <- <-.
Qed.

Lemma lex_int_whole (s ip r : string) :
  lex_int s = Some (ip, r) -> s = (ip ++ r)%string.
Proof.
  unfold lex_int. destruct s as [|c s]; [discriminate|].
  destruct (Ascii.eqb_spec c "-") as [->|_]; cbn [fst snd].
  - destruct s as [|c' s]; [discriminate|].
    destruct (Ascii.eqb_spec c' "0") as [->|_].
    + intros H. now injection H as <- <-.
    + destruct (is_digit c'); [|discriminate].
      pose proof (span_digits_whole s) as E.
      destruct (span_digits s) as [ds r0]. cbn [fst snd] in E.
      intros H. injection H as <- <-. cbn [append]. now rewrite <- E.
  - destruct (Ascii.eqb_spec c "0") as [->|_].
    + intros H. now injection H as <- <-.
    + destruct (is_digit c); [|discriminate].
      pose proof (span_digits_whole s) as E.
      destruct (span_digits s) as [ds r0]. cbn [fst snd] in E.
      intros H. injection H as <- <-. cbn [append]. now rewrite <- E.
Qed.

Lemma lex_frac_whole (s : string) :
  s = (fst (lex_frac s) ++ snd (lex_frac s))%string.
Proof.
  unfold lex_frac. destruct s as [|p [|c s]]; try reflexivity.
  destruct (Ascii.eqb p "." && is_digit c); [|reflexivity].
  pose proof (span_digits_whole s) as E.
  destruct (span_digits s) as [ds r0]. cbn [fst snd append] in *.
  now rewrite <- E.
Qed.

Lemma lex_exp_whole (s : string) :
  s = (fst (lex_exp s) ++ snd (lex_exp s))%string.
Proof.
  unfold lex_exp. destruct s as [|e s]; [reflexivity|].
  destruct (Ascii.eqb e "e" || Ascii.eqb e "E"); [|reflexivity].
  destruct s as [|c s]; [reflexivity|].
  destruct (Ascii.eqb c "+" || Ascii.eqb c "-"); cbn [fst snd].
  - destruct s as [|c' s]; [reflexivity|].
    destruct (is_digit c'); [|reflexivity].
    pose proof (span_digits_whole s) as E.
    destruct (span_digits s) as [ds r0]. cbn [fst snd append] in *.
    now rewrite <- E.
  - destruct (is_digit c); [|reflexivity].
    pose proof (span_digits_whole s) as E.
    destruct (span_digits s) as [ds r0]. cbn [fst snd append] in *.
    now rewrite <- E.
Qed.

Lemma lex_number_whole (s ip fp ep : string) :
  lex_number s = Some (ip, fp, ep, EmptyString) ->
  s = (ip ++ fp ++ ep)%string.
Proof.
  unfold lex_number.
  destruct (lex_int s) as [[ip0 r0]|] eqn:Ei; [|discriminate].
  pose proof (lex_frac_whole r0) as Ef.
  destruct (lex_frac r0) as [fp0 r1]. cbn [fst snd] in Ef.
  pose proof (lex_exp_whole r1) as Ee.
  destruct (lex_exp r1) as [ep0 r2]. cbn [fst snd] in Ee.
  intros H. injection H as <- <- <- ->.
  rewrite (lex_int_whole s ip0 r0 Ei), Ef, Ee. now rewrite append_nil_r.
Qed.

Lemma lex_int_head (s ip r : string) :
  lex_int s = Some (ip, r) ->
  exists c s', s = String c s' /\ (Ascii.eqb c "-" || is_digit c = true).
Proof.
  unfold lex_int. destruct s as [|c s]; [discriminate|].
  intros H. exists c, s. split; [reflexivity|].
  destruct (Ascii.eqb c "-"); [reflexivity|]. cbn [fst snd orb] in *.
  destruct (Ascii.eqb_spec c "0") as [->|_]; [reflexivity|].
  now destruct (is_digit c).
Qed.

(** *** Ints *)

Lemma digits_aux_head (fuel : nat) (n : Z) (acc : string) :
  0 < n < 2 ^ (Z.of_nat fuel + 1) ->
  exists c r, digits_aux fuel n acc = String c r /\ Ascii.eqb c "0" = false.
Proof.
  revert n acc. induction fuel as [|f IH]; intros n acc Hn.
  - cbn in Hn. assert (n = 1) by lia. subst n. cbn. eauto.
  - cbn [digits_aux]. destruct (Z.ltb_spec n 10) as [Hlt|Hge].
    + assert (H : In n [1; 2; 3; 4; 5; 6; 7; 8; 9]) by (simpl; lia).
      simpl in H.
      repeat (destruct H as [<-|H]; [eexists _, _; split; reflexivity|]).
      contradiction.
    + apply IH. split.
      * apply Z.div_str_pos. lia.
      * apply Z.div_lt_upper_bound; [lia|].
        replace (Z.of_nat (S f) + 1) with (Z.succ (Z.of_nat f + 1)) in Hn
          by lia.
        rewrite Z.pow_succ_r in Hn by lia. lia.
Qed.

Lemma digits_head (n : Z) :
  0 < n ->
  exists c r, digits n = String c r /\ Ascii.eqb c "0" = false
              /\ is_digit c = true /\ all_digits r = true.
Proof.
  intros Hn. unfold digits.
  destruct (digits_aux_head (Z.to_nat (Z.log2 n)) n "") as (c & r & E & Hc).
  { rewrite Z2Nat.id by apply Z.log2_nonneg.
    split; [exact Hn|]. replace (Z.log2 n + 1) with (Z.succ (Z.log2 n)) by lia.
    now apply Z.log2_spec. }
  exists c, r. split; [exact E|]. split; [exact Hc|].
  destruct (PyStrFacts.digits_spec n) as (Hd & _); [lia|].
  unfold digits in Hd. rewrite E in Hd. cbn [all_digits] in Hd.
  now apply andb_prop in Hd.
Qed.

(** The text of an int is a number without fraction and exponent. *)
Lemma lex_number_str_of_int (n : Z) :
  lex_number (str_of_int n) = Some (str_of_int n, "", "", "").
Proof.
  assert (Hpos : forall m, 0 < m ->
            lex_int (digits m) = Some (digits m, "")
            /\ lex_int (String "-" (digits m))
               = Some (String "-" (digits m), "")).
  { intros m Hm. destruct (digits_head m Hm) as (c & r & -> & Hz & Hc & Hr).
    unfold lex_int. cbn [fst snd append].
    assert (Hm' : Ascii.eqb c "-" = false).
    { destruct c as [[] [] [] [] [] [] [] []]; try discriminate Hc;
        reflexivity. }
    rewrite Hm'. cbn [fst snd]. change (Ascii.eqb "-" "-") with true.
    cbn [fst snd append].
    now rewrite Hz, Hc, (span_digits_all r Hr). }
  unfold lex_number, str_of_int. destruct (Z.ltb_spec n 0) as [Hn|Hn].
  - destruct (Hpos (- n)) as [_ ->]; [lia|]. reflexivity.
  - destruct (Z.eq_dec n 0) as [->|Hz]; [reflexivity|].
    destruct (Hpos n) as [-> _]; [lia|]. reflexivity.
Qed.

Lemma drop_blanks_cons (c : ascii) (r : string) :
  drop_blanks r = r -> r <> "" -> drop_blanks (String c r) = String c r.
Proof.
  intros E Hne. cbn [drop_blanks]. rewrite E.
  destruct r; [contradiction|reflexivity].
Qed.

Lemma int_of_str_str_of_int (n : Z) : int_of_str (str_of_int n) = Some n.
Proof.
  unfold str_of_int. destruct (Z.ltb_spec n 0) as [Hn|Hn].
  - destruct (PyStrFacts.digits_spec (- n)) as (Hd & Hne & Hev); [lia|].
    unfold int_of_str. cbn [skip_blanks].
    change (is_blank "-") with false. cbv iota.
    rewrite (drop_blanks_cons "-" _ (PyStrFacts.drop_blanks_digits _ Hd) Hne).
    destruct (digits (- n)) as [|c r] eqn:E; [contradiction|].
    cbn [all_digits] in Hd. apply andb_prop in Hd. destruct Hd as [Hc Hr].
    cbn [int_digits]. rewrite Hc.
    rewrite (PyStrFacts.int_digits_all_digits r _ Hr).
    cbn [eval_digits] in Hev. rewrite Hev. cbn [option_map]. f_equal. lia.
  - destruct (PyStrFacts.digits_spec n Hn) as (Hd & Hne & Hev).
    rewrite (PyStrFacts.int_of_str_digits _ Hd Hne). now rewrite Hev.
Qed.

Lemma int_str_of_int (n : Z) :
  count_digits (str_of_int n) <= max_str_digits ->
  int_ (str_of_int n) = Some n.
Proof.
  intros H. unfold int_. apply Z.leb_le in H. rewrite H.
  apply int_of_str_str_of_int.
Qed.

(** *** Values *)

(** Induction on values, with the hypothesis on every item of a list and
    every value of a dict. *)
Lemma value_ind_nested (P : value -> Prop) :
  P VNone -> (forall b, P (VBool b)) -> (forall n, P (VInt n)) ->
  (forall x, P (VFloat x)) -> (forall s, P (VStr s)) ->
  (forall l, Forall P l -> P (VList l)) ->
  (forall d, Forall (fun kv => P (snd kv)) d -> P (VDict d)) ->
  forall v, P v.
Proof.
  intros HN HB HI HF HS HL HD.
  fix IH 1. intros [| b | n | x | s | l | d].
  - exact HN.
  - apply HB.
  - apply HI.
  - apply HF.
  - apply HS.
  - apply HL. induction l as [|v l IHl]; constructor; [apply IH|exact IHl].
  - apply HD. induction d as [|[k v] d IHd]; constructor;
      [apply IH|exact IHd].
Qed.

Lemma store_fresh (acc : dict) (k : string) (v : value) :
  ~ In k (map fst acc) -> Py.store acc k v = (acc ++ [(k, v)])%list.
Proof.
  induction acc as [|[k' v'] acc IH]; intros Hk; [reflexivity|].
  cbn [Py.store app]. cbn [map fst In] in Hk.
  destruct (String.eqb_spec k' k) as [E|_]; [tauto|].
  rewrite IH by tauto. reflexivity.
Qed.

Lemma stores_fresh (d acc : dict) :
  List.NoDup (map fst (acc ++ d)) ->
  fold_left (fun a kv => Py.store a (fst kv) (snd kv)) d acc
  = (acc ++ d)%list.
Proof.
  revert acc. induction d as [|[k v] d IH]; intros acc Hnd.
  - now rewrite app_nil_r.
  - cbn [fold_left fst snd].
    assert (Hk : ~ In k (map fst acc)).
    { rewrite map_app in Hnd. cbn [map fst] in Hnd.
      apply NoDup_remove_2 in Hnd. rewrite in_app_iff in Hnd. tauto. }
    rewrite (store_fresh acc k v Hk).
    rewrite IH; rewrite <- app_assoc; [reflexivity|exact Hnd].
Qed.

Lemma join_head (sep p : string) (ps : list string) :
  exists t, join sep (p :: ps) = (p ++ t)%string.
Proof.
  destruct ps as [|q ps]; cbn [join].
  - exists "". now rewrite append_nil_r.
  - eauto.
Qed.

Lemma length_join (sep : string) (parts : list string) :
  Forall (fun p => p <> "") parts ->
  (length parts <= String.length (join sep parts))%nat.
Proof.
  induction 1 as [|p ps Hp Hps IH]; [apply Nat.le_0_l|].
  assert (1 <= String.length p)%nat.
  { destruct p; [contradiction|cbn; lia]. }
  destruct ps as [|q ps]; [cbn [join length]; lia|].
  change (join sep (p :: q :: ps)) with (p ++ sep ++ join sep (q :: ps))%string.
  rewrite !PyStrFacts.length_append. cbn [length] in IH |- *. lia.
Qed.

Section Codec.

Variable float_repr : float -> string.
Variable float_of_str : string -> option float.
Variable max_depth : nat.

Local Abbreviation encode := (encode float_repr).
Local Abbreviation floatstr := (floatstr float_repr).
Local Abbreviation parse_value := (parse_value float_of_str).
Local Abbreviation float_ok := (float_ok float_repr float_of_str).
Local Abbreviation json_ok := (json_ok float_repr float_of_str).
Local Abbreviation reads_back := (reads_back float_repr float_of_str).

Lemma parse_value_number (fuel : nat) (c : ascii) (r : string) :
  Ascii.eqb c "-" || is_digit c = true ->
  parse_value fuel (String c r)
  = match lex_number (String c r) with
    | Some (ip, fp, ep, rest) =>
        if String.eqb fp "" && String.eqb ep ""
        then match int_ ip with
             | Some n => Some (VInt n, false, rest)
             | None => None
             end
        else match float_of_str (ip ++ fp ++ ep) with
             | Some x => Some (VFloat x, false, rest)
             | None => None
             end
    | None =>
        match after "NaN" (String c r), after "Infinity" (String c r),
              after "-Infinity" (String c r)
        with
        | Some rest, _, _ => Some (VFloat nan, false, rest)
        | _, Some rest, _ => Some (VFloat infinity, false, rest)
        | _, _, Some rest => Some (VFloat neg_infinity, false, rest)
        | None, None, None => None
        end
    end.
Proof.
  intros H.
  destruct c as [[] [] [] [] [] [] [] []]; try (cbv in H; discriminate H);
    destruct fuel; reflexivity.
Qed.

Lemma number_begins (c : ascii) (r : string) :
  Ascii.eqb c "-" || is_digit c = true -> begins (String c r).
Proof.
  intros H. exists c, r. split; [reflexivity|].
  destruct c as [[] [] [] [] [] [] [] []]; try (cbv in H; discriminate H);
    split; reflexivity.
Qed.

Lemma lex_number_begins (s ip fp ep r : string) :
  lex_number s = Some (ip, fp, ep, r) ->
  exists c s', s = String c s' /\ (Ascii.eqb c "-" || is_digit c = true).
Proof.
  unfold lex_number. intros H.
  destruct (lex_int s) as [[ip0 r0]|] eqn:Ei; [|discriminate H].
  exact (lex_int_head s ip0 r0 Ei).
Qed.

Lemma parse_int (fuel : nat) (n : Z) (rest : string) :
  count_digits (str_of_int n) <= max_str_digits ->
  delimited rest ->
  parse_value fuel (str_of_int n ++ rest) = Some (VInt n, false, rest)
  /\ begins (str_of_int n).
Proof.
  intros Hn Hr.
  pose proof (lex_number_str_of_int n) as Hlex.
  destruct (lex_number_begins _ _ _ _ _ Hlex) as (c & s' & E & Hc).
  split.
  - pose proof (lex_number_app _ rest _ _ _ _ Hlex Hr) as Happ.
    rewrite E in Happ |- *. cbn [append] in Happ |- *.
    rewrite (parse_value_number fuel c _ Hc), Happ. cbn [String.eqb andb].
    rewrite <- E. now rewrite (int_str_of_int n Hn).
  - rewrite E. now apply number_begins.
Qed.

Lemma float_nan (x : float) : Prim2SF x = S754_nan -> nan = x.
Proof.
  intros E. rewrite <- (SF2Prim_Prim2SF x), E. reflexivity.
Qed.

Lemma float_infinity (x : float) (s : bool) :
  Prim2SF x = S754_infinity s ->
  (if s then neg_infinity else infinity) = x.
Proof.
  intros E. rewrite <- (SF2Prim_Prim2SF x), E. now destruct s.
Qed.

Lemma parse_finite (fuel : nat) (x : float) (rest : string) :
  match lex_number (float_repr x) with
  | Some (ip, fp, ep, EmptyString) =>
      negb (String.eqb fp "" && String.eqb ep "")
  | _ => false
  end = true ->
  float_of_str (float_repr x) = Some x ->
  delimited rest ->
  parse_value fuel (float_repr x ++ rest) = Some (VFloat x, false, rest)
  /\ begins (float_repr x).
Proof.
  intros Ht Hf Hr.
  destruct (lex_number (float_repr x)) as [[[[ip fp] ep] [|? ?]]|] eqn:Hlex;
    try discriminate Ht.
  apply negb_true_iff in Ht.
  destruct (lex_number_begins _ _ _ _ _ Hlex) as (c & s' & E & Hc).
  pose proof (lex_number_whole _ _ _ _ Hlex) as Hw.
  split.
  - pose proof (lex_number_app _ rest _ _ _ _ Hlex Hr) as Happ.
    rewrite E in Happ |- *. cbn [append] in Happ |- *.
    rewrite (parse_value_number fuel c _ Hc), Happ, Ht.
    rewrite <- Hw, Hf. reflexivity.
  - rewrite E. now apply number_begins.
Qed.

Lemma parse_float (fuel : nat) (x : float) (rest : string) :
  float_ok x ->
  delimited rest ->
  parse_value fuel (floatstr x ++ rest) = Some (VFloat x, false, rest)
  /\ begins (floatstr x).
Proof.
  unfold Json.float_ok, float_text_ok, Json.floatstr. intros [Ht Hf] Hr.
  destruct (Prim2SF x) as [s|[|]| |s m e] eqn:E.
  - now apply parse_finite.
  - rewrite <- (float_infinity x true E).
    split; [destruct fuel; reflexivity|].
    eexists _, _. split; [reflexivity|]. split; reflexivity.
  - rewrite <- (float_infinity x false E).
    split; [destruct fuel; reflexivity|].
    eexists _, _. split; [reflexivity|]. split; reflexivity.
  - rewrite <- (float_nan x E).
    split; [destruct fuel; reflexivity|].
    eexists _, _. split; [reflexivity|]. split; reflexivity.
  - now apply parse_finite.
Qed.

Lemma parse_string (fuel : nat) (s rest : string) :
  parse_value fuel (encode_string s ++ rest) = Some (VStr s, false, rest).
Proof.
  unfold encode_string. cbn [append]. rewrite PyStrFacts.append_assoc.
  cbn [append].
  assert (H : parse_value fuel (String dq (escape s ++ String dq rest))
              = match scanstring (escape s ++ String dq rest) with
                | Some (t, w, rest) => Some (VStr t, w, rest)
                | None => None
                end) by (destruct fuel; reflexivity).
  now rewrite H, scanstring_escape.
Qed.

(** *** Lists and dicts *)

Lemma skip_ws_begins (s t : string) :
  begins s -> skip_ws (s ++ t) = (s ++ t)%string.
Proof.
  intros (c & r & -> & Hc & _). cbn [append]. now apply skip_ws_head.
Qed.

Lemma begins_join (sep : string) (enc : value -> string) (x : value)
    (l : list value) (t : string) :
  begins (enc x) -> begins (join sep (map enc (x :: l)) ++ t).
Proof.
  intros (c & r & E & Hc). cbn [map].
  destruct (join_head sep (enc x) (map enc l)) as [u ->].
  rewrite E. cbn [append]. now eexists _, _.
Qed.

Lemma parse_elements_join (p : string -> option (value * bool * string))
    (enc : value -> string) (level : nat) (tail : string) (l : list value) :
  forall steps : nat,
    l <> [] ->
    (length l <= steps)%nat ->
    Forall (fun x => begins (enc x)
                     /\ forall rest, delimited rest ->
                                     p (enc x ++ rest) = Some (x, false, rest))
           l ->
    parse_elements p steps
      (join ("," ++ newline_indent (S level)) (map enc l)
       ++ newline_indent level ++ String "]" tail)
    = Some (l, false, tail).
Proof.
  induction l as [|x l IH]; intros steps Hne Hlen Hl; [contradiction|].
  destruct steps as [|k]; [cbn in Hlen; lia|].
  inversion Hl as [|? ? [Hb Hp] Hl']; subst.
  destruct l as [|y l].
  - cbn [map join parse_elements].
    rewrite Hp by reflexivity.
    rewrite skip_ws_newline_indent. cbn [skip_ws].
    change (is_ws "]") with false. cbv iota.
    now change (Ascii.eqb "]" "]") with true.
  - change (join ("," ++ newline_indent (S level)) (map enc (x :: y :: l)))
      with (enc x ++ ("," ++ newline_indent (S level))
            ++ join ("," ++ newline_indent (S level)) (map enc (y :: l)))%string.
    rewrite !PyStrFacts.append_assoc. cbn [parse_elements].
    change ("," ++ newline_indent (S level)
            ++ join ("," ++ newline_indent (S level)) (map enc (y :: l))
            ++ newline_indent level ++ String "]" tail)%string
      with (String ","
              (newline_indent (S level)
               ++ join ("," ++ newline_indent (S level)) (map enc (y :: l))
               ++ newline_indent level ++ String "]" tail))%string.
    rewrite Hp by reflexivity.
    cbn [skip_ws]. change (is_ws ",") with false. cbv iota.
    change (Ascii.eqb "," "]") with false.
    change (Ascii.eqb "," ",") with true. cbv iota.
    rewrite skip_ws_newline_indent.
    inversion Hl' as [|? ? [Hby _] _]; subst.
    rewrite skip_ws_begins
      by (destruct (join_head ("," ++ newline_indent (S level)) (enc y)
                              (map enc l)) as [u Eu];
          cbn [map]; rewrite Eu;
          destruct Hby as (c & r & -> & Hc); now eexists _, _).
    rewrite IH; [reflexivity|discriminate|cbn [length] in Hlen |- *; lia
                |exact Hl'].
Qed.

Lemma parse_members_join (p : string -> option (value * bool * string))
    (enc : value -> string) (level : nat) (tail : string) (d : dict) :
  forall (steps : nat) (acc : dict),
    d <> [] ->
    (length d <= steps)%nat ->
    Forall (fun kv => begins (enc (snd kv))
                      /\ forall rest, delimited rest ->
                                      p (enc (snd kv) ++ rest)
                                      = Some (snd kv, false, rest))
           d ->
    parse_members p steps
      (join ("," ++ newline_indent (S level)) (map (member enc) d)
       ++ newline_indent level ++ String "}" tail) acc
    = Some (fold_left (fun a kv => Py.store a (fst kv) (snd kv)) d acc,
            false, tail).
Proof.
  induction d as [|[k v] d IH]; intros steps acc Hne Hlen Hd;
    [contradiction|].
  destruct steps as [|n]; [cbn in Hlen; lia|].
  inversion Hd as [|? ? [Hb Hp] Hd']; subst. cbn [fst snd] in Hb, Hp.
  assert (Hkey : forall t,
             parse_members p (S n)
               (member enc (k, v) ++ t) acc
             = match p (enc v ++ t) with
               | None => None
               | Some (v', w2, r3) =>
                   match skip_ws r3 with
                   | EmptyString => None
                   | String c' r4 =>
                       if Ascii.eqb c' "}"
                       then Some (Py.store acc k v', false || w2, r4)
                       else if Ascii.eqb c' "," then
                         match parse_members p n (skip_ws r4)
                                             (Py.store acc k v') with
                         | Some (d0, w, rest) =>
                             Some (d0, false || w2 || w, rest)
                         | None => None
                         end
                       else None
                   end
               end).
  { intros t. unfold member, encode_string. cbn [fst snd append].
    rewrite !PyStrFacts.append_assoc. cbn [append parse_members].
    change (Ascii.eqb dq dq) with true. cbv iota.
    rewrite scanstring_escape. cbn [skip_ws].
    change (is_ws ":") with false. cbv iota.
    change (Ascii.eqb ":" ":") with true. cbv iota.
    cbn [skip_ws]. change (is_ws " ") with true. cbv iota.
    now rewrite (skip_ws_begins _ t Hb). }
  destruct d as [|[k' v'] d].
  - cbn [map join fold_left fst snd].
    rewrite Hkey, Hp by reflexivity.
    rewrite skip_ws_newline_indent. cbn [skip_ws].
    change (is_ws "}") with false. cbv iota.
    now change (Ascii.eqb "}" "}") with true.
  - change (join ("," ++ newline_indent (S level))
              (map (member enc) ((k, v) :: (k', v') :: d)))
      with (member enc (k, v) ++ ("," ++ newline_indent (S level))
            ++ join ("," ++ newline_indent (S level))
                 (map (member enc) ((k', v') :: d)))%string.
    rewrite !PyStrFacts.append_assoc.
    change ("," ++ newline_indent (S level)
            ++ join ("," ++ newline_indent (S level))
                 (map (member enc) ((k', v') :: d))
            ++ newline_indent level ++ String "}" tail)%string
      with (String ","
              (newline_indent (S level)
               ++ join ("," ++ newline_indent (S level))
                    (map (member enc) ((k', v') :: d))
               ++ newline_indent level ++ String "}" tail))%string.
    rewrite Hkey, Hp by reflexivity.
    cbn [skip_ws]. change (is_ws ",") with false. cbv iota.
    change (Ascii.eqb "," "}") with false.
    change (Ascii.eqb "," ",") with true. cbv iota.
    rewrite skip_ws_newline_indent.
    assert (Hq : begins
                   (join ("," ++ newline_indent (S level))
                      (map (member enc) ((k', v') :: d))
                    ++ newline_indent level ++ String "}" tail)).
    { cbn [map].
      destruct (join_head ("," ++ newline_indent (S level))
                  (member enc (k', v')) (map (member enc) d)) as [u ->].
      unfold member, encode_string. cbn [append].
      eexists _, _. split; [reflexivity|]. split; reflexivity. }
    destruct Hq as (c & r & Eq & Hc & _). rewrite Eq.
    rewrite (skip_ws_head c r Hc). rewrite <- Eq.
    rewrite IH; [reflexivity|discriminate|cbn [length] in Hlen |- *; lia
                |exact Hd'].
Qed.

(** *** The round trip *)

Lemma parse_value_list (d : nat) (r : string) :
  parse_value (S d) (String "[" r)
  = match skip_ws r with
    | EmptyString => None
    | String c' r' =>
        if Ascii.eqb c' "]" then Some (VList [], false, r')
        else
          match parse_elements (parse_value d) (String.length r) (skip_ws r)
          with
          | Some (l, w, rest) => Some (VList l, w, rest)
          | None => None
          end
    end.
Proof. reflexivity. Qed.

Lemma parse_value_dict (d : nat) (r : string) :
  parse_value (S d) (String "{" r)
  = match skip_ws r with
    | EmptyString => None
    | String c' r' =>
        if Ascii.eqb c' "}" then Some (VDict [], false, r')
        else
          match parse_members (parse_value d) (String.length r) (skip_ws r) []
          with
          | Some (m, w, rest) => Some (VDict m, w, rest)
          | None => None
          end
    end.
Proof. reflexivity. Qed.

Lemma items_read_back (l : list value) (d level : nat) :
  Forall reads_back l ->
  fold_right (fun x P => json_ok x /\ P) True l ->
  (fold_right (fun x n => Nat.max (depth x) n) O l <= d)%nat ->
  Forall (fun x => begins (encode (S level) x)
                   /\ forall rest, delimited rest ->
                                   parse_value d (encode (S level) x ++ rest)
                                   = Some (x, false, rest))
         l.
Proof.
  induction 1 as [|x l Hx Hl IH]; intros Hok Hd; constructor.
  - cbn [fold_right] in Hok, Hd. destruct Hok as [Hok _].
    assert (Hdx : (depth x <= d)%nat) by lia.
    split; [exact (proj2 (Hx (S level) d "" Hok Hdx I))|].
    intros rest Hr. exact (proj1 (Hx (S level) d rest Hok Hdx Hr)).
  - cbn [fold_right] in Hok, Hd. apply IH; [tauto|lia].
Qed.

Lemma members_read_back (m : dict) (d level : nat) :
  Forall (fun kv => reads_back (snd kv)) m ->
  fold_right (fun kv P => json_ok (snd kv) /\ P) True m ->
  (fold_right (fun kv n => Nat.max (depth (snd kv)) n) O m <= d)%nat ->
  Forall (fun kv => begins (encode (S level) (snd kv))
                    /\ forall rest, delimited rest ->
                                    parse_value d
                                      (encode (S level) (snd kv) ++ rest)
                                    = Some (snd kv, false, rest))
         m.
Proof.
  induction 1 as [|[k x] m Hx Hm IH]; intros Hok Hd; constructor.
  - cbn [fold_right fst snd] in *. destruct Hok as [Hok _].
    assert (Hdx : (depth x <= d)%nat) by lia.
    split; [exact (proj2 (Hx (S level) d "" Hok Hdx I))|].
    intros rest Hr. exact (proj1 (Hx (S level) d rest Hok Hdx Hr)).
  - cbn [fold_right] in Hok, Hd. apply IH; [tauto|lia].
Qed.

Lemma begins_nonempty (enc : value -> string) (l : list value) :
  Forall (fun x => begins (enc x)) l ->
  Forall (fun p => p <> "") (map enc l).
Proof.
  induction 1 as [|x l (c & r & E & _) Hl IH]; constructor; [|exact IH].
  rewrite E. discriminate.
Qed.

Lemma list_reads_back (l : list value) :
  Forall reads_back l -> reads_back (VList l).
Proof.
  intros Hl level fuel rest Hok Hd Hr.
  destruct l as [|x l].
  - split; [|eexists _, _; split; [reflexivity|split; reflexivity]].
    destruct fuel as [|d]; [cbn in Hd; lia|]. reflexivity.
  - split; [|eexists _, _; split; [reflexivity|split; reflexivity]].
    destruct fuel as [|d]; [cbn in Hd; lia|].
    cbn [depth] in Hd. apply le_S_n in Hd.
    pose proof (items_read_back (x :: l) d level Hl Hok Hd) as Hitems.
    change (Json.encode float_repr level (VList (x :: l)))
      with ("[" ++ newline_indent (S level)
            ++ join ("," ++ newline_indent (S level))
                 (map (encode (S level)) (x :: l))
            ++ newline_indent level ++ "]")%string.
    rewrite !PyStrFacts.append_assoc.
    change ("[" ++ ?t)%string with (String "[" t).
    change ("]" ++ rest)%string with (String "]" rest).
    rewrite parse_value_list.
    set (J := (join ("," ++ newline_indent (S level))
                 (map (encode (S level)) (x :: l))
               ++ newline_indent level ++ String "]" rest)%string).
    assert (HJ : begins J).
    { apply begins_join. inversion Hitems as [|? ? [Hb _] _]; exact Hb. }
    rewrite skip_ws_newline_indent.
    destruct HJ as (c & r & EJ & Hc & Hclose).
    rewrite EJ, (skip_ws_head c r Hc), Hclose, <- EJ. unfold J.
    rewrite (parse_elements_join (parse_value d) (encode (S level)) level rest
               (x :: l)); [reflexivity|discriminate| |exact Hitems].
    rewrite PyStrFacts.length_append.
    assert (Hlen : (length (map (encode (S level)) (x :: l))
                    <= String.length
                         (join ("," ++ newline_indent (S level))
                            (map (encode (S level)) (x :: l))))%nat).
    { apply length_join, begins_nonempty.
      eapply Forall_impl; [exact Hitems|]. now intros y [Hb _]. }
    rewrite length_map in Hlen.
    fold J. unfold J. rewrite PyStrFacts.length_append. lia.
Qed.

Lemma dict_reads_back (m : dict) :
  Forall (fun kv => reads_back (snd kv)) m -> reads_back (VDict m).
Proof.
  intros Hm level fuel rest [Hnd Hok] Hd Hr.
  destruct m as [|[k x] m].
  - split; [|eexists _, _; split; [reflexivity|split; reflexivity]].
    destruct fuel as [|d]; [cbn in Hd; lia|]. reflexivity.
  - split; [|eexists _, _; split; [reflexivity|split; reflexivity]].
    destruct fuel as [|d]; [cbn in Hd; lia|].
    cbn [depth] in Hd. apply le_S_n in Hd.
    pose proof (members_read_back ((k, x) :: m) d level Hm Hok Hd) as Hitems.
    change (Json.encode float_repr level (VDict ((k, x) :: m)))
      with ("{" ++ newline_indent (S level)
            ++ join ("," ++ newline_indent (S level))
                 (map (member (encode (S level))) ((k, x) :: m))
            ++ newline_indent level ++ "}")%string.
    rewrite !PyStrFacts.append_assoc.
    change ("{" ++ ?t)%string with (String "{" t).
    change ("}" ++ rest)%string with (String "}" rest).
    rewrite parse_value_dict.
    set (J := (join ("," ++ newline_indent (S level))
                 (map (member (encode (S level))) ((k, x) :: m))
               ++ newline_indent level ++ String "}" rest)%string).
    assert (HJ : exists r, J = String dq r).
    { unfold J. cbn [map].
      destruct (join_head ("," ++ newline_indent (S level))
                  (member (encode (S level)) (k, x))
                  (map (member (encode (S level))) m)) as [u ->].
      unfold member, encode_string. cbn [append]. eauto. }
    rewrite skip_ws_newline_indent.
    destruct HJ as (r & EJ).
    rewrite EJ, (skip_ws_head dq r eq_refl).
    change (Ascii.eqb dq "}") with false. cbv iota. rewrite <- EJ. unfold J.
    rewrite (parse_members_join (parse_value d) (encode (S level)) level rest
               ((k, x) :: m)); [|discriminate| |exact Hitems].
    + now rewrite (stores_fresh ((k, x) :: m) [] Hnd).
    + rewrite PyStrFacts.length_append.
      assert (Hlen : (length (map (member (encode (S level))) ((k, x) :: m))
                      <= String.length
                           (join ("," ++ newline_indent (S level))
                              (map (member (encode (S level)))
                                   ((k, x) :: m))))%nat).
      { apply length_join. clear.
        induction ((k, x) :: m) as [|kv l IH]; constructor; [|exact IH].
        unfold member, encode_string. discriminate. }
      rewrite length_map in Hlen.
      fold J. unfold J. rewrite PyStrFacts.length_append. lia.
Qed.

(** Every value that is [json_ok] reads back from its text. *)
Lemma value_reads_back (v : value) : reads_back v.
Proof.
  induction v as [| b | n | x | s | l IH | d IH] using value_ind_nested.
  - intros level fuel rest _ _ _.
    split; [destruct fuel; reflexivity|].
    eexists _, _. split; [reflexivity|split; reflexivity].
  - intros level fuel rest _ _ _.
    split; [destruct fuel, b; reflexivity|].
    destruct b; eexists _, _; (split; [reflexivity|split; reflexivity]).
  - intros level fuel rest Hok _ Hr. now apply parse_int.
  - intros level fuel rest Hok _ Hr. now apply parse_float.
  - intros level fuel rest _ _ _. split; [apply parse_string|].
    eexists _, _. split; [reflexivity|split; reflexivity].
  - now apply list_reads_back.
  - now apply dict_reads_back.
Qed.

(** [json.load] of the text [json.dump] writes is the value. *)
Lemma loads_dumps (v : value) :
  json_ok v -> (depth v <= max_depth)%nat ->
  loads float_of_str max_depth (dumps float_repr v) = Loaded v.
Proof.
  intros Hok Hd. unfold loads, dumps.
  destruct (value_reads_back v 0%nat max_depth "" Hok Hd I) as [Hp Hb].
  rewrite append_nil_r in Hp.
  destruct Hb as (c & r & E & Hc & _).
  rewrite E in Hp |- *. rewrite (skip_ws_head c r Hc), Hp. reflexivity.
Qed.

End Codec.

End JsonFacts.

Section AppProperties.

Variable float_of_str : string -> option float.
Variable format_2f : float -> string.
Variable json_dumps : value -> string.
Variable float_repr : float -> string.
Variable max_depth : nat.

(** The definitions of [Section App] at the parameters of this section. *)
Local Abbreviation number_of := (number_of float_of_str).
Local Abbreviation row_numbers := (row_numbers float_of_str).
Local Abbreviation row_total := (row_total float_of_str).
Local Abbreviation row_item := (row_item float_of_str).
Local Abbreviation amount_of := (amount_of float_of_str).
Local Abbreviation created_invoice := (created_invoice float_of_str).
Local Abbreviation amount_opt := (amount_opt float_of_str).
Local Abbreviation amount := (amount float_of_str).
Local Abbreviation amount_readable := (amount_readable float_of_str).
Local Abbreviation readable := (readable float_of_str).
Local Abbreviation report_of := (report_of float_of_str format_2f).
Local Abbreviation successive_numbers := (successive_numbers json_dumps).
Local Abbreviation counter_never_lowered :=
  (counter_never_lowered float_of_str format_2f json_dumps).

(** *** Settings *)

(** C10. [get_store_settings] answers by the truth value of the stored
    record: a truthy record comes back as it is, any falsy one (no record,
    null, an empty record) gives the hardcoded default; the state is not
    touched. *)
Theorem get_store_settings_truthiness :
  (forall (d : dict) (f : file) (fl : list (string * string)),
      get_store_settings (mkstate (VDict d) f fl)
      = (Ok (if Py.truthy (stored_settings d) then stored_settings d
             else default_settings),
         mkstate (VDict d) f fl))
  /\ (forall (d : dict) (f : file) (fl : list (string * string)),
         get_store_settings
           (mkstate (VDict (Py.store d "store_settings" (VDict []))) f fl)
         = (Ok default_settings,
            mkstate (VDict (Py.store d "store_settings" (VDict []))) f fl))
  /\ Py.get default_settings "store_name" VNone = Ok (VStr "R Sanju Store")
  /\ (forall k, In k ["address"; "phone"; "email"; "logo_url"] ->
                Py.get default_settings k VNone = Ok (VStr "")).
Proof.
  assert (H : forall d f fl,
             get_store_settings (mkstate (VDict d) f fl)
             = (Ok (if Py.truthy (stored_settings d) then stored_settings d
                    else default_settings),
                mkstate (VDict d) f fl)).
  { intros d f fl. unfold get_store_settings, bindM, data_get, ret,
      stored_settings. simpl.
    destruct (Py.lookup d "store_settings") as [v|]; simpl; [|reflexivity].
    now destruct (Py.truthy v). }
  split; [exact H|]. split.
  - intros d f fl. rewrite H. unfold stored_settings.
    now rewrite lookup_store_eq.
  - split; [reflexivity|].
    intros k Hk. simpl in Hk.
    destruct Hk as [<-|[<-|[<-|[<-|[]]]]]; reflexivity.
Qed.

(** *** Storage *)


(** *** Invoice numbers *)

Lemma generate_invoice_number_once (d : dict) (f : file)
    (fl : list (string * string)) (now : PyDate.datetime) (n : Z) :
  counter_of d = VInt n ->
  generate_invoice_number json_dumps now (mkstate (VDict d) f fl)
  = (Ok (invoice_number_text (PyDate.dt_year now) (n + 1)),
     let d' := VDict (Py.store d "invoice_counter" (VInt (n + 1))) in
     mkstate d' (Content (json_dumps d')) fl).
Proof.
  intros Hc. unfold generate_invoice_number, bindM, data_get, liftR, data_set,
    _save_data, ret. simpl. unfold counter_of in Hc.
  destruct (Py.lookup d "invoice_counter") as [v|]; rewrite Hc; reflexivity.
Qed.

Lemma counter_of_store (d : dict) (v : value) :
  counter_of (Py.store d "invoice_counter" v) = v.
Proof. unfold counter_of. now rewrite lookup_store_eq. Qed.

Lemma successive_numbers_spec (nows : list PyDate.datetime) :
  forall (d : dict) (f : file) (fl : list (string * string)) (n : Z),
    counter_of d = VInt n ->
    let out := successive_numbers nows (mkstate (VDict d) f fl) in
    (forall i now, nows !! i = Some now ->
        fst out !! i
        = Some (Ok (invoice_number_text (PyDate.dt_year now)
                                        (n + 1 + Z.of_nat i))))
    /\ length (fst out) = length nows
    /\ exists d', _data (snd out) = VDict d'
                  /\ counter_of d' = VInt (n + Z.of_nat (length nows)).
Proof.
  induction nows as [|now rest IH]; intros d f fl n Hc; cbn zeta.
  - simpl. split; [intros i now' H; discriminate H|].
    split; [reflexivity|]. exists d. split; [reflexivity|].
    rewrite Hc. f_equal. lia.
  - cbn [successive_numbers].
    rewrite (generate_invoice_number_once d f fl now n Hc). cbn zeta.
    specialize (IH (Py.store d "invoice_counter" (VInt (n + 1)))
                   (Content (json_dumps
                      (VDict (Py.store d "invoice_counter" (VInt (n + 1))))))
                   fl (n + 1) (counter_of_store _ _)).
    cbn zeta in IH.
    destruct (successive_numbers rest _) as [rs st''].
    destruct IH as (Hi & Hlen & d' & Hd' & Hcnt). simpl in *.
    split; [|split].
    + intros [|i] now' H; simpl in *.
      * injection H as <-. do 3 f_equal. lia.
      * rewrite (Hi i now' H). do 3 f_equal. lia.
    + now rewrite Hlen.
    + exists d'. split; [exact Hd'|]. rewrite Hcnt. f_equal. lia.
Qed.

(** *** The counter never goes down *)

Lemma counter_grows_same {A : Type} (m : M A) :
  (forall st, _data (snd (m st)) = _data st) -> counter_grows m.
Proof.
  intros H st d n Hd Hc. exists d, n. rewrite H. split; [exact Hd|].
  split; [exact Hc|lia].
Qed.

Lemma counter_grows_ret {A : Type} (a : A) : counter_grows (ret a).
Proof. now apply counter_grows_same. Qed.

Lemma counter_grows_liftR {A : Type} (r : result A) : counter_grows (liftR r).
Proof. now apply counter_grows_same. Qed.

Lemma counter_grows_data_get (k : string) (v : value) :
  counter_grows (data_get k v).
Proof. now apply counter_grows_same. Qed.

Lemma counter_grows_flash (message category : string) :
  counter_grows (flash message category).
Proof. now apply counter_grows_same. Qed.

Lemma counter_grows_save : counter_grows (_save_data json_dumps).
Proof. now apply counter_grows_same. Qed.

Lemma counter_grows_data_set (k : string) (v : value) :
  k <> "invoice_counter" -> counter_grows (data_set k v).
Proof.
  intros Hk st d n Hd Hc. unfold data_set. rewrite Hd. simpl.
  exists (Py.store d k v), n. split; [reflexivity|]. split; [|lia].
  unfold counter_of in *. now rewrite lookup_store_ne.
Qed.

Lemma counter_grows_setdefault (k : string) (v : value) :
  k <> "invoice_counter" -> counter_grows (data_setdefault k v).
Proof.
  intros Hk st d n Hd Hc. unfold data_setdefault. rewrite Hd.
  destruct (Py.lookup d k); simpl.
  - exists d, n. split; [exact Hd|]. split; [exact Hc|lia].
  - exists (Py.store d k v), n. split; [reflexivity|]. split; [|lia].
    unfold counter_of in *. now rewrite lookup_store_ne.
Qed.

Lemma counter_grows_bind {A B : Type} (m : M A) (k : A -> M B) :
  counter_grows m -> (forall a, counter_grows (k a)) ->
  counter_grows (bindM m k).
Proof.
  intros Hm Hk st d n Hd Hc. unfold bindM.
  destruct (Hm st d n Hd Hc) as (d1 & n1 & Hd1 & Hc1 & Hle).
  destruct (m st) as [[a|e] st1]; simpl in *.
  - destruct (Hk a st1 d1 n1 Hd1 Hc1) as (d2 & n2 & Hd2 & Hc2 & Hle2).
    exists d2, n2. split; [exact Hd2|]. split; [exact Hc2|lia].
  - exists d1, n1. auto.
Qed.

Lemma counter_grows_generate (now : PyDate.datetime) :
  counter_grows (generate_invoice_number json_dumps now).
Proof.
  intros st d n Hd Hc. destruct st as [dat f fl]. simpl in Hd. subst dat.
  rewrite (generate_invoice_number_once d f fl now n Hc). cbn zeta. simpl.
  eexists _, (n + 1). split; [reflexivity|].
  split; [apply counter_of_store|lia].
Qed.

(** Taking a handler apart into the steps above. *)
Ltac counter_steps :=
  repeat first
    [ apply counter_grows_generate
    | apply counter_grows_bind; [|intros ?]
    | apply counter_grows_ret
    | apply counter_grows_liftR
    | apply counter_grows_data_get
    | apply counter_grows_flash
    | apply counter_grows_save
    | apply counter_grows_data_set; discriminate
    | apply counter_grows_setdefault; discriminate
    | match goal with
      | |- counter_grows (if ?c then _ else _) => destruct c
      | |- counter_grows (match ?x with _ => _ end) => destruct x
      end ].

Lemma handlers_keep_counter : counter_never_lowered.
Proof.
  unfold counter_never_lowered. repeat split; intros;
    unfold new_invoice, delete_invoice, convert_credit_to_cash, reports,
      save_store_settings, get_store_settings, invoices_append, invoices_pop,
      invoice_setitem;
    counter_steps.
Qed.

(** C4. On a document whose counter is the int [n >= 0], read at clock
    years of four digits: one call stores the counter [n + 1] (and writes
    the file) and returns [RS-<year>-<n + 1 padded to four digits>]; the
    call number [i] of a run of successive calls returns the suffix of
    [n + 1 + i], so the suffixes grow strictly, and the counter ends at
    [n] plus the number of calls; the text is [RS-], the four digits of
    the year, [-], and at least four digits that read back as the
    counter; and no handler lowers or resets the counter. *)
Theorem generate_invoice_number_increments :
  forall (d : dict) (f : file) (fl : list (string * string))
         (nows : list PyDate.datetime) (n : Z),
    counter_of d = VInt n ->
    0 <= n ->
    Forall (fun now => 1000 <= PyDate.dt_year now <= 9999) nows ->
    let st := mkstate (VDict d) f fl in
    (forall now,
        exists st',
          generate_invoice_number json_dumps now st
          = (Ok (invoice_number_text (PyDate.dt_year now) (n + 1)), st')
          /\ (exists d', _data st' = VDict d'
                         /\ counter_of d' = VInt (n + 1))
          /\ DATA_FILE st' = Content (json_dumps (_data st')))
    /\ (forall i now,
           nows !! i = Some now ->
           fst (successive_numbers nows st) !! i
           = Some (Ok (invoice_number_text (PyDate.dt_year now)
                                           (n + 1 + Z.of_nat i))))
    /\ (exists d', _data (snd (successive_numbers nows st)) = VDict d'
                   /\ counter_of d' = VInt (n + Z.of_nat (length nows)))
    /\ (forall i now,
           nows !! i = Some now ->
           exists yyyy suffix,
             invoice_number_text (PyDate.dt_year now) (n + 1 + Z.of_nat i)
             = ("RS-" ++ yyyy ++ "-" ++ suffix)%string
             /\ String.length yyyy = 4%nat
             /\ PyStr.all_digits yyyy = true
             /\ PyStr.int_of_str yyyy = Some (PyDate.dt_year now)
             /\ (4 <= String.length suffix)%nat
             /\ PyStr.all_digits suffix = true
             /\ PyStr.int_of_str suffix = Some (n + 1 + Z.of_nat i))
    /\ counter_never_lowered.
Proof.
  intros d f fl nows n Hc Hn Hy st.
  destruct (successive_numbers_spec nows d f fl n Hc) as (Hi & _ & Hfin).
  split; [|split; [exact Hi|split; [exact Hfin|
                                    split; [|exact handlers_keep_counter]]]].
  - intros now. eexists. split.
    + apply generate_invoice_number_once. exact Hc.
    + cbn zeta. simpl. split; [|reflexivity].
      eexists. split; [reflexivity|]. apply counter_of_store.
  - intros i now Hlook.
    assert (Hyear : 1000 <= PyDate.dt_year now <= 9999).
    { rewrite Forall_lookup in Hy. exact (Hy i now Hlook). }
    exists (PyStr.digits (PyDate.dt_year now)),
           (PyStr.format_0d 4 (n + 1 + Z.of_nat i)).
    destruct (PyStrFacts.digits_spec (PyDate.dt_year now)) as (Hd & Hne & Hev);
      [lia|].
    destruct (PyStrFacts.int_of_str_format_0d 4 (n + 1 + Z.of_nat i))
      as (Hs1 & Hs2 & Hs3); [lia|].
    split.
    { unfold invoice_number_text, PyStr.str_of_int.
      destruct (Z.ltb_spec (PyDate.dt_year now) 0); [lia|reflexivity]. }
    split; [now apply PyStrFacts.digits_four|].
    split; [exact Hd|].
    split; [rewrite PyStrFacts.int_of_str_digits; congruence|].
    auto.
Qed.

(** *** Looking an invoice up *)

Lemma find_by_id_none (invoice_id : string) (l : list value) (k : nat) :
  Forall (fun inv => other_record invoice_id inv = true) l ->
  find_by_id l invoice_id k = Ok None.
Proof.
  revert k. induction l as [|inv l IH]; intros k H; [reflexivity|].
  inversion H as [|? ? Hinv Hl]; subst. simpl.
  destruct inv as [| | | | | |d]; try discriminate Hinv.
  simpl in *. destruct (Py.lookup d "id") as [v|]; simpl.
  - apply negb_true_iff in Hinv. rewrite Hinv. now apply IH.
  - now apply IH.
Qed.

Lemma find_by_id_first (invoice_id : string) (l : list value) (i : nat)
    (inv : value) (k : nat) :
  l !! i = Some inv ->
  has_id invoice_id inv = true ->
  (forall j inv', (j < i)%nat -> l !! j = Some inv' ->
                  other_record invoice_id inv' = true) ->
  find_by_id l invoice_id k = Ok (Some ((k + i)%nat, inv)).
Proof.
  revert i k. induction l as [|x l IH]; intros i k Hi Hid Hbefore;
    [discriminate Hi|].
  destruct i as [|i]; simpl in Hi.
  - injection Hi as ->. simpl.
    destruct inv as [| | | | | |d]; try discriminate Hid. simpl in *.
    destruct (Py.lookup d "id") as [v|]; [|discriminate Hid].
    rewrite Hid. do 3 f_equal. lia.
  - pose proof (Hbefore O x ltac:(lia) eq_refl) as Hx.
    simpl. destruct x as [| | | | | |d]; try discriminate Hx. simpl in *.
    assert (E : find_by_id l invoice_id (S k) = Ok (Some ((k + S i)%nat, inv))).
    { rewrite (IH i (S k) Hi Hid).
      - do 3 f_equal. lia.
      - intros j inv' Hj Hl. apply (Hbefore (S j) inv'); [lia|exact Hl]. }
    destruct (Py.lookup d "id") as [v|]; simpl.
    + apply negb_true_iff in Hx. now rewrite Hx.
    + exact E.
Qed.

(** *** Deleting an invoice *)

(** C6. Deleting by an id that no stored invoice has leaves [_data] and
    the file as they were and flashes the not-found error; when the first
    invoice with that id sits at index [i], exactly that element is taken
    out of the list, the rest keeping their order, and only then is the
    document written to the file. *)
Theorem delete_invoice_first_match :
  forall (d : dict) (f : file) (fl : list (string * string))
         (l : list value) (invoice_id : string),
    invoices_of d = VList l ->
    let st := mkstate (VDict d) f fl in
    (Forall (fun inv => other_record invoice_id inv = true) l ->
     delete_invoice json_dumps invoice_id st
     = (Ok (Redirect "invoice_list" []),
        mkstate (VDict d) f (fl ++ [("Invoice not found.", "error")])))
    /\ (forall i inv,
           l !! i = Some inv ->
           has_id invoice_id inv = true ->
           (forall j inv', (j < i)%nat -> l !! j = Some inv' ->
                           other_record invoice_id inv' = true) ->
           delete_invoice json_dumps invoice_id st
           = (Ok (Redirect "invoice_list" []),
              let d' := VDict (Py.store d "invoices" (VList (delete i l))) in
              mkstate d' (Content (json_dumps d'))
                      (fl ++ [("Invoice deleted successfully.", "success")]))).
Proof.
  intros d f fl l invoice_id Hinv st. split.
  - intros Hnone. unfold delete_invoice, bindM, data_get, liftR. simpl.
    fold (invoices_of d). rewrite Hinv. simpl.
    rewrite (find_by_id_none invoice_id l 0 Hnone). reflexivity.
  - intros i inv Hi Hid Hbefore.
    unfold delete_invoice, bindM, data_get, liftR. simpl.
    fold (invoices_of d). rewrite Hinv. simpl.
    rewrite (find_by_id_first invoice_id l i inv 0 Hi Hid Hbefore).
    reflexivity.
Qed.

(** *** Converting a credit invoice to cash *)

Lemma store_store (d : dict) (k : string) (v w : value) :
  Py.store (Py.store d k v) k w = Py.store d k w.
Proof.
  induction d as [|[k' v'] d IH]; simpl.
  - now rewrite String.eqb_refl.
  - destruct (String.eqb k' k) eqn:E; simpl.
    + now rewrite String.eqb_refl.
    + now rewrite E, IH.
Qed.

Lemma convert_not_found (d : dict) (f : file) (fl : list (string * string))
    (l : list value) (invoice_id : string) (now : PyDate.datetime) :
  invoices_of d = VList l ->
  Forall (fun inv => other_record invoice_id inv = true) l ->
  convert_credit_to_cash json_dumps invoice_id now (mkstate (VDict d) f fl)
  = (Ok (Redirect "invoice_list" []),
     mkstate (VDict d) f (fl ++ [("Invoice not found.", "error")])).
Proof.
  intros Hinv Hnone. unfold convert_credit_to_cash, bindM, data_get, liftR.
  simpl. fold (invoices_of d). rewrite Hinv. simpl.
  rewrite (find_by_id_none invoice_id l 0 Hnone). reflexivity.
Qed.

Lemma has_id_truthy (invoice_id : string) (inv : value) :
  has_id invoice_id inv = true -> Py.truthy inv = true.
Proof.
  destruct inv as [| | | | | |d]; try discriminate.
  destruct d; [discriminate|reflexivity].
Qed.

Lemma convert_not_credit (d : dict) (f : file) (fl : list (string * string))
    (l : list value) (i : nat) (inv : dict) (invoice_id mode : string)
    (now : PyDate.datetime) :
  invoices_of d = VList l ->
  l !! i = Some (VDict inv) ->
  has_id invoice_id (VDict inv) = true ->
  (forall j inv', (j < i)%nat -> l !! j = Some inv' ->
                  other_record invoice_id inv' = true) ->
  Py.or_ (payment_mode_of inv) (VStr "") = VStr mode ->
  PyStr.upper mode <> "CREDIT" ->
  convert_credit_to_cash json_dumps invoice_id now (mkstate (VDict d) f fl)
  = (Ok (Redirect "invoice_view" [("invoice_id", invoice_id)]),
     mkstate (VDict d) f (fl ++ [not_credit_flash])).
Proof.
  intros Hinv Hi Hid Hbefore Hmode Hne.
  unfold convert_credit_to_cash, bindM, data_get, liftR.
  simpl. fold (invoices_of d). rewrite Hinv. simpl.
  rewrite (find_by_id_first invoice_id l i (VDict inv) 0 Hi Hid Hbefore).
  rewrite (has_id_truthy invoice_id (VDict inv) Hid). simpl.
  fold (payment_mode_of inv). rewrite Hmode. simpl.
  apply String.eqb_neq in Hne. rewrite Hne. reflexivity.
Qed.

Lemma convert_credit (d : dict) (f : file) (fl : list (string * string))
    (l : list value) (i : nat) (inv : dict) (invoice_id mode n : string)
    (now : PyDate.datetime) :
  invoices_of d = VList l ->
  l !! i = Some (VDict inv) ->
  has_id invoice_id (VDict inv) = true ->
  (forall j inv', (j < i)%nat -> l !! j = Some inv' ->
                  other_record invoice_id inv' = true) ->
  Py.or_ (payment_mode_of inv) (VStr "") = VStr mode ->
  PyStr.upper mode = "CREDIT" ->
  Py.or_ (notes_of inv) (VStr "") = VStr n ->
  convert_credit_to_cash json_dumps invoice_id now (mkstate (VDict d) f fl)
  = (Ok (Redirect "invoice_view" [("invoice_id", invoice_id)]),
     let d' := VDict (Py.store d "invoices"
                        (VList (<[i := VDict (converted inv (PyStr.strip n) now)]> l))) in
     mkstate d' (Content (json_dumps d'))
       (fl ++ [("Invoice payment changed from CREDIT to CASH.", "success")])).
Proof.
  intros Hinv Hi Hid Hbefore Hmode Hcredit Hnotes.
  unfold convert_credit_to_cash, bindM, data_get, liftR.
  simpl. fold (invoices_of d). rewrite Hinv. simpl.
  rewrite (find_by_id_first invoice_id l i (VDict inv) 0 Hi Hid Hbefore).
  rewrite (has_id_truthy invoice_id (VDict inv) Hid). simpl.
  fold (payment_mode_of inv). rewrite Hmode. simpl.
  rewrite Hcredit. simpl.
  unfold invoice_setitem, bindM, data_get, data_set, liftR, ret. simpl.
  fold (invoices_of d). rewrite Hinv. simpl.
  rewrite lookup_store_ne by discriminate.
  fold (notes_of inv). rewrite Hnotes. simpl.
  unfold converted.
  destruct (String.eqb (PyStr.strip n) "") eqn:E; simpl;
    rewrite lookup_store_eq; simpl;
    rewrite store_store, list_insert_insert_eq; reflexivity.
Qed.

(** A conversion keeps the notes trimmed: its bracketed line comes after
    trimmed notes. *)
Lemma converted_notes_trimmed (inv : dict) (n : string) (now : PyDate.datetime) :
  PyStr.strip n = n ->
  exists n', notes_of (converted inv n now) = VStr n' /\ PyStr.strip n' = n'.
Proof.
  intros Hn. unfold notes_of, converted. rewrite lookup_store_eq.
  eexists. split; [reflexivity|].
  set (rest := ("Converted from CREDIT to CASH on "
                ++ PyDate.strftime_datetime now)%string).
  assert (Hnote : conversion_note now = (String "[" rest ++ "]")%string).
  { unfold conversion_note, rest. reflexivity. }
  rewrite Hnote. destruct (String.eqb n "") eqn:E.
  - apply PyStrFacts.strip_bracket.
  - apply String.eqb_neq in E.
    change (n ++ String "010" (String "[" rest ++ "]"))%string
      with (n ++ (String "010" (String "[" rest)) ++ "]")%string.
    now apply PyStrFacts.strip_app_bracket.
Qed.

(** C5. For the first invoice with the given id, whose payment mode is a
    string (or falsy): unless the mode reads [CREDIT] without regard to
    case, the call flashes the invalid-state error, which is not the
    not-found one, and leaves [_data] and the file as they were; when it
    does, the invoice gets the mode [CASH] and its notes [n] (trimmed, as
    every handler stores them) become [n], a newline if [n] is not empty,
    and the note with the time of the call; the document is written to
    the file. A second call, at any time, is refused as invalid state and
    changes neither the notes nor anything else but the flashed
    messages. *)
Theorem convert_credit_to_cash_once :
  forall (d : dict) (f : file) (fl : list (string * string))
         (l : list value) (i : nat) (inv : dict) (invoice_id mode : string)
         (now : PyDate.datetime),
    invoices_of d = VList l ->
    l !! i = Some (VDict inv) ->
    has_id invoice_id (VDict inv) = true ->
    (forall j inv', (j < i)%nat -> l !! j = Some inv' ->
                    other_record invoice_id inv' = true) ->
    Py.or_ (payment_mode_of inv) (VStr "") = VStr mode ->
    let st := mkstate (VDict d) f fl in
    let view := Redirect "invoice_view" [("invoice_id", invoice_id)] in
    (PyStr.upper mode <> "CREDIT" ->
     convert_credit_to_cash json_dumps invoice_id now st
     = (Ok view, mkstate (VDict d) f (fl ++ [not_credit_flash])))
    /\ (forall n,
           PyStr.upper mode = "CREDIT" ->
           Py.or_ (notes_of inv) (VStr "") = VStr n ->
           PyStr.strip n = n ->
           let inv' := converted inv n now in
           let d' := VDict (Py.store d "invoices" (VList (<[i := VDict inv']> l))) in
           let st1 :=
             mkstate d' (Content (json_dumps d'))
               (fl ++ [("Invoice payment changed from CREDIT to CASH.", "success")]) in
           convert_credit_to_cash json_dumps invoice_id now st = (Ok view, st1)
           /\ payment_mode_of inv' = VStr "CASH"
           /\ notes_of inv'
              = VStr (if String.eqb n "" then conversion_note now
                      else (n ++ String "010" (conversion_note now))%string)
           /\ (forall k, k <> "payment_mode" -> k <> "notes" ->
                         Py.lookup inv' k = Py.lookup inv k)
           /\ forall now2,
               convert_credit_to_cash json_dumps invoice_id now2 st1
               = (Ok view,
                  mkstate d' (Content (json_dumps d'))
                          (flashed st1 ++ [not_credit_flash])))
    /\ (forall (d0 : dict) (l0 : list value),
           invoices_of d0 = VList l0 ->
           Forall (fun x => other_record invoice_id x = true) l0 ->
           convert_credit_to_cash json_dumps invoice_id now (mkstate (VDict d0) f fl)
           = (Ok (Redirect "invoice_list" []),
              mkstate (VDict d0) f (fl ++ [("Invoice not found.", "error")])))
    /\ not_credit_flash <> ("Invoice not found.", "error").
Proof.
  intros d f fl l i inv invoice_id mode now Hinv Hi Hid Hbefore Hmode st view.
  subst st view. split; [|split; [|split]].
  - intros Hne. now apply (convert_not_credit d f fl l i inv invoice_id mode).
  - intros n Hcredit Hnotes Hstrip inv' d' st1.
    assert (Hmode' : payment_mode_of inv' = VStr "CASH").
    { unfold payment_mode_of, inv', converted.
      rewrite lookup_store_ne by discriminate. now rewrite lookup_store_eq. }
    split; [|split; [exact Hmode'|split; [|split]]].
    + rewrite (convert_credit d f fl l i inv invoice_id mode n now
                 Hinv Hi Hid Hbefore Hmode Hcredit Hnotes).
      cbn zeta. rewrite Hstrip. reflexivity.
    + unfold notes_of, inv', converted. now rewrite lookup_store_eq.
    + intros k Hk1 Hk2. unfold inv', converted.
      rewrite !lookup_store_ne by congruence. reflexivity.
    + intros now2.
      apply (convert_not_credit _ _ _ (<[i := VDict inv']> l) i inv'
               invoice_id "CASH").
      * unfold invoices_of. now rewrite lookup_store_eq.
      * apply list_lookup_insert_eq. now apply lookup_lt_Some in Hi.
      * simpl in Hid |- *. unfold inv', converted.
        rewrite !lookup_store_ne by discriminate. exact Hid.
      * intros j x Hj Hx. rewrite list_lookup_insert_ne in Hx by lia.
        now apply (Hbefore j).
      * now rewrite Hmode'.
      * discriminate.
  - intros d0 l0 Hinv0 Hnone. now apply (convert_not_found d0 f fl l0).
  - discriminate.
Qed.

(** *** Creating an invoice *)

Lemma float_of_zero : float_ float_of_str (VInt 0) = Ok 0%float.
Proof. reflexivity. Qed.

Lemma float_or_str (s : string) :
  float_ float_of_str (Py.or_ (VStr s) (VInt 0))
  = match number_of s with Some x => Ok x | None => Raise ValueError end.
Proof.
  unfold Py.or_, number_of. simpl.
  destruct (String.eqb s "") eqn:E; simpl; [reflexivity|].
  now destruct (float_of_str s).
Qed.

Lemma qty_price_spec (desc qty_str price_str : string) :
  qty_price float_of_str qty_str price_str
  = Ok (row_numbers (desc, qty_str, price_str)).
Proof.
  unfold qty_price, row_numbers. rewrite !float_or_str. simpl.
  destruct (number_of qty_str) as [q|]; simpl; [|reflexivity].
  now destruct (number_of price_str).
Qed.

Lemma float_or_zero_form (form : multidict) (k : string) :
  float_or_zero float_of_str (Form.get form k) = Ok (amount_of form k).
Proof.
  unfold float_or_zero, amount_of.
  assert (H : Form.get form k = VNone \/ exists s, Form.get form k = VStr s).
  { induction form as [|[k' v] form IH]; simpl; [now left|].
    destruct (String.eqb k' k); [right; now exists v|exact IH]. }
  destruct H as [->|[s ->]]; [reflexivity|].
  rewrite float_or_str. now destruct (number_of s).
Qed.

Lemma item_loop_spec (rows : list (string * string * string)) :
  forall (items : list value) (subtotal : float),
    item_loop float_of_str rows items subtotal
    = Ok ((items ++ map row_item (List.filter kept rows))%list,
          fold_left PrimFloat.add (map row_total (List.filter kept rows))
                    subtotal).
Proof.
  induction rows as [|[[desc qty_str] price_str] rows IH];
    intros items subtotal; simpl.
  - now rewrite app_nil_r.
  - assert (Hk : kept (desc, qty_str, price_str)
                 = negb (String.eqb (PyStr.strip desc) "")) by reflexivity.
    rewrite Hk.
    destruct (String.eqb (PyStr.strip desc) "") eqn:E; simpl.
    + apply IH.
    + rewrite (qty_price_spec desc). simpl. rewrite IH.
      rewrite <- app_assoc. reflexivity.
Qed.

Lemma item_line_total_row (rows : list (string * string * string)) :
  map item_line_total (map row_item rows) = map Some (map row_total rows).
Proof.
  induction rows as [|row rows IH]; simpl; [reflexivity|]. now rewrite IH.
Qed.

Lemma new_invoice_post (d : dict) (f : file) (fl : list (string * string))
    (l : list value) (n : Z) (req : request) (now : PyDate.datetime) :
  method req = "POST" ->
  counter_of d = VInt n ->
  invoices_of d = VList l ->
  let new_id := Py.str (Z.of_nat (length l) + 1) in
  let inv := created_invoice (form req) now
               (invoice_number_text (PyDate.dt_year now) (n + 1)) new_id in
  let d' := VDict (Py.store (Py.store d "invoice_counter" (VInt (n + 1)))
                            "invoices" (VList (l ++ [VDict inv]))) in
  new_invoice float_of_str json_dumps req now (mkstate (VDict d) f fl)
  = (Ok (Redirect "invoice_view" [("invoice_id", new_id)]),
     mkstate d' (Content (json_dumps d'))
             (fl ++ [("Invoice created successfully.", "success")])).
Proof.
  intros Hpost Hc Hinv new_id inv d'.
  unfold new_invoice. unfold bindM at 1.
  assert (Hs : exists s, get_store_settings (mkstate (VDict d) f fl)
                         = (Ok s, mkstate (VDict d) f fl)).
  { unfold get_store_settings, bindM, data_get, ret. simpl.
    destruct (Py.truthy _); eauto. }
  destruct Hs as [s ->]. rewrite Hpost, String.eqb_refl.
  unfold bindM at 1.
  rewrite (generate_invoice_number_once d f fl now n Hc). cbn zeta.
  unfold bindM at 1. unfold liftR at 1. rewrite item_loop_spec.
  unfold bindM at 1. unfold liftR at 1. rewrite float_or_zero_form.
  unfold bindM at 1. unfold liftR at 1. rewrite float_or_zero_form.
  unfold bindM at 1. unfold data_setdefault at 1. cbn [_data].
  assert (Hl : Py.lookup (Py.store d "invoice_counter" (VInt (n + 1))) "invoices"
               = Py.lookup d "invoices").
  { apply lookup_store_ne. discriminate. }
  rewrite Hl. unfold invoices_of in Hinv.
  destruct (Py.lookup d "invoices") as [v|] eqn:E.
  - subst v. unfold bindM, liftR, invoices_append, data_set, _save_data,
      flash, ret. simpl. reflexivity.
  - injection Hinv as <-.
    unfold bindM, liftR, invoices_append, data_set, _save_data, flash, ret.
    simpl. rewrite store_store. reflexivity.
Qed.

(** The notes [new_invoice] stores are trimmed. *)
Lemma created_invoice_notes_trimmed (form : multidict) (now : PyDate.datetime)
    (invoice_number new_id : string) :
  exists n, notes_of (created_invoice form now invoice_number new_id) = VStr n
            /\ PyStr.strip n = n.
Proof.
  eexists. split; [reflexivity|]. apply PyStrFacts.strip_idem.
Qed.

(** C2. A POST to [new_invoice] on a document with an int counter and a
    list of invoices succeeds and appends one invoice, whose stored
    numbers are related as the spec says: [total] is
    [subtotal - discount + tax], [subtotal] is the sum, left to right, of
    the [line_total] of the stored items, and every stored item's
    [line_total] is its [quantity] times its [unit_price]. The numbers are
    doubles and the equalities say that the stored values are the same
    double. *)
Theorem new_invoice_totals :
  forall (d : dict) (f : file) (fl : list (string * string))
         (l : list value) (n : Z) (req : request) (now : PyDate.datetime),
    method req = "POST" ->
    counter_of d = VInt n ->
    invoices_of d = VList l ->
    exists (resp : response) (st' : state) (d' inv : dict)
           (items : list value) (line_totals : list float)
           (subtotal discount tax total : float),
      new_invoice float_of_str json_dumps req now (mkstate (VDict d) f fl)
      = (Ok resp, st')
      /\ _data st' = VDict d'
      /\ invoices_of d' = VList (l ++ [VDict inv])
      /\ Py.lookup inv "items" = Some (VList items)
      /\ Py.lookup inv "subtotal" = Some (VFloat subtotal)
      /\ Py.lookup inv "discount" = Some (VFloat discount)
      /\ Py.lookup inv "tax" = Some (VFloat tax)
      /\ Py.lookup inv "total" = Some (VFloat total)
      /\ total = (subtotal - discount + tax)%float
      /\ map item_line_total items = map Some line_totals
      /\ subtotal = sum_floats line_totals
      /\ Forall (fun item =>
                   exists (desc : string) (qty price : float),
                     item = VDict [("description", VStr desc);
                                   ("quantity", VFloat qty);
                                   ("unit_price", VFloat price);
                                   ("line_total", VFloat (qty * price)%float)])
                items.
Proof.
  intros d f fl l n req now Hpost Hc Hinv.
  pose proof (new_invoice_post d f fl l n req now Hpost Hc Hinv) as H.
  cbn zeta in H.
  set (rows := List.filter kept (submitted_rows (form req))).
  do 4 eexists. exists (map row_item rows), (map row_total rows).
  do 4 eexists.
  split; [exact H|]. split; [reflexivity|].
  split; [unfold invoices_of; now rewrite lookup_store_eq|].
  do 5 (split; [reflexivity|]).
  split; [reflexivity|].
  split; [apply item_line_total_row|].
  split; [reflexivity|].
  apply Forall_forall. intros item Hin.
  apply list_elem_of_In, in_map_iff in Hin.
  destruct Hin as ([[desc qty_str] price_str] & <- & _).
  eexists _, _, _. reflexivity.
Qed.

(** C3. The stored items are the submitted rows (the zip of the three
    field lists) whose trimmed description is not empty, in the order of
    submission, each with its trimmed description; the stored subtotal is
    the sum of the totals of those rows alone, so a row with a blank
    description is neither stored nor counted. *)
Theorem new_invoice_drops_blank_rows :
  forall (d : dict) (f : file) (fl : list (string * string))
         (l : list value) (n : Z) (req : request) (now : PyDate.datetime),
    method req = "POST" ->
    counter_of d = VInt n ->
    invoices_of d = VList l ->
    let rows := submitted_rows (form req) in
    exists (resp : response) (st' : state) (d' inv : dict),
      new_invoice float_of_str json_dumps req now (mkstate (VDict d) f fl)
      = (Ok resp, st')
      /\ _data st' = VDict d'
      /\ invoices_of d' = VList (l ++ [VDict inv])
      /\ Py.lookup inv "items"
         = Some (VList (map row_item (List.filter kept rows)))
      /\ Py.lookup inv "subtotal"
         = Some (VFloat (sum_floats (map row_total (List.filter kept rows))))
      /\ (forall row, In row rows ->
                      (kept row = true
                       <-> PyStr.strip (fst (fst row)) <> "")
                      /\ (kept row = true ->
                          In row (List.filter kept rows)
                          /\ Py.get (row_item row) "description" VNone
                             = Ok (VStr (PyStr.strip (fst (fst row)))))
                      /\ (kept row = false ->
                          ~ In row (List.filter kept rows))).
Proof.
  intros d f fl l n req now Hpost Hc Hinv rows.
  pose proof (new_invoice_post d f fl l n req now Hpost Hc Hinv) as H.
  cbn zeta in H.
  do 4 eexists.
  split; [exact H|]. split; [reflexivity|].
  split; [unfold invoices_of; now rewrite lookup_store_eq|].
  split; [reflexivity|]. split; [reflexivity|].
  intros row Hrow. split; [|split].
  - unfold kept. rewrite negb_true_iff. apply String.eqb_neq.
  - intros Hk. split; [|reflexivity].
    apply filter_In. now split.
  - intros Hk Hin. apply filter_In in Hin. destruct Hin as [_ Hin].
    congruence.
Qed.

(** *** Reports *)

Lemma get_field (d : dict) (k : string) :
  Py.get (VDict d) k VNone = Ok (field (VDict d) k).
Proof. reflexivity. Qed.

Lemma effective_date_str_spec (inv : value) :
  date_readable inv = true ->
  exists v, effective_date_str inv = Ok v
            /\ match strptime_value v with
               | Ok dt => Some dt
               | Raise _ => None
               end = effective_date inv.
Proof.
  destruct inv as [| | | | | |d]; try discriminate.
  unfold date_readable, effective_date_str, effective_date,
    effective_date_text, field. simpl.
  assert (Hc : match Py.lookup d "created_at" with
               | Some (VStr _) | None => true
               | Some _ => false
               end = true ->
               exists v,
                 Py.split_first match Py.lookup d "created_at" with
                                | Some x => x
                                | None => VStr ""
                                end = Ok v
                 /\ match strptime_value v with
                    | Ok dt => Some dt
                    | Raise _ => None
                    end
                    = match
                        match Py.lookup d "created_at" with
                        | Some (VStr s) => Some (hd EmptyString (PyStr.split " " s))
                        | Some _ => None
                        | None => Some EmptyString
                        end
                      with
                      | Some s => PyDate.strptime s
                      | None => None
                      end).
  { destruct (Py.lookup d "created_at") as [[| | | |s| |]|];
      try discriminate; intros _; simpl.
    - eexists. split; [reflexivity|]. simpl. now destruct (PyDate.strptime _).
    - eexists. split; [reflexivity|]. reflexivity. }
  destruct (Py.lookup d "invoice_date") as [a|]; simpl; [|exact Hc].
  destruct (Py.truthy a) eqn:T; simpl; [|exact Hc].
  intros _. exists a. split; [reflexivity|].
  destruct a; try reflexivity. simpl. now destruct (PyDate.strptime s).
Qed.

Lemma filter_invoices_spec (keep : PyDate.date -> bool) (l : list value) :
  forall acc,
    Forall (fun inv => date_readable inv = true) l ->
    filter_invoices keep l acc
    = Ok (acc ++ List.filter
                   (fun inv => match effective_date inv with
                               | Some d => keep d
                               | None => false
                               end) l)%list.
Proof.
  induction l as [|inv l IH]; intros acc H; simpl.
  - now rewrite app_nil_r.
  - inversion H as [|? ? Hinv Hl]; subst.
    destruct (effective_date_str_spec inv Hinv) as (v & -> & E). simpl.
    rewrite <- E. destruct (strptime_value v) as [dt|e].
    + destruct (keep dt).
      * rewrite (IH _ Hl). now rewrite <- app_assoc.
      * now apply IH.
    + now apply IH.
Qed.

Lemma filter_expenses_month_spec (year month : Z) (l : list value) :
  forall acc,
    Forall (fun exp => is_dict exp = true) l ->
    filter_expenses_month year month l acc
    = Ok (acc ++ List.filter
                   (fun exp => in_month year month (expense_date exp)) l)%list.
Proof.
  induction l as [|exp l IH]; intros acc H; simpl.
  - now rewrite app_nil_r.
  - inversion H as [|? ? Hexp Hl]; subst.
    destruct exp as [| | | | | |d]; try discriminate Hexp.
    unfold expense_date, field. simpl.
    destruct (Py.lookup d "date") as [[|b|z|x|s|l0|d0]|]; simpl;
      try (now apply IH);
      try (match goal with |- context [if ?c then _ else _] => destruct c end;
           now apply IH).
    destruct (String.eqb s "") eqn:Es; simpl.
    + apply String.eqb_eq in Es. subst s. simpl. now apply IH.
    + destruct (PyDate.strptime s) as [dt|]; simpl; [|now apply IH].
      destruct ((PyDate.year dt =? year) && (PyDate.month dt =? month)).
      * rewrite (IH _ Hl). now rewrite <- app_assoc.
      * now apply IH.
Qed.

Lemma filter_expenses_day_spec (selected_date : string) (l : list value) :
  Forall (fun exp => is_dict exp = true) l ->
  filter_expenses_day selected_date l
  = Ok (List.filter (fun exp => Py.eq_str (field exp "date") selected_date) l).
Proof.
  induction l as [|exp l IH]; intros H; simpl; [reflexivity|].
  inversion H as [|? ? Hexp Hl]; subst.
  destruct exp as [| | | | | |d]; try discriminate Hexp.
  simpl. rewrite (IH Hl). reflexivity.
Qed.

Lemma sum_field_spec (k : string) (l : list value) :
  forall acc,
    Forall (fun x => amount_readable k x = true) l ->
    sum_field float_of_str k l acc
    = Ok (fold_left PrimFloat.add (map (amount k) l) acc).
Proof.
  induction l as [|x l IH]; intros acc H; simpl; [reflexivity|].
  inversion H as [|? ? Hx Hl]; subst.
  unfold amount_readable in Hx. apply andb_prop in Hx. destruct Hx as [Hd Ha].
  destruct x as [| | | | | |d]; try discriminate Hd.
  unfold amount. unfold amount_opt in *. cbn [sum_field].
  rewrite get_field. cbn [bindR].
  destruct (float_ float_of_str (Py.or_ (field (VDict d) k) (VInt 0)));
    [|discriminate Ha].
  cbn [bindR]. now apply IH.
Qed.

Lemma Forall_filter_bool {A : Type} (P : A -> Prop) (f : A -> bool) (l : list A) :
  Forall P l -> Forall P (List.filter f l).
Proof.
  induction 1 as [|x l Hx Hl IH]; simpl; [constructor|].
  destruct (f x); [constructor; assumption|assumption].
Qed.

(** The trend word, by the sign of the net total. *)
Lemma trend_of_sign (net : float) :
  ((0 <? net)%float = true -> trend_of net = "profitable")
  /\ ((net <? 0)%float = true -> trend_of net = "loss-making")
  /\ ((net =? 0)%float = true -> trend_of net = "balanced").
Proof.
  unfold trend_of. rewrite !FloatAxioms.ltb_spec, FloatAxioms.eqb_spec.
  change (Prim2SF 0) with (S754_zero false).
  destruct (Prim2SF net) as [s|s| |s m e]; try destruct s; simpl;
    repeat split; intros H; try reflexivity; discriminate H.
Qed.

Lemma amount_readable_dict (k : string) (l : list value) :
  Forall (fun x => amount_readable k x = true) l ->
  Forall (fun x => is_dict x = true) l.
Proof.
  intros H. eapply Forall_impl; [exact H|].
  intros x Hx. unfold amount_readable in Hx. now apply andb_prop in Hx.
Qed.

Lemma reports_monthly (d : dict) (f : file) (fl : list (string * string))
    (l e : list value) (req : request) (now : PyDate.datetime) :
  readable d l e ->
  period_of req = "monthly" ->
  let ym := report_month (selected_month_of req now) now in
  let invs :=
    List.filter (fun inv => in_month (fst ym) (snd ym) (effective_date inv)) l in
  let exps :=
    List.filter (fun exp => in_month (fst ym) (snd ym) (expense_date exp)) e in
  let label := (PyStr.str_of_int (fst ym) ++ "-" ++ PyStr.format_0d 2 (snd ym)
                ++ " (Monthly)")%string in
  reports float_of_str format_2f req now (mkstate (VDict d) f fl)
  = (Ok (Render "reports.html"
           [("store", settings_shown d);
            ("report", VDict (report_of label invs exps));
            ("period", VStr "monthly");
            ("selected_date", VStr (selected_date_of req now));
            ("selected_month", VStr (selected_month_of req now))]),
     mkstate (VDict d) f fl).
Proof.
  intros (Hl & He & Hdate & Htot & Hamt) Hp ym invs exps label.
  unfold reports. unfold bindM at 1.
  rewrite get_store_settings_at. unfold settings_shown.
  unfold bindM at 1, data_get at 1. cbn [_data Py.get].
  fold (invoices_of d). rewrite Hl.
  unfold bindM at 1, data_get at 1. cbn [_data Py.get].
  fold (expenses_of d). rewrite He.
  fold (period_of req) (selected_date_of req now) (selected_month_of req now).
  rewrite Hp.
  unfold bindM at 1, liftR at 1, filter_period.
  change (String.eqb "monthly" "monthly") with true. cbv iota.
  fold (report_month (selected_month_of req now) now). fold ym.
  cbn [Py.iter bindR].
  rewrite (filter_invoices_spec _ l [] Hdate). cbn [bindR app].
  rewrite (filter_expenses_month_spec _ _ e []
             (amount_readable_dict "amount" e Hamt)).
  cbn [bindR app]. change (List.filter _ l) with invs.
  fold exps label.
  unfold bindM at 1, liftR at 1.
  rewrite (sum_field_spec "total" invs 0%float
             (Forall_filter_bool _ _ l Htot)).
  unfold bindM at 1, liftR at 1.
  rewrite (sum_field_spec "amount" exps 0%float
             (Forall_filter_bool _ _ e Hamt)).
  reflexivity.
Qed.

Lemma reports_daily (d : dict) (f : file) (fl : list (string * string))
    (l e : list value) (req : request) (now : PyDate.datetime) :
  readable d l e ->
  period_of req <> "monthly" ->
  let day := report_day (selected_date_of req now) now in
  let selected_date := echoed_date (selected_date_of req now) now in
  let invs := List.filter (fun inv => on_day day (effective_date inv)) l in
  let exps := List.filter
                (fun exp => Py.eq_str (field exp "date") selected_date) e in
  let label := (selected_date ++ " (Daily)")%string in
  reports float_of_str format_2f req now (mkstate (VDict d) f fl)
  = (Ok (Render "reports.html"
           [("store", settings_shown d);
            ("report", VDict (report_of label invs exps));
            ("period", VStr (period_of req));
            ("selected_date", VStr selected_date);
            ("selected_month", VStr (selected_month_of req now))]),
     mkstate (VDict d) f fl).
Proof.
  intros (Hl & He & Hdate & Htot & Hamt) Hp day selected_date invs exps label.
  unfold reports. unfold bindM at 1.
  rewrite get_store_settings_at. unfold settings_shown.
  unfold bindM at 1, data_get at 1. cbn [_data Py.get].
  fold (invoices_of d). rewrite Hl.
  unfold bindM at 1, data_get at 1. cbn [_data Py.get].
  fold (expenses_of d). rewrite He.
  fold (period_of req) (selected_date_of req now) (selected_month_of req now).
  unfold bindM at 1, liftR at 1, filter_period.
  apply String.eqb_neq in Hp. rewrite Hp.
  assert (E : match PyDate.strptime (selected_date_of req now) with
              | Some d0 => (d0, selected_date_of req now)
              | None => (PyDate.date_of now,
                         PyDate.strftime_date (PyDate.date_of now))
              end = (day, selected_date)).
  { unfold day, selected_date, report_day, echoed_date.
    now destruct (PyDate.strptime (selected_date_of req now)). }
  rewrite E. cbn [fst snd Py.iter bindR].
  rewrite (filter_invoices_spec _ l [] Hdate). cbn [bindR app].
  rewrite (filter_expenses_day_spec _ e
             (amount_readable_dict "amount" e Hamt)).
  cbn [bindR]. change (List.filter _ l) with invs. fold exps label.
  unfold bindM at 1, liftR at 1.
  rewrite (sum_field_spec "total" invs 0%float
             (Forall_filter_bool _ _ l Htot)).
  unfold bindM at 1, liftR at 1.
  rewrite (sum_field_spec "amount" exps 0%float
             (Forall_filter_bool _ _ e Hamt)).
  reflexivity.
Qed.

Lemma narrative_cases (label : string) (sales expenses net : float)
    (invs exps : list value) :
  narrative format_2f label sales expenses net
            (Z.of_nat (length invs)) (Z.of_nat (length exps))
  = match invs, exps with
    | [], [] => no_activity
    | _, _ =>
        ("AI summary: For " ++ label ++ ", total sales are Rs. "
         ++ format_2f sales ++ " across "
         ++ PyStr.str_of_int (Z.of_nat (length invs))
         ++ " invoice(s), with expenses of Rs. " ++ format_2f expenses
         ++ ". The period is " ++ trend_of net ++ " with a net of Rs. "
         ++ format_2f net ++ ". "
         ++ (if (0 <? expenses)%float
             then "Consider reviewing infrastructure and operational costs to optimize profit."
             else "No expenses recorded, so all sales are currently counted as profit."))%string
    end.
Proof.
  unfold narrative. destruct invs as [|i invs], exps as [|x exps];
    reflexivity.
Qed.

(** C7. On a document whose records can be read, a report of either
    period comes back with the filtered lists [invs] and [exps], and its
    [sales_total] is the sum of [float(total or 0)] over [invs], its
    [expenses_total] the sum of [float(amount or 0)] over [exps], and its
    [net_total] their difference. When both lists are empty the narrative
    is the fixed no-activity sentence; otherwise it is the template with
    the trend word, which is [profitable] when the net is above zero,
    [loss-making] when it is below and [balanced] when it equals zero. *)
Theorem report_totals_and_trend :
  forall (d : dict) (f : file) (fl : list (string * string))
         (l e : list value) (req : request) (now : PyDate.datetime),
    readable d l e ->
    exists (label selected_date : string) (invs exps : list value),
      let sales_total := sum_floats (map (amount "total") invs) in
      let expenses_total := sum_floats (map (amount "amount") exps) in
      let net_total := (sales_total - expenses_total)%float in
      let report := report_of label invs exps in
      reports float_of_str format_2f req now (mkstate (VDict d) f fl)
      = (Ok (Render "reports.html"
               [("store", settings_shown d);
                ("report", VDict report);
                ("period", VStr (period_of req));
                ("selected_date", VStr selected_date);
                ("selected_month", VStr (selected_month_of req now))]),
         mkstate (VDict d) f fl)
      /\ Py.lookup report "invoices" = Some (VList invs)
      /\ Py.lookup report "expenses" = Some (VList exps)
      /\ Py.lookup report "sales_total" = Some (VFloat sales_total)
      /\ Py.lookup report "expenses_total" = Some (VFloat expenses_total)
      /\ Py.lookup report "net_total" = Some (VFloat net_total)
      /\ (forall x k t, field x k = VFloat t -> Py.truthy (VFloat t) = true ->
                        amount k x = t)
      /\ (invs = [] -> exps = [] ->
          Py.lookup report "ai_summary" = Some (VStr no_activity))
      /\ (invs <> [] \/ exps <> [] ->
          exists trend rest,
            Py.lookup report "ai_summary"
            = Some (VStr ("AI summary: For " ++ label ++ ", total sales are Rs. "
                          ++ format_2f sales_total ++ " across "
                          ++ PyStr.str_of_int (Z.of_nat (length invs))
                          ++ " invoice(s), with expenses of Rs. "
                          ++ format_2f expenses_total
                          ++ ". The period is " ++ trend
                          ++ " with a net of Rs. " ++ format_2f net_total
                          ++ ". " ++ rest)%string)
            /\ ((0 <? net_total)%float = true -> trend = "profitable")
            /\ ((net_total <? 0)%float = true -> trend = "loss-making")
            /\ ((net_total =? 0)%float = true -> trend = "balanced")).
Proof.
  intros d f fl l e req now Hr.
  assert (Hrep : exists label selected_date invs exps,
             reports float_of_str format_2f req now (mkstate (VDict d) f fl)
             = (Ok (Render "reports.html"
                      [("store", settings_shown d);
                       ("report", VDict (report_of label invs exps));
                       ("period", VStr (period_of req));
                       ("selected_date", VStr selected_date);
                       ("selected_month", VStr (selected_month_of req now))]),
                mkstate (VDict d) f fl)).
  { destruct (String.eqb (period_of req) "monthly") eqn:Ep.
    - apply String.eqb_eq in Ep.
      pose proof (reports_monthly d f fl l e req now Hr Ep) as H.
      cbn zeta in H. rewrite Ep. eauto.
    - apply String.eqb_neq in Ep.
      pose proof (reports_daily d f fl l e req now Hr Ep) as H.
      cbn zeta in H. eauto. }
  destruct Hrep as (label & selected_date & invs & exps & Hrep).
  exists label, selected_date, invs, exps. cbn zeta.
  split; [exact Hrep|].
  do 5 (split; [reflexivity|]).
  split.
  { intros x k t Hf Ht. unfold amount, amount_opt. rewrite Hf.
    unfold Py.or_. rewrite Ht. reflexivity. }
  split.
  { intros -> ->. reflexivity. }
  intros Hne.
  exists (trend_of (sum_floats (map (amount "total") invs)
                    - sum_floats (map (amount "amount") exps))%float).
  eexists. split.
  - unfold report_of. cbn [Py.lookup String.eqb Ascii.eqb Bool.eqb].
    rewrite narrative_cases.
    destruct invs as [|i invs], exps as [|x exps];
      [destruct Hne as [Hne|Hne]; now elim Hne|reflexivity..].
  - apply trend_of_sign.
Qed.

Lemma effective_date_str_unreadable (x : dict) :
  date_readable (VDict x) = false ->
  effective_date_str (VDict x) = Raise AttributeError.
Proof.
  unfold date_readable, effective_date_str, field. cbn [Py.get bindR].
  intros H. apply orb_false_iff in H. destruct H as [-> H].
  destruct (Py.lookup x "created_at") as [[| | | | | |]|];
    try discriminate H; reflexivity.
Qed.

Lemma filter_invoices_stops (keep : PyDate.date -> bool)
    (pre rest : list value) (x : dict) :
  forall acc,
    Forall (fun inv => date_readable inv = true) pre ->
    date_readable (VDict x) = false ->
    filter_invoices keep (pre ++ VDict x :: rest) acc = Raise AttributeError.
Proof.
  induction pre as [|inv pre IH]; intros acc Hpre Hx.
  - cbn [app filter_invoices].
    now rewrite (effective_date_str_unreadable x Hx).
  - inversion Hpre as [|? ? Hinv Hp]; subst.
    cbn [app filter_invoices].
    destruct (effective_date_str_spec inv Hinv) as (v & -> & _).
    cbn [bindR].
    destruct (strptime_value v) as [dt|e]; [destruct (keep dt)|];
      now apply IH.
Qed.

(** C8. The monthly report stops on an invoice without a usable date
    instead of leaving it out: where a stored invoice has no
    [invoice_date] that counts and a [created_at] that is not a string
    (null, say), and the invoices before it can be read, [reports]
    raises [AttributeError], for every request (monthly or daily) and
    clock reading, and the state is what it was. The date cell of the
    export, which guards [created_at], is empty for a null one. *)
Theorem reports_stops_on_null_created_at :
  forall (d : dict) (f : file) (fl : list (string * string))
         (pre rest : list value) (x : dict) (req : request)
         (now : PyDate.datetime),
    invoices_of d = VList (pre ++ VDict x :: rest) ->
    Forall (fun inv => date_readable inv = true) pre ->
    date_readable (VDict x) = false ->
    reports float_of_str format_2f req now (mkstate (VDict d) f fl)
    = (Raise AttributeError, mkstate (VDict d) f fl)
    /\ (Py.lookup x "created_at" = Some VNone ->
        date_cell (VDict x) = Ok (VStr "")).
Proof.
  intros d f fl pre rest x req now Hl Hpre Hx. split.
  - unfold reports. unfold bindM at 1.
    rewrite get_store_settings_at.
    unfold bindM at 1, data_get at 1. cbn [_data Py.get].
    fold (invoices_of d). rewrite Hl.
    unfold bindM at 1, data_get at 1. cbn [_data Py.get].
    unfold bindM at 1, liftR at 1, filter_period.
    destruct (String.eqb _ "monthly"); cbn [Py.iter bindR];
      now rewrite (filter_invoices_stops _ pre rest x [] Hpre Hx).
  - intros Hc. unfold date_readable, field in Hx.
    apply orb_false_iff in Hx. destruct Hx as [Hd _].
    unfold date_cell. cbn [Py.get bindR]. rewrite Hd, Hc. reflexivity.
Qed.

(** X21. On a document whose records can be read, the monthly report
    for a month text that reads as the year [y] and the month [m] comes
    back without an exception, and holds, in stored order, exactly the
    invoices whose effective date parses as a date of that year and month
    and exactly the expenses whose date does; the day plays no part, and
    a record whose date is missing or does not parse is left out. *)
Theorem monthly_report_filter :
  forall (d : dict) (f : file) (fl : list (string * string))
         (l e : list value) (req : request) (now : PyDate.datetime) (y m : Z),
    readable d l e ->
    period_of req = "monthly" ->
    parse_year_month (selected_month_of req now) = Some (y, m) ->
    let invs := List.filter (fun inv => in_month y m (effective_date inv)) l in
    let exps := List.filter (fun exp => in_month y m (expense_date exp)) e in
    (exists label selected_date,
        reports float_of_str format_2f req now (mkstate (VDict d) f fl)
        = (Ok (Render "reports.html"
                 [("store", settings_shown d);
                  ("report", VDict (report_of label invs exps));
                  ("period", VStr "monthly");
                  ("selected_date", VStr selected_date);
                  ("selected_month", VStr (selected_month_of req now))]),
           mkstate (VDict d) f fl)
        /\ Py.lookup (report_of label invs exps) "invoices" = Some (VList invs)
        /\ Py.lookup (report_of label invs exps) "expenses" = Some (VList exps))
    /\ (forall inv,
           In inv invs
           <-> In inv l
               /\ exists s dt,
                   effective_date_text inv = Some s
                   /\ PyDate.strptime s = Some dt
                   /\ PyDate.year dt = y /\ PyDate.month dt = m)
    /\ (forall exp,
           In exp exps
           <-> In exp e
               /\ exists s dt,
                   field exp "date" = VStr s
                   /\ PyDate.strptime s = Some dt
                   /\ PyDate.year dt = y /\ PyDate.month dt = m)
    /\ (forall inv, effective_date inv = None -> ~ In inv invs)
    /\ (forall exp, expense_date exp = None -> ~ In exp exps).
Proof.
  intros d f fl l e req now y m Hr Hp Hym invs exps.
  split; [|split; [|split; [|split]]].
  - pose proof (reports_monthly d f fl l e req now Hr Hp) as H.
    cbn zeta in H. unfold report_month in H. rewrite Hym in H.
    cbn [fst snd] in H. eauto.
  - intros inv. unfold invs. rewrite filter_In.
    unfold effective_date, in_month.
    split; intros [Hin H]; (split; [exact Hin|]).
    + destruct (effective_date_text inv) as [s|]; [|discriminate H].
      destruct (PyDate.strptime s) as [dt|] eqn:E; [|discriminate H].
      apply andb_prop in H. destruct H as [H1 H2].
      exists s, dt. repeat split; [exact E|lia|lia].
    + destruct H as (s & dt & -> & -> & Hy & Hm).
      apply andb_true_intro. split; lia.
  - intros exp. unfold exps. rewrite filter_In.
    unfold expense_date, in_month.
    split; intros [Hin H]; (split; [exact Hin|]).
    + destruct (field exp "date") as [| | | |s| |]; try discriminate H.
      destruct (PyDate.strptime s) as [dt|] eqn:E; [|discriminate H].
      apply andb_prop in H. destruct H as [H1 H2].
      exists s, dt. repeat split; [exact E|lia|lia].
    + destruct H as (s & dt & -> & -> & Hy & Hm).
      apply andb_true_intro. split; lia.
  - intros inv Hnone Hin. unfold invs in Hin. apply filter_In in Hin.
    rewrite Hnone in Hin. destruct Hin as [_ Hin]. discriminate Hin.
  - intros exp Hnone Hin. unfold exps in Hin. apply filter_In in Hin.
    rewrite Hnone in Hin. destruct Hin as [_ Hin]. discriminate Hin.
Qed.

(** X1. The daily branch falls back on today and hands back the date it
    used: when [selected_date] does not parse as a date, the report is
    the one of today (the invoices whose effective date is today and the
    expenses dated today's text, under today's label), and the template
    gets today's text in place of the date of the request. *)
Lemma reports_daily_echoes_today (d : dict) (f : file)
    (fl : list (string * string)) (l e : list value) (req : request)
    (now : PyDate.datetime) :
  readable d l e ->
  period_of req <> "monthly" ->
  PyDate.strptime (selected_date_of req now) = None ->
  let today := PyDate.strftime_date (PyDate.date_of now) in
  let invs :=
    List.filter (fun inv => on_day (PyDate.date_of now) (effective_date inv))
                l in
  let exps :=
    List.filter (fun exp => Py.eq_str (field exp "date") today) e in
  reports float_of_str format_2f req now (mkstate (VDict d) f fl)
  = (Ok (Render "reports.html"
           [("store", settings_shown d);
            ("report",
             VDict (report_of (today ++ " (Daily)")%string invs exps));
            ("period", VStr (period_of req));
            ("selected_date", VStr today);
            ("selected_month", VStr (selected_month_of req now))]),
     mkstate (VDict d) f fl).
Proof.
  intros Hr Hp Hparse today invs exps.
  pose proof (reports_daily d f fl l e req now Hr Hp) as H. cbn zeta in H.
  unfold report_day, echoed_date in H. rewrite Hparse in H. exact H.
Qed.

(** The monthly branch computes with the current year and month when
    [selected_month] does not parse, and hands the text that did not
    parse back to the template. *)
Lemma reports_monthly_keeps_month (d : dict) (f : file)
    (fl : list (string * string)) (l e : list value) (req : request)
    (now : PyDate.datetime) :
  readable d l e ->
  period_of req = "monthly" ->
  parse_year_month (selected_month_of req now) = None ->
  let label := (PyStr.str_of_int (PyDate.dt_year now) ++ "-"
                ++ PyStr.format_0d 2 (PyDate.dt_month now)
                ++ " (Monthly)")%string in
  exists invs exps,
    reports float_of_str format_2f req now (mkstate (VDict d) f fl)
    = (Ok (Render "reports.html"
             [("store", settings_shown d);
              ("report", VDict (report_of label invs exps));
              ("period", VStr "monthly");
              ("selected_date", VStr (selected_date_of req now));
              ("selected_month", VStr (selected_month_of req now))]),
       mkstate (VDict d) f fl).
Proof.
  intros Hr Hp Hparse label.
  pose proof (reports_monthly d f fl l e req now Hr Hp) as H. cbn zeta in H.
  unfold report_month in H. rewrite Hparse in H. cbn [fst snd] in H. eauto.
Qed.

(** C1 (the code at the failing input). A monthly report asked for the
    month text [garbage] on the empty document: the text does not parse,
    the report is the one of the current year and month, and the
    [selected_month] given to the template is still [garbage]. *)
Theorem reports_monthly_echoes_unparsed_month :
  forall (now : PyDate.datetime) (f : file) (fl : list (string * string)),
    let req := mkrequest "GET" [] [("period", "monthly"); ("month", "garbage")] in
    let label := (PyStr.str_of_int (PyDate.dt_year now) ++ "-"
                  ++ PyStr.format_0d 2 (PyDate.dt_month now)
                  ++ " (Monthly)")%string in
    parse_year_month "garbage" = None
    /\ reports float_of_str format_2f req now (mkstate empty_document f fl)
       = (Ok (Render "reports.html"
                [("store", default_settings);
                 ("report", VDict (report_of label [] []));
                 ("period", VStr "monthly");
                 ("selected_date",
                  VStr (PyDate.strftime_date (PyDate.date_of now)));
                 ("selected_month", VStr "garbage")]),
          mkstate empty_document f fl).
Proof.
  intros now f fl req label. split; reflexivity.
Qed.

End AppProperties.

(** ** Properties of the other pages *)

Section PagesProperties.

Variable float_of_str : string -> option float.
Variable format_2f : float -> string.
Variable json_dumps : value -> string.
Variable sort_other : list (value * value) -> result (list value).
Variable str_other : value -> string.

(** The definitions of the sections above at the parameters of this
    one. *)
Local Abbreviation amount_of := (amount_of float_of_str).
Local Abbreviation amount := (amount float_of_str).
Local Abbreviation amount_readable := (amount_readable float_of_str).
Local Abbreviation readable := (readable float_of_str).
Local Abbreviation report_of := (report_of float_of_str format_2f).
Local Abbreviation created_invoice := (created_invoice float_of_str).
Local Abbreviation recorded_expense := (recorded_expense float_of_str).
Local Abbreviation new_invoice := (new_invoice float_of_str json_dumps).
Local Abbreviation reports := (reports float_of_str format_2f).
Local Abbreviation expenses := (expenses float_of_str json_dumps sort_other).
Local Abbreviation settings := (settings json_dumps).
Local Abbreviation invoice_list := (invoice_list sort_other).
Local Abbreviation download_invoice := (download_invoice str_other).
Local Abbreviation export_report :=
  (export_report float_of_str format_2f str_other).
Local Abbreviation csv_row := (csv_row str_other).
Local Abbreviation invoice_line :=
  (invoice_line float_of_str format_2f str_other).
Local Abbreviation expense_line :=
  (expense_line float_of_str format_2f str_other).
Local Abbreviation invoice_rows :=
  (invoice_rows float_of_str format_2f str_other).
Local Abbreviation expense_rows :=
  (expense_rows float_of_str format_2f str_other).
Local Abbreviation report_csv := (report_csv float_of_str format_2f str_other).
Local Abbreviation invoice_ok := (invoice_ok float_of_str).
Local Abbreviation expense_ok := (expense_ok float_of_str).
Local Abbreviation well_formed := (well_formed float_of_str).
Local Abbreviation sound := (sound float_of_str).
Local Abbreviation servable := (servable float_of_str).
Local Abbreviation ready := (ready float_of_str).
Local Abbreviation never_fails := (never_fails float_of_str).
Local Abbreviation writes_through :=
  (writes_through float_of_str json_dumps).
Local Abbreviation change := (change float_of_str).
Local Abbreviation steps := (steps float_of_str json_dumps).
Local Abbreviation keeps_numbers_distinct :=
  (keeps_numbers_distinct float_of_str).
Local Abbreviation keeps := (keeps float_of_str).

(** *** The settings form *)

(** X4. Saving the settings form stores the five trimmed fields in place
    of whatever record was there, leaves the other keys of the document
    alone and writes the file; from then on [get_store_settings] and the
    settings page give back that record, never the default, also when
    every field was left blank. *)
Theorem settings_saved_then_shown :
  forall (d : dict) (f : file) (fl : list (string * string)) (req : request),
    method req = "POST" ->
    let data := submitted_settings (form req) in
    let d' := Py.store d "store_settings" data in
    let st' := mkstate (VDict d') (Content (json_dumps (VDict d')))
                       (fl ++ [("Store settings saved.", "success")]) in
    settings req (mkstate (VDict d) f fl) = (Ok (Redirect "settings" []), st')
    /\ get_store_settings st' = (Ok data, st')
    /\ (forall get, method get <> "POST" ->
                    settings get st'
                    = (Ok (Render "settings.html" [("store", data)]), st'))
    /\ (forall k, k <> "store_settings" -> Py.lookup d' k = Py.lookup d k).
Proof.
  intros d f fl req Hpost data d' st'.
  assert (Hget : get_store_settings st' = (Ok data, st')).
  { unfold st'. rewrite get_store_settings_at.
    unfold settings_shown, stored_settings, d'.
    now rewrite lookup_store_eq. }
  split; [|split; [exact Hget|split]].
  - unfold settings. rewrite Hpost. reflexivity.
  - intros get Hne. unfold settings.
    apply String.eqb_neq in Hne. rewrite Hne.
    unfold bindM. rewrite Hget. reflexivity.
  - intros k Hk. unfold d'. apply lookup_store_ne. congruence.
Qed.

(** *** Expenses *)

Lemma sum_floats_snoc (xs : list float) (x : float) :
  sum_floats (xs ++ [x]) = (sum_floats xs + x)%float.
Proof. unfold sum_floats. now rewrite fold_left_app. Qed.

Lemma expenses_post (d : dict) (f : file) (fl : list (string * string))
    (e : list value) (req : request) (now : PyDate.datetime) :
  method req = "POST" ->
  expenses_of d = VList e ->
  let exp := recorded_expense (form req) now
               (Py.str (Z.of_nat (length e) + 1)) in
  let d' := Py.store d "expenses" (VList (e ++ [exp])) in
  expenses req now (mkstate (VDict d) f fl)
  = (Ok (Redirect "expenses" []),
     mkstate (VDict d') (Content (json_dumps (VDict d')))
             (fl ++ [("Expense recorded.", "success")])).
Proof.
  intros Hpost He exp d'. unfold expenses. unfold bindM at 1.
  rewrite get_store_settings_at. rewrite Hpost, String.eqb_refl.
  unfold bindM at 1, liftR at 1. rewrite float_or_zero_form.
  unfold bindM at 1, data_setdefault at 1. cbn [_data].
  unfold expenses_of in He.
  destruct (Py.lookup d "expenses") as [v|] eqn:E.
  - subst v. unfold bindM, liftR, expenses_append, data_set, _save_data,
      flash, ret. simpl. reflexivity.
  - injection He as <-.
    unfold bindM, liftR, expenses_append, data_set, _save_data, flash, ret.
    simpl. rewrite store_store. reflexivity.
Qed.

(** X5. Posting an expense appends one record to the stored expenses,
    with the id "number of stored expenses plus one", the submitted date
    or today's when none was given, the trimmed description and category
    and the amount read as a float, [0.0] when it is missing or no
    number; invoices, counter and settings stay as they were, and the
    document is written to the file. *)
Theorem expense_recorded :
  forall (d : dict) (f : file) (fl : list (string * string))
         (e : list value) (req : request) (now : PyDate.datetime),
    method req = "POST" ->
    expenses_of d = VList e ->
    let exp := recorded_expense (form req) now
                 (Py.str (Z.of_nat (length e) + 1)) in
    let d' := Py.store d "expenses" (VList (e ++ [exp])) in
    expenses req now (mkstate (VDict d) f fl)
    = (Ok (Redirect "expenses" []),
       mkstate (VDict d') (Content (json_dumps (VDict d')))
               (fl ++ [("Expense recorded.", "success")]))
    /\ expenses_of d' = VList (e ++ [exp])
    /\ (forall k, k <> "expenses" -> Py.lookup d' k = Py.lookup d k)
    /\ (Py.truthy (Form.get (form req) "date") = false ->
        field exp "date" = VStr (PyDate.strftime_date (PyDate.date_of now)))
    /\ (Form.get (form req) "amount" = VNone -> field exp "amount" = VFloat 0)
    /\ (forall s, Form.get (form req) "amount" = VStr s ->
                  float_of_str s = None -> field exp "amount" = VFloat 0).
Proof.
  intros d f fl e req now Hpost He exp d'.
  split; [now apply expenses_post|].
  split; [unfold expenses_of, d'; now rewrite lookup_store_eq|].
  split; [intros k Hk; unfold d'; apply lookup_store_ne; congruence|].
  split; [|split].
  - intros Hd. simpl. unfold Py.or_. now rewrite Hd.
  - intros Ha. simpl. unfold amount_of. now rewrite Ha.
  - intros s Ha Hs. simpl. unfold amount_of. rewrite Ha.
    unfold number_of. rewrite Hs. now destruct (String.eqb s "").
Qed.

Lemma amount_of_float (k : string) (x : dict) (a : float) :
  Py.lookup x k = Some (VFloat a) ->
  amount_readable k (VDict x) = true
  /\ amount k (VDict x) = if (a =? 0)%float then 0%float else a.
Proof.
  intros H. unfold amount_readable, amount, amount_opt, field.
  rewrite H. unfold Py.or_. simpl.
  destruct (a =? 0)%float; simpl; split; reflexivity.
Qed.

Lemma settings_shown_store (d : dict) (k : string) (v : value) :
  k <> "store_settings" ->
  settings_shown (Py.store d k v) = settings_shown d.
Proof.
  intros Hk. unfold settings_shown, stored_settings.
  now rewrite lookup_store_ne.
Qed.

Lemma recorded_expense_readable (form : multidict) (now : PyDate.datetime)
    (new_id : string) :
  amount_readable "amount" (recorded_expense form now new_id) = true.
Proof.
  unfold recorded_expense.
  eapply proj1, (amount_of_float "amount" _ (amount_of form "amount")).
  reflexivity.
Qed.

(** X6. An expense recorded on a readable document shows in the daily
    report of its date and in no other daily report: the report of the
    day whose text is the stored date lists the expenses it listed
    before and then the new one, counts one more and adds its amount to
    the total (a stored [0.0] or [-0.0] counts as [0.0]); a report of
    another date is what it was. An expense recorded without a date
    shows in the report that is asked for without a date on the same
    day. *)
Theorem recorded_expense_in_daily_report :
  forall (d : dict) (f : file) (fl : list (string * string))
         (l e : list value) (req rq : request) (now later : PyDate.datetime),
    readable d l e ->
    method req = "POST" ->
    period_of rq <> "monthly" ->
    let exp := recorded_expense (form req) now
                 (Py.str (Z.of_nat (length e) + 1)) in
    let st := mkstate (VDict d) f fl in
    let st' := snd (expenses req now st) in
    let shown := echoed_date (selected_date_of rq later) later in
    let day := report_day (selected_date_of rq later) later in
    let label := (shown ++ " (Daily)")%string in
    let invs := List.filter (fun inv => on_day day (effective_date inv)) l in
    let before :=
      List.filter (fun x => Py.eq_str (field x "date") shown) e in
    let page exps :=
      Render "reports.html"
        [("store", settings_shown d);
         ("report", VDict (report_of label invs exps));
         ("period", VStr (period_of rq)); ("selected_date", VStr shown);
         ("selected_month", VStr (selected_month_of rq later))] in
    reports rq later st = (Ok (page before), st)
    /\ (field exp "date" = VStr shown ->
        reports rq later st' = (Ok (page (before ++ [exp])%list), st')
        /\ field (VDict (report_of label invs (before ++ [exp])%list))
                 "expense_count"
           = VInt (Z.of_nat (length before) + 1)
        /\ field (VDict (report_of label invs (before ++ [exp])%list))
                 "expenses_total"
           = VFloat (sum_floats (map (amount "amount") before)
                     + (if (amount_of (form req) "amount" =? 0)%float
                        then 0 else amount_of (form req) "amount"))%float)
    /\ (field exp "date" <> VStr shown ->
        reports rq later st' = (Ok (page before), st'))
    /\ (Py.truthy (Form.get (form req) "date") = false ->
        Py.truthy (Form.get (args rq) "date") = false ->
        PyDate.date_of later = PyDate.date_of now ->
        field exp "date" = VStr shown).
Proof.
  intros d f fl l e req rq now later Hr Hpost Hp exp st st' shown day label
    invs before page.
  pose proof Hr as (Hl & He & Hdate & Htot & Hamt).
  set (d' := Py.store d "expenses" (VList (e ++ [exp]))).
  assert (Est : st' = mkstate (VDict d') (Content (json_dumps (VDict d')))
                        (fl ++ [("Expense recorded.", "success")])).
  { unfold st', st. now rewrite (expenses_post d f fl e req now Hpost He). }
  assert (Hr' : readable d' l (e ++ [exp])).
  { split; [|split; [|split; [|split]]].
    - unfold invoices_of, d'. rewrite lookup_store_ne by discriminate.
      exact Hl.
    - unfold expenses_of, d'. now rewrite lookup_store_eq.
    - exact Hdate.
    - exact Htot.
    - apply Forall_app. split; [exact Hamt|].
      constructor; [apply recorded_expense_readable|constructor]. }
  assert (Hafter :
            reports rq later st'
            = (Ok (page (before
                         ++ (if Py.eq_str (field exp "date") shown
                             then [exp] else []))%list), st')).
  { rewrite Est.
    rewrite (reports_daily float_of_str format_2f d' _ _ l (e ++ [exp])
               rq later Hr' Hp).
    unfold d' at 1. rewrite settings_shown_store by discriminate.
    rewrite List.filter_app. reflexivity. }
  split; [exact (reports_daily float_of_str format_2f d f fl l e rq later
                   Hr Hp)|].
  split; [|split].
  - intros Hd. rewrite Hafter, Hd. simpl Py.eq_str. rewrite String.eqb_refl.
    split; [reflexivity|]. split.
    + simpl. rewrite length_app. simpl. f_equal. lia.
    + simpl. rewrite map_app. cbn [map]. rewrite sum_floats_snoc. do 2 f_equal.
      eapply proj2, (amount_of_float "amount" _ (amount_of (form req) "amount")).
      reflexivity.
  - intros Hd. rewrite Hafter.
    destruct (field exp "date") as [| | | |s| |] eqn:E; simpl;
      try now rewrite app_nil_r.
    destruct (String.eqb_spec s shown) as [->|_]; [contradiction|].
    now rewrite app_nil_r.
  - intros Hfd Hrd Hday. simpl. unfold Py.or_. rewrite Hfd.
    unfold shown, selected_date_of, arg_or, Py.or_. rewrite Hrd.
    unfold echoed_date. rewrite Hday.
    now destruct (PyDate.strptime _).
Qed.

(** *** The order of the lists *)

Lemma ltb_irrefl (a : string) : String.ltb a a = false.
Proof.
  pose proof (proj2 (OrderedTypeEx.String_as_OT.cmp_eq a a) eq_refl) as H.
  unfold OrderedTypeEx.String_as_OT.cmp in H.
  unfold String.ltb. now rewrite H.
Qed.

Lemma ltb_asym (a b : string) : String.ltb a b = true -> String.ltb b a = false.
Proof.
  unfold String.ltb. rewrite (String.compare_antisym b a).
  now destruct (String.compare a b).
Qed.

Lemma ltb_trans (a b c : string) :
  String.ltb a b = true -> String.ltb b c = true -> String.ltb a c = true.
Proof.
  unfold String.ltb. intros Hab Hbc.
  assert (H1 : String.compare a b = Lt) by now destruct (String.compare a b).
  assert (H2 : String.compare b c = Lt) by now destruct (String.compare b c).
  apply OrderedTypeEx.String_as_OT.cmp_lt in H1, H2.
  pose proof (OrderedTypeEx.String_as_OT.lt_trans _ _ _ H1 H2) as H3.
  apply OrderedTypeEx.String_as_OT.cmp_lt in H3.
  unfold OrderedTypeEx.String_as_OT.cmp in H3. now rewrite H3.
Qed.

(** Not being below is transitive: the order of strings is total. *)
Lemma not_below_trans (a b c : string) :
  String.ltb a b = false -> String.ltb b c = false -> String.ltb a c = false.
Proof.
  intros Hab Hbc. destruct (String.ltb a c) eqn:Hac; [|reflexivity].
  destruct (String.compare a b) eqn:E1.
  - apply String.compare_eq_iff in E1. subst b. congruence.
  - unfold String.ltb in Hab. now rewrite E1 in Hab.
  - destruct (String.compare b c) eqn:E2.
    + apply String.compare_eq_iff in E2. subst c. congruence.
    + unfold String.ltb in Hbc. now rewrite E2 in Hbc.
    + assert (Hcb : String.ltb c b = true).
      { unfold String.ltb. rewrite String.compare_antisym, E2. reflexivity. }
      assert (Hba : String.ltb b a = true).
      { unfold String.ltb. rewrite String.compare_antisym, E1. reflexivity. }
      pose proof (ltb_trans _ _ _ Hcb Hba) as Hca.
      apply ltb_asym in Hca. congruence.
Qed.

Lemma insert_desc_perm (x : value * string) (l : list (value * string)) :
  Permutation (PyText.insert_desc x l) (x :: l).
Proof.
  induction l as [|y r IH]; simpl; [reflexivity|].
  destruct (String.ltb (snd x) (snd y)); [|reflexivity].
  rewrite IH. apply perm_swap.
Qed.

Lemma sort_desc_perm (l : list (value * string)) :
  Permutation (PyText.sort_desc l) l.
Proof.
  induction l as [|x l IH]; simpl; [reflexivity|].
  unfold PyText.sort_desc in *. simpl.
  rewrite insert_desc_perm. now apply perm_skip.
Qed.

Lemma insert_desc_sorted (x : value * string) (l : list (value * string)) :
  StronglySorted (fun a b => String.ltb (snd a) (snd b) = false) l ->
  StronglySorted (fun a b => String.ltb (snd a) (snd b) = false)
                 (PyText.insert_desc x l).
Proof.
  induction 1 as [|y r Hr IH Hy]; simpl.
  - constructor; constructor.
  - destruct (String.ltb (snd x) (snd y)) eqn:E.
    + constructor; [exact IH|].
      apply (Permutation_Forall (Permutation_sym (insert_desc_perm x r))).
      constructor; [now apply ltb_asym|exact Hy].
    + constructor; [now constructor|].
      constructor; [exact E|].
      eapply Forall_impl; [exact Hy|].
      intros z Hz. simpl in Hz. now apply (not_below_trans _ (snd y)).
Qed.

Lemma sort_desc_sorted (l : list (value * string)) :
  StronglySorted (fun a b => String.ltb (snd a) (snd b) = false)
                 (PyText.sort_desc l).
Proof.
  induction l as [|x l IH]; [constructor|].
  now apply insert_desc_sorted.
Qed.

Lemma insert_desc_stable (s : string) (x : value * string)
    (l : list (value * string)) :
  List.filter (fun p => String.eqb (snd p) s) (PyText.insert_desc x l)
  = List.filter (fun p => String.eqb (snd p) s) (x :: l).
Proof.
  induction l as [|y r IH]; [reflexivity|].
  cbn [PyText.insert_desc].
  destruct (String.ltb (snd x) (snd y)) eqn:E; [|reflexivity].
  cbn [List.filter] in *. rewrite IH.
  destruct (String.eqb_spec (snd x) s) as [Hx|Hx]; [|reflexivity].
  destruct (String.eqb_spec (snd y) s) as [Hy|Hy]; [|reflexivity].
  rewrite Hx, Hy, ltb_irrefl in E. discriminate E.
Qed.

Lemma sort_desc_stable (s : string) (l : list (value * string)) :
  List.filter (fun p => String.eqb (snd p) s) (PyText.sort_desc l)
  = List.filter (fun p => String.eqb (snd p) s) l.
Proof.
  induction l as [|x l IH]; [reflexivity|].
  change (PyText.sort_desc (x :: l))
    with (PyText.insert_desc x (PyText.sort_desc l)).
  rewrite insert_desc_stable. cbn [List.filter]. now rewrite IH.
Qed.

Lemma keys_of_text (k : string) (l : list value) :
  Forall (fun x => has_text_key k x = true) l ->
  PyText.keys_of k (VStr "") l
  = Ok (map (fun x => (x, VStr (key_text k x))) l).
Proof.
  induction 1 as [|x l Hx Hl IH]; [reflexivity|].
  cbn [PyText.keys_of map]. rewrite IH.
  unfold has_text_key, key_text, text_key in *.
  destruct x as [| | | | | |d]; try discriminate Hx. simpl.
  destruct (Py.lookup d k) as [[| | | |s| |]|]; try discriminate Hx;
    reflexivity.
Qed.

Lemma sorted_by_text (k : string) (l : list value) :
  Forall (fun x => has_text_key k x = true) l ->
  sorted_by sort_other k (VStr "") l
  = Ok (map fst (PyText.sort_desc (map (fun x => (x, key_text k x)) l))).
Proof.
  intros H. unfold sorted_by. rewrite (keys_of_text k l H). cbn [bindR].
  assert (Hall : forallb (fun kv : value * value => PyText.is_string (snd kv))
                         (map (fun x => (x, VStr (key_text k x))) l) = true).
  { clear. induction l as [|x l IH]; [reflexivity|]. exact IH. }
  assert (Hkeys : PyText.string_keys (map (fun x => (x, VStr (key_text k x))) l)
                  = map (fun x => (x, key_text k x)) l).
  { clear. induction l as [|x l IH]; [reflexivity|].
    simpl. now rewrite IH. }
  rewrite Hall, Hkeys.
  destruct l as [|x [|y l]]; reflexivity.
Qed.

Lemma sort_desc_descending (k : string) (l : list value) :
  sorted_descending k l
    (map fst (PyText.sort_desc (map (fun x => (x, key_text k x)) l))).
Proof.
  set (D := map (fun x => (x, key_text k x)) l).
  assert (HD : map fst D = l).
  { unfold D. rewrite map_map. simpl. apply map_id. }
  assert (Hinv : Forall (fun p : value * string => snd p = key_text k (fst p))
                        (PyText.sort_desc D)).
  { apply (Permutation_Forall (Permutation_sym (sort_desc_perm D))).
    unfold D. clear. induction l as [|x l IH]; constructor; auto. }
  assert (Hfilter : forall (s : string) (L : list (value * string)),
             Forall (fun p : value * string => snd p = key_text k (fst p)) L ->
             List.filter (fun x => String.eqb (key_text k x) s) (map fst L)
             = map fst (List.filter (fun p => String.eqb (snd p) s) L)).
  { intros s L HL. induction HL as [|p L Hp HL IH]; [reflexivity|].
    simpl. rewrite <- Hp, IH. now destruct (String.eqb (snd p) s). }
  split; [|split].
  - etransitivity; [apply Permutation_map, sort_desc_perm|now rewrite HD].
  - assert (Hmap : forall L : list (value * string),
               Forall (fun p : value * string => snd p = key_text k (fst p)) L ->
               StronglySorted
                 (fun a b => String.ltb (snd a) (snd b) = false) L ->
               StronglySorted
                 (fun a b => String.ltb (key_text k a) (key_text k b) = false)
                 (map fst L)).
    { intros L HL Hs. induction Hs as [|p L Hs IH Hp]; [constructor|].
      apply Forall_cons in HL as [Hp' HL'].
      simpl. constructor; [now apply IH|].
      clear IH Hs. induction Hp as [|q L Hq Hp IH]; [constructor|].
      apply Forall_cons in HL' as [Hq' HL''].
      constructor; [|now apply IH].
      now rewrite <- Hp', <- Hq'. }
    apply Hmap; [exact Hinv|apply sort_desc_sorted].
  - intros s. rewrite (Hfilter s _ Hinv), sort_desc_stable.
    rewrite <- (Hfilter s D); [now rewrite HD|].
    unfold D. clear. induction l as [|x l IH]; constructor; auto.
Qed.

(** *** The list of invoices *)

Lemma effective_date_str_text (inv : value) :
  date_readable inv = true ->
  exists v, effective_date_str inv = Ok v
            /\ forall sd, Py.eq_str v sd = date_matches sd inv.
Proof.
  destruct inv as [| | | | | |d]; try discriminate.
  unfold date_readable, effective_date_str, date_matches,
    effective_date_text, field. simpl.
  destruct (Py.lookup d "invoice_date") as [v|]; simpl.
  - destruct (Py.truthy v) eqn:T; simpl.
    + intros _. exists v. split; [reflexivity|].
      intros sd. now destruct v.
    + destruct (Py.lookup d "created_at") as [[| | | |s| |]|];
        try discriminate; intros _; simpl; eexists; split;
        try reflexivity; intros sd; reflexivity.
  - destruct (Py.lookup d "created_at") as [[| | | |s| |]|];
      try discriminate; intros _; simpl; eexists; split;
      try reflexivity; intros sd; reflexivity.
Qed.

Lemma filter_date_spec (sd : string) (l : list value) :
  Forall (fun inv => date_readable inv = true) l ->
  filter_date sd l = Ok (List.filter (date_matches sd) l).
Proof.
  induction 1 as [|inv l Hinv Hl IH]; [reflexivity|].
  cbn [filter_date List.filter].
  destruct (effective_date_str_text inv Hinv) as (v & -> & E).
  cbn [bindR]. rewrite IH. cbn [bindR]. now rewrite E.
Qed.

Lemma filter_customer_spec (c : string) (l : list value) :
  Forall (fun inv => listable inv = true) l ->
  filter_customer (PyText.lower c) l = Ok (List.filter (customer_matches c) l).
Proof.
  induction 1 as [|inv l Hinv Hl IH]; [reflexivity|].
  cbn [filter_customer List.filter]. rewrite IH.
  unfold listable in Hinv. apply andb_prop in Hinv. destruct Hinv as [Hinv _].
  apply andb_prop in Hinv. destruct Hinv as [Hk Hc].
  destruct inv as [| | | | | |d]; try discriminate Hk.
  unfold customer_matches. unfold customer_text in *. rewrite get_field.
  cbn [bindR].
  destruct (Py.or_ (field (VDict d) "customer_name") (VStr ""));
    try discriminate Hc.
  reflexivity.
Qed.

Lemma listable_readable (l : list value) :
  Forall (fun inv => listable inv = true) l ->
  Forall (fun inv => date_readable inv = true) l.
Proof.
  intros H. eapply Forall_impl; [exact H|].
  intros inv Hinv. unfold listable in Hinv. now apply andb_prop in Hinv.
Qed.

Lemma invoice_list_page :
  forall (d : dict) (f : file) (fl : list (string * string))
         (l : list value) (req : request),
    invoices_of d = VList l ->
    Forall (fun inv => listable inv = true) l ->
    let st := mkstate (VDict d) f fl in
    let customer := PyStr.strip (arg_or (args req) "customer" "") in
    let date := PyStr.strip (arg_or (args req) "date" "") in
    exists sorted : list value,
      sorted_descending "created_at" l sorted
      /\ invoice_list req st
         = (Ok (Render "invoice_list.html"
                  [("store", settings_shown d);
                   ("invoices",
                    VList (List.filter
                             (fun inv => String.eqb date ""
                                         || date_matches date inv)
                             (List.filter (customer_matches customer)
                                          sorted)));
                   ("search_customer", VStr customer);
                   ("search_date", VStr date)]), st).
Proof.
  intros d f fl l req Hl Hlist st customer date.
  set (sorted := map fst (PyText.sort_desc
                            (map (fun x => (x, key_text "created_at" x)) l))).
  pose proof (sort_desc_descending "created_at" l) as Hsorted.
  fold sorted in Hsorted.
  exists sorted. split; [exact Hsorted|].
  assert (Hls : Forall (fun inv => listable inv = true) sorted).
  { destruct Hsorted as [Hperm _].
    exact (Permutation_Forall (Permutation_sym Hperm) Hlist). }
  unfold invoice_list. unfold bindM at 1. unfold st.
  rewrite get_store_settings_at.
  unfold bindM at 1, data_get at 1. cbn [_data Py.get].
  fold (invoices_of d). rewrite Hl.
  unfold bindM at 1, liftR at 1. cbn [Py.iter].
  unfold bindM at 1, liftR at 1.
  rewrite sorted_by_text.
  2:{ eapply Forall_impl; [exact Hlist|]. intros inv Hinv.
      unfold listable in Hinv. apply andb_prop in Hinv.
      destruct Hinv as [Hinv _]. now apply andb_prop in Hinv. }
  fold sorted. fold customer date.
  assert (Hc : (if negb (String.eqb (PyText.lower customer) "")
                then liftR (filter_customer (PyText.lower customer) sorted)
                else ret sorted)
               = ret (List.filter (customer_matches customer) sorted)).
  { rewrite (filter_customer_spec customer sorted Hls).
    destruct (String.eqb_spec (PyText.lower customer) "") as [E|_];
      [|reflexivity].
    simpl. f_equal. clear - Hls E.
    induction Hls as [|inv r Hinv Hr IH]; [reflexivity|].
    simpl. rewrite <- IH.
    unfold listable in Hinv. apply andb_prop in Hinv. destruct Hinv as [Hinv _].
    apply andb_prop in Hinv. destruct Hinv as [_ Hinv].
    unfold customer_matches. rewrite E.
    destruct (customer_text inv) as [s|]; [|discriminate Hinv].
    now destruct (PyText.lower s). }
  unfold bindM at 1. rewrite Hc. unfold ret at 1.
  set (named := List.filter (customer_matches customer) sorted).
  assert (Hn : Forall (fun inv => date_readable inv = true) named).
  { apply Forall_filter_bool, listable_readable, Hls. }
  unfold bindM, ret.
  destruct (String.eqb_spec date "") as [E|_]; simpl.
  - assert (Hall : forall r : list value, List.filter (fun _ => true) r = r).
    { induction r as [|x r IH]; simpl; congruence. }
    now rewrite Hall.
  - unfold liftR. now rewrite (filter_date_spec date named Hn).
Qed.

(** X7. On a document whose invoices are listable, the list page shows
    the invoices with the latest [created_at] text first, those of one
    timestamp in the order they are stored; of these it keeps the ones
    whose customer name holds the trimmed search text without regard to
    case, and then the ones whose effective date is the trimmed date
    text; a blank search keeps all. The document is not changed. *)
Theorem invoice_list_newest_first :
  forall (d : dict) (f : file) (fl : list (string * string))
         (l : list value) (req : request),
    invoices_of d = VList l ->
    Forall (fun inv => listable inv = true) l ->
    let st := mkstate (VDict d) f fl in
    let customer := PyStr.strip (arg_or (args req) "customer" "") in
    let date := PyStr.strip (arg_or (args req) "date" "") in
    exists sorted : list value,
      sorted_descending "created_at" l sorted
      /\ invoice_list req st
         = (Ok (Render "invoice_list.html"
                  [("store", settings_shown d);
                   ("invoices",
                    VList (List.filter
                             (fun inv => String.eqb date ""
                                         || date_matches date inv)
                             (List.filter (customer_matches customer)
                                          sorted)));
                   ("search_customer", VStr customer);
                   ("search_date", VStr date)]), st).
Proof. exact invoice_list_page. Qed.

(** *** The expenses page *)

Lemma expenses_page :
  forall (d : dict) (f : file) (fl : list (string * string))
         (e : list value) (req : request) (now : PyDate.datetime),
    method req <> "POST" ->
    expenses_of d = VList e ->
    Forall (fun x => has_text_key "date" x = true) e ->
    let st := mkstate (VDict d) f fl in
    exists sorted : list value,
      sorted_descending "date" e sorted
      /\ expenses req now st
         = (Ok (Render "expenses.html"
                  [("store", settings_shown d); ("expenses", VList sorted);
                   ("today",
                    VStr (PyDate.strftime_date (PyDate.date_of now)))]), st).
Proof.
  intros d f fl e req now Hget He Hkeys st.
  eexists. split; [apply sort_desc_descending|].
  unfold expenses. unfold bindM at 1. unfold st.
  rewrite get_store_settings_at.
  apply String.eqb_neq in Hget. rewrite Hget.
  unfold bindM at 1, data_get at 1. cbn [_data Py.get].
  fold (expenses_of d). rewrite He.
  unfold bindM at 1, liftR at 1. cbn [Py.iter].
  unfold bindM at 1, liftR at 1.
  rewrite (sorted_by_text "date" e Hkeys). reflexivity.
Qed.

(** X8. On a document whose expenses have a string for their date, or
    none, the expenses page lists them with the latest date text first,
    those of one date in the order they were recorded, and offers today's
    date; the document is not changed. *)
Theorem expenses_latest_first :
  forall (d : dict) (f : file) (fl : list (string * string))
         (e : list value) (req : request) (now : PyDate.datetime),
    method req <> "POST" ->
    expenses_of d = VList e ->
    Forall (fun x => has_text_key "date" x = true) e ->
    let st := mkstate (VDict d) f fl in
    exists sorted : list value,
      sorted_descending "date" e sorted
      /\ expenses req now st
         = (Ok (Render "expenses.html"
                  [("store", settings_shown d); ("expenses", VList sorted);
                   ("today",
                    VStr (PyDate.strftime_date (PyDate.date_of now)))]), st).
Proof. exact expenses_page. Qed.

(** *** The pages that only read *)

Lemma leaves_document_same {A : Type} (m : M A) :
  (forall st, _data (snd (m st)) = _data st
              /\ DATA_FILE (snd (m st)) = DATA_FILE st) ->
  leaves_document m.
Proof. intros H st. apply H. Qed.

Lemma leaves_document_ret {A : Type} (a : A) : leaves_document (ret a).
Proof. intros st. now split. Qed.

Lemma leaves_document_liftR {A : Type} (r : result A) :
  leaves_document (liftR r).
Proof. intros st. now split. Qed.

Lemma leaves_document_data_get (k : string) (v : value) :
  leaves_document (data_get k v).
Proof. intros st. now split. Qed.

Lemma leaves_document_flash (message category : string) :
  leaves_document (flash message category).
Proof. intros st. now split. Qed.

Lemma leaves_document_bind {A B : Type} (m : M A) (k : A -> M B) :
  leaves_document m -> (forall a, leaves_document (k a)) ->
  leaves_document (bindM m k).
Proof.
  intros Hm Hk st. unfold bindM.
  destruct (Hm st) as [Hd Hf].
  destruct (m st) as [[a|e] st1]; simpl in *.
  - destruct (Hk a st1) as [Hd' Hf']. split; congruence.
  - now split.
Qed.

Ltac reading_steps :=
  repeat first
    [ apply leaves_document_bind; [|intros ?]
    | apply leaves_document_ret
    | apply leaves_document_liftR
    | apply leaves_document_data_get
    | apply leaves_document_flash
    | match goal with
      | |- leaves_document (if ?c then _ else _) => destruct c
      | |- leaves_document (match ?x with _ => _ end) => destruct x
      end ].

Lemma pages_leave_document :
  (forall req, leaves_document (invoice_list req))
  /\ (forall invoice_id, leaves_document (invoice_view invoice_id))
  /\ (forall invoice_id, leaves_document (download_invoice invoice_id))
  /\ (forall req now, leaves_document (reports req now))
  /\ (forall req now, leaves_document (export_report req now))
  /\ (forall req now,
         method req <> "POST" -> leaves_document (new_invoice req now))
  /\ (forall req now,
         method req <> "POST" -> leaves_document (expenses req now))
  /\ (forall req, method req <> "POST" -> leaves_document (settings req)).
Proof.
  repeat split; intros;
    repeat match goal with
           | H : method _ <> "POST" |- _ => apply String.eqb_neq in H
           end.
  all: unfold invoice_list, invoice_view, download_invoice, reports,
         export_report, new_invoice, expenses, settings, get_store_settings.
  all: try match goal with H : String.eqb _ _ = false |- _ => rewrite H end.
  all: reading_steps.
Qed.

(** X9. The pages that show something never write: the list of invoices,
    the view and the download of an invoice, the report and its export,
    and the forms of a new invoice, of the expenses and of the settings
    when they are not posted leave the document in memory and the file as
    they are, on every document and also when they end in an exception.
    (Flashing a message is all they may do.) *)
Theorem pages_never_write :
  (forall req, leaves_document (invoice_list req))
  /\ (forall invoice_id, leaves_document (invoice_view invoice_id))
  /\ (forall invoice_id, leaves_document (download_invoice invoice_id))
  /\ (forall req now, leaves_document (reports req now))
  /\ (forall req now, leaves_document (export_report req now))
  /\ (forall req now,
         method req <> "POST" -> leaves_document (new_invoice req now))
  /\ (forall req now,
         method req <> "POST" -> leaves_document (expenses req now))
  /\ (forall req, method req <> "POST" -> leaves_document (settings req)).
Proof. exact pages_leave_document. Qed.

(** *** The report and its export *)

Lemma has_newline_app (a b : string) :
  has_newline (a ++ b) = has_newline a || has_newline b.
Proof.
  induction a as [|c a IH]; [reflexivity|].
  cbn [append has_newline]. rewrite IH. now rewrite !orb_assoc.
Qed.

Lemma filter_period_readable (l e : list value) (req : request)
    (now : PyDate.datetime) :
  Forall (fun inv => date_readable inv = true) l ->
  Forall (fun exp => is_dict exp = true) e ->
  filter_period (VList l) (VList e) (period_of req) (selected_date_of req now)
                (selected_month_of req now) now
  = Ok (period_filter l e req now).
Proof.
  intros Hdate Hdict. unfold filter_period, period_filter.
  destruct (String.eqb (period_of req) "monthly").
  - fold (report_month (selected_month_of req now) now).
    cbn [Py.iter bindR].
    rewrite (filter_invoices_spec _ l [] Hdate). cbn [bindR app].
    rewrite (filter_expenses_month_spec _ _ e [] Hdict).
    reflexivity.
  - assert (E : match PyDate.strptime (selected_date_of req now) with
                | Some d0 => (d0, selected_date_of req now)
                | None => (PyDate.date_of now,
                           PyDate.strftime_date (PyDate.date_of now))
                end = (report_day (selected_date_of req now) now,
                       echoed_date (selected_date_of req now) now)).
    { unfold report_day, echoed_date.
      now destruct (PyDate.strptime (selected_date_of req now)). }
    rewrite E. cbn [fst snd Py.iter bindR].
    rewrite (filter_invoices_spec _ l [] Hdate). cbn [bindR app].
    rewrite (filter_expenses_day_spec _ e Hdict).
    reflexivity.
Qed.

Lemma period_filter_sublists (P Q : value -> Prop) (l e : list value)
    (req : request) (now : PyDate.datetime) :
  Forall P l -> Forall Q e ->
  Forall P (fst (fst (fst (period_filter l e req now))))
  /\ Forall Q (snd (fst (fst (period_filter l e req now)))).
Proof.
  intros Hl He. unfold period_filter.
  destruct (String.eqb (period_of req) "monthly"); simpl;
    split; now apply Forall_filter_bool.
Qed.

Lemma date_cell_column (inv : value) :
  date_readable inv = true -> date_cell inv = Ok (date_column inv).
Proof.
  destruct inv as [| | | | | |d]; try discriminate.
  unfold date_readable, date_cell, date_column, effective_date_text, field.
  simpl.
  destruct (Py.lookup d "invoice_date") as [v|]; simpl.
  - destruct (Py.truthy v) eqn:T; simpl.
    + intros _. now destruct v.
    + destruct (Py.lookup d "created_at") as [[| | | |s| |]|];
        try discriminate; intros _; simpl; try reflexivity.
      destruct (String.eqb s "") eqn:E; simpl; [|reflexivity].
      apply String.eqb_eq in E. now subst s.
  - destruct (Py.lookup d "created_at") as [[| | | |s| |]|];
      try discriminate; intros _; simpl; try reflexivity.
    destruct (String.eqb s "") eqn:E; simpl; [|reflexivity].
    apply String.eqb_eq in E. now subst s.
Qed.

(** A missing cell and an empty one are written alike. *)
Lemma csv_row_default (x : dict) (k : string) (rest : list value) :
  csv_row ((match Py.lookup x k with Some v => v | None => VStr "" end) :: rest)
  = csv_row (field (VDict x) k :: rest).
Proof.
  unfold field. destruct (Py.lookup x k); [reflexivity|].
  unfold csv_row. destruct rest; reflexivity.
Qed.

Lemma amount_of_readable (k : string) (x : value) :
  amount_readable k x = true ->
  float_ float_of_str (Py.or_ (field x k) (VInt 0)) = Ok (amount k x).
Proof.
  unfold amount_readable, amount, amount_opt. intros H.
  apply andb_prop in H. destruct H as [_ H].
  now destruct (float_ float_of_str (Py.or_ (field x k) (VInt 0))).
Qed.

Lemma invoice_rows_spec (l : list value) :
  Forall (fun inv => date_readable inv = true) l ->
  Forall (fun inv => amount_readable "total" inv = true) l ->
  invoice_rows l
  = Ok (fold_right (fun inv rest => (invoice_line inv ++ rest)%string)
                   EmptyString l).
Proof.
  induction 1 as [|inv l Hinv Hl IH]; intros Ht; [reflexivity|].
  apply Forall_cons in Ht as [Hti Ht].
  cbn [invoice_rows fold_right]. rewrite (IH Ht).
  rewrite (date_cell_column inv Hinv).
  destruct inv as [| | | | | |x]; try discriminate Hinv.
  rewrite !get_field. cbn [Py.get bindR].
  rewrite (amount_of_readable "total" (VDict x) Hti). cbn [bindR].
  unfold invoice_line. now rewrite csv_row_default.
Qed.

Lemma expense_rows_spec (l : list value) :
  Forall (fun exp => amount_readable "amount" exp = true) l ->
  expense_rows l
  = Ok (fold_right (fun exp rest => (expense_line exp ++ rest)%string)
                   EmptyString l).
Proof.
  induction 1 as [|exp l Hexp Hl IH]; [reflexivity|].
  cbn [expense_rows fold_right]. rewrite IH.
  pose proof Hexp as Hd. unfold amount_readable in Hd.
  apply andb_prop in Hd. destruct Hd as [Hd _].
  destruct exp as [| | | | | |x]; try discriminate Hd.
  rewrite !get_field. cbn [Py.get bindR].
  rewrite (amount_of_readable "amount" (VDict x) Hexp). cbn [bindR].
  unfold expense_line. rewrite csv_row_default.
  f_equal. f_equal.
  unfold csv_row, field; cbn [map].
  now destruct (Py.lookup x "description").
Qed.

Lemma report_and_export :
  forall (d : dict) (f : file) (fl : list (string * string))
         (l e : list value) (req : request) (now : PyDate.datetime),
    readable d l e ->
    let st := mkstate (VDict d) f fl in
    let chosen := period_filter l e req now in
    let invs := fst (fst (fst chosen)) in
    let exps := snd (fst (fst chosen)) in
    let label := snd (fst chosen) in
    let shown := snd chosen in
    let report := VDict (report_of label invs exps) in
    let named :=
      if String.eqb (period_of req) "monthly" then selected_month_of req now
      else shown in
    let name := ("report-" ++ period_of req ++ "-" ++ named ++ ".csv")%string in
    reports req now st
    = (Ok (Render "reports.html"
             [("store", settings_shown d); ("report", report);
              ("period", VStr (period_of req)); ("selected_date", VStr shown);
              ("selected_month", VStr (selected_month_of req now))]), st)
    /\ export_report req now st
       = if has_newline name then (Raise ValueError, st)
         else (Ok (MadeText (report_csv report)
                     [("Content-Type", "text/csv; charset=utf-8");
                      ("Content-Disposition",
                       ("attachment; filename=" ++ name)%string)]), st).
Proof.
  intros d f fl l e req now (Hl & He & Hdate & Htot & Hamt) st chosen invs exps
    label shown report named name.
  pose proof (filter_period_readable l e req now Hdate
                (amount_readable_dict float_of_str "amount" e Hamt))
    as Hfilter.
  fold chosen in Hfilter.
  destruct (period_filter_sublists _ _ l e req now Htot Hamt) as [Hti Hae].
  destruct (period_filter_sublists _ (fun _ => True) l e req now Hdate
              (Forall_true _ e (fun _ => I))) as [Hdi _].
  fold chosen in Hti, Hae, Hdi. fold invs in Hti, Hdi. fold exps in Hae.
  assert (Echosen : chosen = (invs, exps, label, shown)).
  { unfold invs, exps, label, shown. now destruct chosen as [[[? ?] ?] ?]. }
  split.
  - unfold reports. unfold bindM at 1. unfold st.
    rewrite get_store_settings_at.
    unfold bindM at 1, data_get at 1. cbn [_data Py.get].
    fold (invoices_of d). rewrite Hl.
    unfold bindM at 1, data_get at 1. cbn [_data Py.get].
    fold (expenses_of d). rewrite He.
    fold (period_of req) (selected_date_of req now)
      (selected_month_of req now).
    unfold bindM at 1, liftR at 1. rewrite Hfilter, Echosen.
    unfold bindM at 1, liftR at 1.
    rewrite (sum_field_spec float_of_str "total" invs 0%float Hti).
    unfold bindM at 1, liftR at 1.
    rewrite (sum_field_spec float_of_str "amount" exps 0%float Hae).
    reflexivity.
  - unfold export_report. unfold st.
    unfold bindM at 1, data_get at 1. cbn [_data Py.get].
    fold (invoices_of d). rewrite Hl.
    unfold bindM at 1, data_get at 1. cbn [_data Py.get].
    fold (expenses_of d). rewrite He.
    fold (period_of req) (selected_date_of req now)
      (selected_month_of req now).
    unfold bindM at 1, liftR at 1. rewrite Hfilter, Echosen.
    unfold bindM at 1, liftR at 1.
    rewrite (sum_field_spec float_of_str "total" invs 0%float Hti).
    unfold bindM at 1, liftR at 1.
    rewrite (sum_field_spec float_of_str "amount" exps 0%float Hae).
    unfold bindM at 1, liftR at 1.
    rewrite (invoice_rows_spec invs Hdi Hti).
    unfold bindM at 1, liftR at 1.
    rewrite (expense_rows_spec exps Hae).
    unfold bindM, liftR, ret, set_header.
    change (has_newline "text/csv; charset=utf-8") with false. cbv iota.
    rewrite has_newline_app.
    change (has_newline "attachment; filename=") with false. cbn [orb].
    fold named. fold name.
    destruct (has_newline name); [reflexivity|].
    cbn [app]. f_equal. f_equal. f_equal.
    unfold report_csv, money_of, records_of.
    change (field report "label") with (VStr label).
    change (field report "sales_total")
      with (VFloat (sum_floats (map (amount "total") invs))).
    change (field report "expenses_total")
      with (VFloat (sum_floats (map (amount "amount") exps))).
    change (field report "net_total")
      with (VFloat (sum_floats (map (amount "total") invs)
                    - sum_floats (map (amount "amount") exps))%float).
    change (field report "invoices") with (VList invs).
    change (field report "expenses") with (VList exps).
    cbv iota. unfold sum_floats.
    now rewrite !PyStrFacts.append_assoc.
Qed.

(** X10. On a readable document the export is the report of the reports
    page for the same request, written as CSV: the same label, the three
    totals with two decimals, one line for each invoice and each expense
    of the report, in its order, the date of an invoice being its
    effective date. The file name carries the period and, for a day, the
    date that was used (today's when the date asked for does not parse),
    but for a month the text of the request as it came; when the name
    holds a carriage return or a line feed the header is refused and the
    export raises [ValueError] in place of the file. Neither changes the
    state. *)
Theorem export_agrees_with_report :
  forall (d : dict) (f : file) (fl : list (string * string))
         (l e : list value) (req : request) (now : PyDate.datetime),
    readable d l e ->
    let st := mkstate (VDict d) f fl in
    let chosen := period_filter l e req now in
    let invs := fst (fst (fst chosen)) in
    let exps := snd (fst (fst chosen)) in
    let label := snd (fst chosen) in
    let shown := snd chosen in
    let report := VDict (report_of label invs exps) in
    let named :=
      if String.eqb (period_of req) "monthly" then selected_month_of req now
      else shown in
    let name := ("report-" ++ period_of req ++ "-" ++ named ++ ".csv")%string in
    reports req now st
    = (Ok (Render "reports.html"
             [("store", settings_shown d); ("report", report);
              ("period", VStr (period_of req)); ("selected_date", VStr shown);
              ("selected_month", VStr (selected_month_of req now))]), st)
    /\ export_report req now st
       = if has_newline name then (Raise ValueError, st)
         else (Ok (MadeText (report_csv report)
                     [("Content-Type", "text/csv; charset=utf-8");
                      ("Content-Disposition",
                       ("attachment; filename=" ++ name)%string)]), st).
Proof. exact report_and_export. Qed.

(** *** One invoice *)

Lemma find_by_id_has_id (invoice_id : string) (l : list value) :
  forall (k i : nat) (inv : value),
    find_by_id l invoice_id k = Ok (Some (i, inv)) ->
    has_id invoice_id inv = true.
Proof.
  induction l as [|x r IH]; intros k i inv H; [discriminate H|].
  cbn [find_by_id] in H.
  destruct x as [| | | | | |dx]; try discriminate H.
  cbn [Py.get bindR] in H.
  destruct (Py.eq_str (match Py.lookup dx "id" with
                       | Some v => v
                       | None => VNone
                       end) invoice_id) eqn:E.
  - injection H as _ <-. simpl.
    destruct (Py.lookup dx "id"); [exact E|discriminate E].
  - exact (IH _ _ _ H).
Qed.

Lemma invoice_view_found (d : dict) (f : file) (fl : list (string * string))
    (l : list value) (i : nat) (inv : value) (invoice_id : string) :
  invoices_of d = VList l ->
  l !! i = Some inv ->
  has_id invoice_id inv = true ->
  (forall j inv', (j < i)%nat -> l !! j = Some inv' ->
                  other_record invoice_id inv' = true) ->
  invoice_view invoice_id (mkstate (VDict d) f fl)
  = (Ok (Render "invoice_view.html"
           [("store", settings_shown d); ("invoice", inv)]),
     mkstate (VDict d) f fl).
Proof.
  intros Hl Hi Hid Hbefore. unfold invoice_view. unfold bindM at 1.
  rewrite get_store_settings_at.
  unfold bindM, data_get, liftR. cbn [_data Py.get].
  fold (invoices_of d). rewrite Hl. cbn [Py.iter].
  rewrite (find_by_id_first invoice_id l i inv 0 Hi Hid Hbefore).
  now rewrite (has_id_truthy invoice_id inv Hid).
Qed.

Lemma invoice_view_missing (d : dict) (f : file) (fl : list (string * string))
    (l : list value) (invoice_id : string) :
  invoices_of d = VList l ->
  Forall (fun inv => other_record invoice_id inv = true) l ->
  invoice_view invoice_id (mkstate (VDict d) f fl)
  = (Ok (Redirect "invoice_list" []),
     mkstate (VDict d) f (fl ++ [("Invoice not found.", "error")])).
Proof.
  intros Hl Hnone. unfold invoice_view. unfold bindM at 1.
  rewrite get_store_settings_at.
  unfold bindM, data_get, liftR. cbn [_data Py.get].
  fold (invoices_of d). rewrite Hl. cbn [Py.iter].
  now rewrite (find_by_id_none invoice_id l 0 Hnone).
Qed.

(** X11. The download of an invoice is its view page as an attachment: on
    every state, where the view renders an invoice the download names the
    file [invoice-<n>.html], [n] being [str] of the stored
    [invoice_number] (also when that is [None]) and the id of the request
    when the invoice has no such key; when that name holds a carriage
    return or a line feed the header is refused and the download raises
    [ValueError], otherwise it wraps that very page, with the HTML content
    type and the name. Where the view redirects with "Invoice not found."
    the download does the same, and where the view raises so does the
    download. The state they leave is the same. *)
Theorem download_is_view :
  forall (invoice_id : string) (st : state),
    match invoice_view invoice_id st with
    | (Ok (Render template context), st') =>
        exists inv : dict,
          Py.lookup context "invoice" = Some (VDict inv)
          /\ has_id invoice_id (VDict inv) = true
          /\ let name :=
               ("invoice-"
                ++ str_ str_other
                     (match Py.lookup inv "invoice_number" with
                      | Some v => v
                      | None => VStr invoice_id
                      end)
                ++ ".html")%string in
             download_invoice invoice_id st
             = if has_newline name then (Raise ValueError, st')
               else (Ok (Made (Render template context)
                           [("Content-Type", "text/html; charset=utf-8");
                            ("Content-Disposition",
                             ("attachment; filename=" ++ name)%string)]),
                     st')
    | (Ok (Redirect endpoint a), st') =>
        download_invoice invoice_id st
        = (Ok (Plain (Redirect endpoint a)), st')
    | (Raise e, st') => download_invoice invoice_id st = (Raise e, st')
    end.
Proof.
  intros invoice_id st.
  unfold invoice_view, download_invoice, bindM, data_get, liftR.
  destruct (get_store_settings st) as [[store|e] st1]; [|reflexivity].
  destruct (Py.get (_data st1) "invoices" (VList [])) as [invoices|e];
    [|reflexivity].
  destruct (Py.iter invoices) as [elems|e]; [|reflexivity].
  destruct (find_by_id elems invoice_id 0) as [[[i inv]|]|e] eqn:F;
    [| reflexivity | reflexivity].
  pose proof (find_by_id_has_id _ _ _ _ _ F) as Hid.
  rewrite (has_id_truthy _ _ Hid). cbn [negb].
  destruct inv as [| | | | | |x]; try discriminate Hid.
  unfold ret. exists x. split; [reflexivity|]. split; [exact Hid|].
  cbv zeta. cbn [Py.get]. unfold set_header.
  change (has_newline "text/html; charset=utf-8") with false. cbv iota.
  rewrite has_newline_app.
  change (has_newline "attachment; filename=") with false. cbn [orb].
  now destruct (has_newline _).
Qed.

(** *** From the form to the view *)

Lemma str_injective (n m : Z) :
  0 <= n -> 0 <= m -> Py.str n = Py.str m -> n = m.
Proof.
  intros Hn Hm. unfold Py.str, PyStr.str_of_int.
  destruct (Z.ltb_spec n 0); [lia|]. destruct (Z.ltb_spec m 0); [lia|].
  intros E.
  destruct (PyStrFacts.digits_spec n Hn) as (_ & _ & <-).
  destruct (PyStrFacts.digits_spec m Hm) as (_ & _ & <-).
  now rewrite E.
Qed.

Lemma numbered_has_id (l : list value) (i : nat) (x : value) :
  numbered l -> l !! i = Some x ->
  has_id (Py.str (Z.of_nat i + 1)) x = true.
Proof.
  intros Hn Hi. specialize (Hn i x Hi).
  destruct x as [| | | | | |dx]; try discriminate Hn.
  unfold field in Hn. simpl.
  destruct (Py.lookup dx "id"); [|discriminate Hn].
  subst v. simpl. apply String.eqb_refl.
Qed.

Lemma numbered_other (l : list value) (i j : nat) (x : value) :
  numbered l -> l !! j = Some x -> i <> j ->
  other_record (Py.str (Z.of_nat i + 1)) x = true.
Proof.
  intros Hn Hj Hne. specialize (Hn j x Hj).
  destruct x as [| | | | | |dx]; try discriminate Hn.
  unfold field in Hn. simpl.
  destruct (Py.lookup dx "id"); [|discriminate Hn].
  subst v. simpl. apply negb_true_iff, String.eqb_neq.
  intros E. apply str_injective in E; lia.
Qed.

Lemma created_invoice_has_id (form : multidict) (now : PyDate.datetime)
    (invoice_number new_id : string) :
  has_id new_id (VDict (created_invoice form now invoice_number new_id)) = true
  /\ field (VDict (created_invoice form now invoice_number new_id)) "id"
     = VStr new_id.
Proof. simpl. now rewrite String.eqb_refl. Qed.

Lemma new_invoice_then_view :
  forall (d : dict) (f : file) (fl : list (string * string))
         (l : list value) (n : Z) (req : request) (now : PyDate.datetime),
    method req = "POST" ->
    counter_of d = VInt n ->
    invoices_of d = VList l ->
    let new_id := Py.str (Z.of_nat (length l) + 1) in
    let inv := VDict (created_invoice (form req) now
                        (invoice_number_text (PyDate.dt_year now) (n + 1))
                        new_id) in
    let made := new_invoice req now (mkstate (VDict d) f fl) in
    let page shown :=
      Render "invoice_view.html" [("store", settings_shown d);
                                  ("invoice", shown)] in
    fst made = Ok (Redirect "invoice_view" [("invoice_id", new_id)])
    /\ (exists d', _data (snd made) = VDict d'
                   /\ invoices_of d' = VList (l ++ [inv]))
    /\ (Forall (fun x => other_record new_id x = true) l ->
        invoice_view new_id (snd made) = (Ok (page inv), snd made))
    /\ (forall i old,
           l !! i = Some old ->
           has_id new_id old = true ->
           (forall j x, (j < i)%nat -> l !! j = Some x ->
                        other_record new_id x = true) ->
           invoice_view new_id (snd made) = (Ok (page old), snd made))
    /\ (numbered l ->
        Forall (fun x => other_record new_id x = true) l
        /\ numbered (l ++ [inv])).
Proof.
  intros d f fl l n req now Hpost Hc Hl new_id inv made page.
  set (d' := Py.store (Py.store d "invoice_counter" (VInt (n + 1)))
                      "invoices" (VList (l ++ [inv]))).
  assert (Emade : made
                  = (Ok (Redirect "invoice_view" [("invoice_id", new_id)]),
                     mkstate (VDict d') (Content (json_dumps (VDict d')))
                       (fl ++ [("Invoice created successfully.", "success")]))).
  { exact (new_invoice_post float_of_str json_dumps d f fl l n req now
             Hpost Hc Hl). }
  assert (Hl' : invoices_of d' = VList (l ++ [inv])).
  { unfold invoices_of, d'. now rewrite lookup_store_eq. }
  assert (Hs : settings_shown d' = settings_shown d).
  { unfold d'. now rewrite !settings_shown_store by discriminate. }
  destruct (created_invoice_has_id (form req) now
              (invoice_number_text (PyDate.dt_year now) (n + 1)) new_id)
    as [Hid Hfield].
  fold inv in Hid, Hfield.
  rewrite Emade. cbn [fst snd].
  split; [reflexivity|]. split; [exists d'; now split|].
  split; [|split].
  - intros Hfresh. unfold page. rewrite <- Hs.
    apply (invoice_view_found d' _ _ (l ++ [inv]) (length l) inv new_id Hl').
    + now rewrite list_lookup_middle.
    + exact Hid.
    + intros j x Hj Hx. rewrite lookup_app_l in Hx by exact Hj.
      rewrite Forall_lookup in Hfresh. exact (Hfresh j x Hx).
  - intros i old Hi Hold Hbefore. unfold page. rewrite <- Hs.
    pose proof (lookup_lt_Some _ _ _ Hi) as Hlt.
    apply (invoice_view_found d' _ _ (l ++ [inv]) i old new_id Hl').
    + now rewrite lookup_app_l.
    + exact Hold.
    + intros j x Hj Hx. rewrite lookup_app_l in Hx by lia.
      exact (Hbefore j x Hj Hx).
  - intros Hn. split.
    + apply Forall_lookup. intros j x Hx.
      pose proof (lookup_lt_Some _ _ _ Hx) as Hlt.
      apply (numbered_other l (length l) j x Hn Hx). lia.
    + intros i x Hx.
      destruct (Nat.lt_ge_cases i (length l)) as [Hlt|Hge].
      * rewrite lookup_app_l in Hx by exact Hlt. exact (Hn i x Hx).
      * rewrite lookup_app_r in Hx by exact Hge.
        destruct (i - length l)%nat as [|k] eqn:E; [|discriminate Hx].
        injection Hx as <-. rewrite Hfield. unfold new_id.
        do 3 f_equal. lia.
Qed.

(** X12. Creating an invoice redirects to the view of its id, the number
    of stored invoices plus one. The view shows the first stored invoice
    with that id: the created one when no earlier invoice has the id,
    and otherwise the earlier invoice, not the one just created. No
    earlier invoice has the id when the stored invoices are numbered
    from 1 in order, as they are until one is deleted, and the list with
    the new invoice is numbered so again. *)
Theorem created_invoice_view :
  forall (d : dict) (f : file) (fl : list (string * string))
         (l : list value) (n : Z) (req : request) (now : PyDate.datetime),
    method req = "POST" ->
    counter_of d = VInt n ->
    invoices_of d = VList l ->
    let new_id := Py.str (Z.of_nat (length l) + 1) in
    let inv := VDict (created_invoice (form req) now
                        (invoice_number_text (PyDate.dt_year now) (n + 1))
                        new_id) in
    let made := new_invoice req now (mkstate (VDict d) f fl) in
    let page shown :=
      Render "invoice_view.html" [("store", settings_shown d);
                                  ("invoice", shown)] in
    fst made = Ok (Redirect "invoice_view" [("invoice_id", new_id)])
    /\ (exists d', _data (snd made) = VDict d'
                   /\ invoices_of d' = VList (l ++ [inv]))
    /\ (Forall (fun x => other_record new_id x = true) l ->
        invoice_view new_id (snd made) = (Ok (page inv), snd made))
    /\ (forall i old,
           l !! i = Some old ->
           has_id new_id old = true ->
           (forall j x, (j < i)%nat -> l !! j = Some x ->
                        other_record new_id x = true) ->
           invoice_view new_id (snd made) = (Ok (page old), snd made))
    /\ (numbered l ->
        Forall (fun x => other_record new_id x = true) l
        /\ numbered (l ++ [inv])).
Proof. exact new_invoice_then_view. Qed.

Lemma delete_invoice_at (d : dict) (f : file) (fl : list (string * string))
    (l : list value) (i : nat) (inv : value) (invoice_id : string) :
  invoices_of d = VList l ->
  l !! i = Some inv ->
  has_id invoice_id inv = true ->
  (forall j inv', (j < i)%nat -> l !! j = Some inv' ->
                  other_record invoice_id inv' = true) ->
  delete_invoice json_dumps invoice_id (mkstate (VDict d) f fl)
  = (Ok (Redirect "invoice_list" []),
     let d' := VDict (Py.store d "invoices" (VList (delete i l))) in
     mkstate d' (Content (json_dumps d'))
             (fl ++ [("Invoice deleted successfully.", "success")])).
Proof.
  intros Hinv Hi Hid Hbefore.
  unfold delete_invoice, bindM, data_get, liftR. simpl.
  fold (invoices_of d). rewrite Hinv. simpl.
  rewrite (find_by_id_first invoice_id l i inv 0 Hi Hid Hbefore).
  reflexivity.
Qed.

(** X13. Ids are reused after a deletion. On invoices numbered from 1 in
    order, deleting any but the last one and then creating an invoice
    gives the new invoice the id of the last stored one, and the view
    the creation redirects to shows that older invoice: the new one is
    stored after it and is not the one found by its id. *)
Theorem id_reused_after_delete :
  forall (d : dict) (f : file) (fl : list (string * string))
         (l : list value) (n : Z) (req : request) (now : PyDate.datetime)
         (i : nat),
    method req = "POST" ->
    counter_of d = VInt n ->
    invoices_of d = VList l ->
    numbered l ->
    (i + 1 < length l)%nat ->
    let deleted :=
      delete_invoice json_dumps (Py.str (Z.of_nat i + 1))
                     (mkstate (VDict d) f fl) in
    let made := new_invoice req now (snd deleted) in
    let new_id := Py.str (Z.of_nat (length l)) in
    let inv := VDict (created_invoice (form req) now
                        (invoice_number_text (PyDate.dt_year now) (n + 1))
                        new_id) in
    exists last : value,
      l !! (length l - 1)%nat = Some last
      /\ field last "id" = VStr new_id
      /\ fst made = Ok (Redirect "invoice_view" [("invoice_id", new_id)])
      /\ (exists d', _data (snd made) = VDict d'
                     /\ invoices_of d' = VList (delete i l ++ [inv]))
      /\ invoice_view new_id (snd made)
         = (Ok (Render "invoice_view.html"
                  [("store", settings_shown d); ("invoice", last)]),
            snd made).
Proof.
  intros d f fl l n req now i Hpost Hc Hl Hn Hi deleted made new_id inv.
  destruct (l !! i) as [x|] eqn:Hx;
    [|apply lookup_ge_None in Hx; lia].
  destruct (l !! (length l - 1)%nat) as [last|] eqn:Hlast;
    [|apply lookup_ge_None in Hlast; lia].
  exists last.
  set (d1 := Py.store d "invoices" (VList (delete i l))).
  assert (Edel : deleted
                 = (Ok (Redirect "invoice_list" []),
                    mkstate (VDict d1) (Content (json_dumps (VDict d1)))
                      (fl ++ [("Invoice deleted successfully.", "success")]))).
  { apply (delete_invoice_at d f fl l i x _ Hl Hx).
    - exact (numbered_has_id l i x Hn Hx).
    - intros j y Hj Hy. apply (numbered_other l i j y Hn Hy). lia. }
  assert (Hlen : length (delete i l) = (length l - 1)%nat).
  { rewrite length_delete by eauto. lia. }
  assert (Hid : new_id = Py.str (Z.of_nat (length (delete i l)) + 1)).
  { unfold new_id. rewrite Hlen. f_equal. lia. }
  assert (Hc1 : counter_of d1 = VInt n).
  { unfold counter_of, d1. rewrite lookup_store_ne by discriminate.
    exact Hc. }
  assert (Hl1 : invoices_of d1 = VList (delete i l)).
  { unfold invoices_of, d1. now rewrite lookup_store_eq. }
  assert (Hlast_id : has_id new_id last = true
                     /\ field last "id" = VStr new_id).
  { replace new_id with (Py.str (Z.of_nat (length l - 1) + 1))
      by (unfold new_id; f_equal; lia).
    split; [exact (numbered_has_id l _ last Hn Hlast)|exact (Hn _ _ Hlast)]. }
  destruct Hlast_id as [Hlast_has Hlast_field].
  destruct (new_invoice_then_view d1 (Content (json_dumps (VDict d1)))
              (fl ++ [("Invoice deleted successfully.", "success")])
              (delete i l) n req now Hpost Hc1 Hl1)
    as (Hfst & Hstored & _ & Hold & _).
  rewrite <- Hid in Hfst, Hstored, Hold.
  unfold made. rewrite Edel. cbn [snd].
  split; [reflexivity|]. split; [exact Hlast_field|].
  split; [exact Hfst|]. split; [exact Hstored|].
  replace (settings_shown d) with (settings_shown d1)
    by (unfold d1; now rewrite settings_shown_store by discriminate).
  apply (Hold (length l - 2)%nat last).
  - rewrite list_lookup_delete_ge by lia.
    replace (S (length l - 2)) with (length l - 1)%nat by lia. exact Hlast.
  - exact Hlast_has.
  - intros j y Hj Hy.
    replace new_id with (Py.str (Z.of_nat (length l - 1) + 1))
      by (unfold new_id; f_equal; lia).
    destruct (Nat.lt_ge_cases j i) as [Hlt|Hge].
    + rewrite list_lookup_delete_lt in Hy by exact Hlt.
      apply (numbered_other l _ j y Hn Hy). lia.
    + rewrite list_lookup_delete_ge in Hy by exact Hge.
      apply (numbered_other l _ (S j) y Hn Hy). lia.
Qed.

(** *** Dates written and read back *)

Lemma is_digit_not_dash (c : ascii) :
  PyStr.is_digit c = true -> Ascii.eqb c "-" = false.
Proof.
  destruct c as [[] [] [] [] [] [] [] []]; try discriminate; reflexivity.
Qed.

Lemma split_digits (s : string) :
  PyStr.all_digits s = true -> PyStr.split "-" s = [s].
Proof.
  induction s as [|c s IH]; [reflexivity|].
  simpl. intros H. apply andb_prop in H. destruct H as [Hc Hs].
  now rewrite (is_digit_not_dash c Hc), (IH Hs).
Qed.

Lemma split_digits_dash (s t : string) :
  PyStr.all_digits s = true ->
  PyStr.split "-" (s ++ String "-" t) = s :: PyStr.split "-" t.
Proof.
  induction s as [|c s IH]; [reflexivity|].
  simpl. intros H. apply andb_prop in H. destruct H as [Hc Hs].
  now rewrite (is_digit_not_dash c Hc), (IH Hs).
Qed.

Lemma year_text (y : Z) :
  1000 <= y <= 9999 ->
  exists a b c d : ascii,
    PyStr.format_0d 4 y = String a (String b (String c (String d "")))
    /\ PyDate.parse_year a b c d = Some y.
Proof.
  intros Hy. unfold PyStr.format_0d, PyStr.zfill.
  destruct (Z.ltb_spec y 0); [lia|].
  rewrite (PyStrFacts.digits_four y Hy). cbn [Nat.sub PyStr.zeros append].
  destruct (PyStrFacts.digits_spec y) as (Hd & _ & Hev); [lia|].
  pose proof (PyStrFacts.digits_four y Hy) as Hlen.
  destruct (PyStr.digits y) as [|a [|b [|c [|d [|? ?]]]]];
    try discriminate Hlen.
  exists a, b, c, d. split; [reflexivity|].
  simpl in Hd. unfold PyDate.parse_year.
  repeat (apply andb_prop in Hd; destruct Hd as [? Hd]).
  repeat match goal with H : PyStr.is_digit _ = true |- _ => rewrite H; clear H
         end.
  simpl in Hev |- *. f_equal. lia.
Qed.

Lemma month_text (m : Z) :
  1 <= m <= 12 ->
  PyStr.all_digits (PyStr.format_0d 2 m) = true
  /\ PyDate.parse_month (PyStr.format_0d 2 m) = Some m.
Proof.
  intros Hm.
  assert (H : In m [1; 2; 3; 4; 5; 6; 7; 8; 9; 10; 11; 12]).
  { simpl. lia. }
  simpl in H. repeat (destruct H as [<-|H]; [split; reflexivity|]).
  contradiction.
Qed.

Lemma day_text (d : Z) :
  1 <= d <= 31 ->
  PyStr.all_digits (PyStr.format_0d 2 d) = true
  /\ PyDate.parse_day (PyStr.format_0d 2 d) = Some d.
Proof.
  intros Hd.
  assert (H : In d [1; 2; 3; 4; 5; 6; 7; 8; 9; 10; 11; 12; 13; 14; 15; 16;
                    17; 18; 19; 20; 21; 22; 23; 24; 25; 26; 27; 28; 29; 30;
                    31]).
  { simpl. lia. }
  simpl in H. repeat (destruct H as [<-|H]; [split; reflexivity|]).
  contradiction.
Qed.

Lemma int_year_text (y : Z) :
  1000 <= y <= 9999 -> PyStr.int_ (PyStr.format_0d 4 y) = Some y.
Proof.
  intros Hy.
  destruct (PyStrFacts.int_of_str_format_0d 4 y) as (Hd & _ & Hi); [lia|].
  destruct (year_text y Hy) as (a & b & c & d & E & _).
  unfold PyStr.int_. rewrite (PyStrFacts.count_digits_all _ Hd), Hi.
  now rewrite E.
Qed.

Lemma int_month_text (m : Z) :
  1 <= m <= 12 -> PyStr.int_ (PyStr.format_0d 2 m) = Some m.
Proof.
  intros Hm.
  assert (H : In m [1; 2; 3; 4; 5; 6; 7; 8; 9; 10; 11; 12]).
  { simpl. lia. }
  simpl in H. repeat (destruct H as [<-|H]; [reflexivity|]).
  contradiction.
Qed.

Lemma days_in_month_bound (y m : Z) : PyDate.days_in_month y m <= 31.
Proof.
  unfold PyDate.days_in_month.
  repeat match goal with |- context [if ?c then _ else _] => destruct c end;
    lia.
Qed.

Lemma strptime_strftime_date (y m d : Z) :
  PyDate.valid_date y m d = true ->
  1000 <= y ->
  PyDate.strptime (PyDate.strftime_date (PyDate.mkdate y m d))
  = Some (PyDate.mkdate y m d).
Proof.
  intros Hv Hy. pose proof Hv as Hv'. unfold PyDate.valid_date in Hv'.
  repeat (apply andb_prop in Hv'; destruct Hv' as [Hv' ?]).
  pose proof (days_in_month_bound y m).
  destruct (year_text y) as (a & b & c & d0 & Ey & Hpy); [lia|].
  destruct (month_text m) as [Hdm Hpm]; [lia|].
  destruct (day_text d) as [Hdd Hpd]; [lia|].
  unfold PyDate.strftime_date. cbn [PyDate.year PyDate.month PyDate.day].
  rewrite Ey. cbn [append]. unfold PyDate.strptime.
  rewrite Hpy.
  change ("-" ++ PyStr.format_0d 2 d)%string
    with (String "-" (PyStr.format_0d 2 d)).
  rewrite (split_digits_dash _ _ Hdm), (split_digits _ Hdd).
  now rewrite Hpm, Hpd, Hv.
Qed.

Lemma is_digit_not_blank (c : ascii) :
  PyStr.is_digit c = true -> Ascii.eqb c " " = false.
Proof.
  destruct c as [[] [] [] [] [] [] [] []]; try discriminate; reflexivity.
Qed.

Lemma hd_split_digits (s t : string) :
  PyStr.all_digits s = true ->
  hd EmptyString (PyStr.split " " (s ++ String " " t)) = s.
Proof.
  induction s as [|c s IH]; [reflexivity|].
  simpl. intros H. apply andb_prop in H. destruct H as [Hc Hs].
  rewrite (is_digit_not_blank c Hc). specialize (IH Hs).
  destruct (PyStr.split " " (s ++ String " " t)); simpl in *; congruence.
Qed.

Lemma hd_split_digits_dash (s t : string) :
  PyStr.all_digits s = true ->
  hd EmptyString (PyStr.split " " (s ++ String "-" t))
  = (s ++ String "-" (hd EmptyString (PyStr.split " " t)))%string.
Proof.
  induction s as [|c s IH]; simpl.
  - intros _. now destruct (PyStr.split " " t).
  - intros H. apply andb_prop in H. destruct H as [Hc Hs].
    rewrite (is_digit_not_blank c Hc). specialize (IH Hs).
    destruct (PyStr.split " " (s ++ String "-" t)); simpl in *; congruence.
Qed.

Lemma written_dates_read_back_lemma :
  forall now : PyDate.datetime,
    PyDate.valid_date (PyDate.dt_year now) (PyDate.dt_month now)
                      (PyDate.dt_day now) = true ->
    1000 <= PyDate.dt_year now ->
    let today := PyDate.strftime_date (PyDate.date_of now) in
    PyDate.strptime today = Some (PyDate.date_of now)
    /\ parse_year_month (PyDate.strftime_month now)
       = Some (PyDate.dt_year now, PyDate.dt_month now)
    /\ Py.split_first (VStr (PyDate.strftime_datetime now)) = Ok (VStr today)
    /\ (forall form number id,
           Py.truthy (Form.get form "invoice_date") = false ->
           effective_date_text (VDict (created_invoice form now number id))
           = Some today
           /\ effective_date (VDict (created_invoice form now number id))
              = Some (PyDate.date_of now)).
Proof.
  intros now Hv Hy today.
  assert (Hparse : PyDate.strptime today = Some (PyDate.date_of now)).
  { exact (strptime_strftime_date _ _ _ Hv Hy). }
  pose proof Hv as Hv'. unfold PyDate.valid_date in Hv'.
  repeat (apply andb_prop in Hv'; destruct Hv' as [Hv' ?]).
  destruct (PyStrFacts.int_of_str_format_0d 4 (PyDate.dt_year now))
    as (Hdy & _ & Hiy); [lia|].
  destruct (PyStrFacts.int_of_str_format_0d 2 (PyDate.dt_month now))
    as (Hdm & _ & Him); [lia|].
  destruct (PyStrFacts.int_of_str_format_0d 2 (PyDate.dt_day now))
    as (Hdd & _ & _); [lia|].
  split; [exact Hparse|]. split; [|split].
  - unfold parse_year_month, PyDate.strftime_month.
    change ("-" ++ PyStr.format_0d 2 (PyDate.dt_month now))%string
      with (String "-" (PyStr.format_0d 2 (PyDate.dt_month now))).
    rewrite (split_digits_dash _ _ Hdy), (split_digits _ Hdm).
    cbn [map].
    rewrite (int_year_text (PyDate.dt_year now)) by lia.
    now rewrite (int_month_text (PyDate.dt_month now)) by lia.
  - unfold Py.split_first, PyDate.strftime_datetime. do 2 f_equal.
    fold today. unfold today, PyDate.strftime_date.
    cbn [PyDate.date_of PyDate.year PyDate.month PyDate.day].
    rewrite !PyStrFacts.append_assoc. cbn [append].
    rewrite (hd_split_digits_dash _ _ Hdy), (hd_split_digits_dash _ _ Hdm).
    now rewrite (hd_split_digits _ _ Hdd).
  - intros form number id Hno.
    assert (Htext : effective_date_text
                      (VDict (created_invoice form now number id))
                    = Some today).
    { unfold effective_date_text, field, created_invoice. simpl.
      unfold Py.or_. rewrite Hno. fold today.
      assert (Ht : Py.truthy (VStr today) = true).
      { simpl. destruct today; [discriminate Hparse|reflexivity]. }
      now rewrite Ht. }
    split; [exact Htext|]. unfold effective_date. now rewrite Htext.
Qed.

(** X14. What the application writes for a date reads back as that
    date. For a clock reading that is a date of the calendar from the
    year 1000 on: [strptime] of the [%Y-%m-%d] text of today is today,
    the [%Y-%m] text of the month splits into its year and month, the
    part of the [created_at] timestamp before the first space is today's
    text, and so an invoice created without an invoice date has today as
    its effective date. *)
Theorem written_dates_read_back :
  forall now : PyDate.datetime,
    PyDate.valid_date (PyDate.dt_year now) (PyDate.dt_month now)
                      (PyDate.dt_day now) = true ->
    1000 <= PyDate.dt_year now ->
    let today := PyDate.strftime_date (PyDate.date_of now) in
    PyDate.strptime today = Some (PyDate.date_of now)
    /\ parse_year_month (PyDate.strftime_month now)
       = Some (PyDate.dt_year now, PyDate.dt_month now)
    /\ Py.split_first (VStr (PyDate.strftime_datetime now)) = Ok (VStr today)
    /\ (forall form number id,
           Py.truthy (Form.get form "invoice_date") = false ->
           effective_date_text (VDict (created_invoice form now number id))
           = Some today
           /\ effective_date (VDict (created_invoice form now number id))
              = Some (PyDate.date_of now)).
Proof. exact written_dates_read_back_lemma. Qed.

Lemma date_eqb_eq (a b : PyDate.date) : PyDate.date_eqb a b = true <-> a = b.
Proof.
  destruct a as [y m d], b as [y' m' d']. unfold PyDate.date_eqb. simpl.
  rewrite !andb_true_iff, !Z.eqb_eq. split.
  - intros [[-> ->] ->]. reflexivity.
  - intros E. injection E as -> -> ->. auto.
Qed.

Lemma on_day_iff (day : PyDate.date) (d : option PyDate.date) :
  on_day day d = true <-> d = Some day.
Proof.
  destruct d as [d|]; simpl; [|split; discriminate].
  rewrite date_eqb_eq. split; [now intros ->|now intros [= ->]].
Qed.

Lemma created_invoice_readable (form : multidict) (now : PyDate.datetime)
    (number id : string) :
  let inv := VDict (created_invoice form now number id) in
  date_readable inv = true
  /\ amount_readable "total" inv = true
  /\ exists x, field inv "total" = VFloat x
               /\ amount "total" inv = if (x =? 0)%float then 0%float else x.
Proof.
  intros inv. split; [|split].
  - unfold inv, date_readable, field. simpl.
    now destruct (Py.truthy _).
  - eapply proj1, (amount_of_float "total" _ _). reflexivity.
  - eexists. split; [reflexivity|].
    eapply proj2, (amount_of_float "total" _ _). reflexivity.
Qed.

(** X15. An invoice created on a readable document shows in the daily
    report of its effective date and in no other daily report: that
    report lists the invoices it listed before and then the new one,
    counts one more and adds its total to the sales (a total of [0.0] or
    [-0.0] counts as [0.0]); the report of another day is what it was.
    An invoice created without an invoice date shows in the report asked
    for without a date on the same day, the clock reading being a date
    of the calendar. *)
Theorem created_invoice_in_daily_report :
  forall (d : dict) (f : file) (fl : list (string * string))
         (l e : list value) (n : Z) (req rq : request)
         (now later : PyDate.datetime),
    readable d l e ->
    method req = "POST" ->
    counter_of d = VInt n ->
    period_of rq <> "monthly" ->
    let inv := VDict (created_invoice (form req) now
                        (invoice_number_text (PyDate.dt_year now) (n + 1))
                        (Py.str (Z.of_nat (length l) + 1))) in
    let st := mkstate (VDict d) f fl in
    let st' := snd (new_invoice req now st) in
    let shown := echoed_date (selected_date_of rq later) later in
    let day := report_day (selected_date_of rq later) later in
    let label := (shown ++ " (Daily)")%string in
    let before := List.filter (fun x => on_day day (effective_date x)) l in
    let exps := List.filter (fun x => Py.eq_str (field x "date") shown) e in
    let page invs :=
      Render "reports.html"
        [("store", settings_shown d);
         ("report", VDict (report_of label invs exps));
         ("period", VStr (period_of rq)); ("selected_date", VStr shown);
         ("selected_month", VStr (selected_month_of rq later))] in
    reports rq later st = (Ok (page before), st)
    /\ (effective_date inv = Some day ->
        reports rq later st' = (Ok (page (before ++ [inv])%list), st')
        /\ field (VDict (report_of label (before ++ [inv])%list exps))
                 "invoice_count"
           = VInt (Z.of_nat (length before) + 1)
        /\ exists x,
             field inv "total" = VFloat x
             /\ field (VDict (report_of label (before ++ [inv])%list exps))
                      "sales_total"
                = VFloat (sum_floats (map (amount "total") before)
                          + (if (x =? 0)%float then 0 else x))%float)
    /\ (effective_date inv <> Some day ->
        reports rq later st' = (Ok (page before), st'))
    /\ (Py.truthy (Form.get (form req) "invoice_date") = false ->
        Py.truthy (Form.get (args rq) "date") = false ->
        PyDate.date_of later = PyDate.date_of now ->
        PyDate.valid_date (PyDate.dt_year now) (PyDate.dt_month now)
                          (PyDate.dt_day now) = true ->
        1000 <= PyDate.dt_year now ->
        effective_date inv = Some day).
Proof.
  intros d f fl l e n req rq now later Hr Hpost Hc Hp inv st st' shown day
    label before exps page.
  pose proof Hr as (Hl & He & Hdate & Htot & Hamt).
  set (d' := Py.store (Py.store d "invoice_counter" (VInt (n + 1)))
                      "invoices" (VList (l ++ [inv]))).
  assert (Est : st' = mkstate (VDict d') (Content (json_dumps (VDict d')))
                        (fl ++ [("Invoice created successfully.", "success")])).
  { unfold st', st.
    now rewrite (new_invoice_post float_of_str json_dumps d f fl l n req now
                   Hpost Hc Hl). }
  destruct (created_invoice_readable (form req) now
              (invoice_number_text (PyDate.dt_year now) (n + 1))
              (Py.str (Z.of_nat (length l) + 1)))
    as (Hrd & Hra & x & Hx & Hax).
  fold inv in Hrd, Hra, Hx, Hax.
  assert (Hr' : readable d' (l ++ [inv]) e).
  { split; [|split; [|split; [|split]]].
    - unfold invoices_of, d'. now rewrite lookup_store_eq.
    - unfold expenses_of, d'. rewrite !lookup_store_ne by discriminate.
      exact He.
    - apply Forall_app. split; [exact Hdate|]. now repeat constructor.
    - apply Forall_app. split; [exact Htot|]. now repeat constructor.
    - exact Hamt. }
  assert (Hafter :
            reports rq later st'
            = (Ok (page (before
                         ++ (if on_day day (effective_date inv)
                             then [inv] else []))%list), st')).
  { rewrite Est.
    rewrite (reports_daily float_of_str format_2f d' _ _ (l ++ [inv]) e
               rq later Hr' Hp).
    unfold d' at 1. rewrite !settings_shown_store by discriminate.
    rewrite List.filter_app. reflexivity. }
  split; [exact (reports_daily float_of_str format_2f d f fl l e rq later
                   Hr Hp)|].
  split; [|split].
  - intros Hd. rewrite Hafter.
    rewrite (proj2 (on_day_iff day (effective_date inv)) Hd).
    split; [reflexivity|]. split.
    + simpl. rewrite length_app. simpl. f_equal. lia.
    + exists x. split; [exact Hx|].
      simpl. rewrite map_app. cbn [map]. rewrite sum_floats_snoc.
      now rewrite Hax.
  - intros Hd. rewrite Hafter.
    destruct (on_day day (effective_date inv)) eqn:E.
    + apply on_day_iff in E. contradiction.
    + now rewrite app_nil_r.
  - intros Hfd Hrd' Hday Hv Hy.
    destruct (written_dates_read_back_lemma now Hv Hy) as (Hparse & _ & _ & Hinv).
    destruct (Hinv (form req)
                (invoice_number_text (PyDate.dt_year now) (n + 1))
                (Py.str (Z.of_nat (length l) + 1)) Hfd) as [_ Hed].
    fold inv in Hed. rewrite Hed. f_equal.
    unfold day, selected_date_of, arg_or, Py.or_. rewrite Hrd'.
    unfold report_day. rewrite Hday, Hparse. reflexivity.
Qed.

(** X16. The daily report of a readable document takes the invoices by
    the day their effective date denotes and the expenses by the text
    of their date: an invoice is in the report exactly when its
    effective date parses to the day of the report, an expense exactly
    when its date is, letter for letter, the date that is shown. So of
    an invoice and an expense dated with another spelling of the same
    day (a month or day without its leading zero) the report has the
    invoice and not the expense. *)
Theorem daily_report_filter :
  forall (d : dict) (f : file) (fl : list (string * string))
         (l e : list value) (req : request) (now : PyDate.datetime),
    readable d l e ->
    period_of req <> "monthly" ->
    let day := report_day (selected_date_of req now) now in
    let shown := echoed_date (selected_date_of req now) now in
    let invs := List.filter (fun inv => on_day day (effective_date inv)) l in
    let exps :=
      List.filter (fun exp => Py.eq_str (field exp "date") shown) e in
    reports req now (mkstate (VDict d) f fl)
    = (Ok (Render "reports.html"
             [("store", settings_shown d);
              ("report",
               VDict (report_of (shown ++ " (Daily)")%string invs exps));
              ("period", VStr (period_of req));
              ("selected_date", VStr shown);
              ("selected_month", VStr (selected_month_of req now))]),
       mkstate (VDict d) f fl)
    /\ (forall inv,
           In inv invs
           <-> In inv l
               /\ exists s, effective_date_text inv = Some s
                            /\ PyDate.strptime s = Some day)
    /\ (forall exp,
           In exp exps <-> In exp e /\ field exp "date" = VStr shown)
    /\ (forall s inv exp,
           PyDate.strptime s = Some day ->
           s <> shown ->
           In inv l -> effective_date_text inv = Some s ->
           In exp e -> field exp "date" = VStr s ->
           In inv invs /\ ~ In exp exps).
Proof.
  intros d f fl l e req now Hr Hp day shown invs exps.
  assert (Hinv : forall inv,
             In inv invs
             <-> In inv l
                 /\ exists s, effective_date_text inv = Some s
                              /\ PyDate.strptime s = Some day).
  { intros inv. unfold invs. rewrite filter_In, on_day_iff.
    unfold effective_date. split; intros [Hin H]; (split; [exact Hin|]).
    - destruct (effective_date_text inv) as [s|]; [|discriminate H].
      now exists s.
    - destruct H as (s & -> & H). exact H. }
  assert (Hexp : forall exp,
             In exp exps <-> In exp e /\ field exp "date" = VStr shown).
  { intros exp. unfold exps. rewrite filter_In.
    split; intros [Hin H]; (split; [exact Hin|]).
    - destruct (field exp "date"); try discriminate H.
      simpl in H. apply String.eqb_eq in H. now subst.
    - rewrite H. simpl. apply String.eqb_refl. }
  split; [exact (reports_daily float_of_str format_2f d f fl l e req now
                   Hr Hp)|].
  split; [exact Hinv|]. split; [exact Hexp|].
  intros s inv exp Hs Hne Hil Hid Hie Hed. split.
  - apply Hinv. split; [exact Hil|]. now exists s.
  - intros Hin. apply Hexp in Hin. destruct Hin as [_ Hin].
    rewrite Hed in Hin. injection Hin as ->. contradiction.
Qed.

(** *** No handler fails on the documents the handlers write *)

Lemma invoice_ok_parts (inv : value) :
  invoice_ok inv = true ->
  listable inv = true /\ is_dict inv = true /\ date_readable inv = true
  /\ amount_readable "total" inv = true
  /\ text_or_blank (field inv "payment_mode") = true
  /\ text_or_blank (field inv "notes") = true.
Proof.
  unfold invoice_ok. rewrite !andb_true_iff. intros [[[Hl Ha] Hm] Hn].
  repeat split; try assumption.
  - unfold amount_readable in Ha. now apply andb_prop in Ha.
  - unfold listable in Hl. now apply andb_prop in Hl.
Qed.

Lemma find_first (invoice_id : string) (l : list value) :
  Forall (fun inv => is_dict inv = true) l ->
  Forall (fun inv => other_record invoice_id inv = true) l
  \/ exists i inv,
       l !! i = Some inv /\ has_id invoice_id inv = true
       /\ forall j inv', (j < i)%nat -> l !! j = Some inv' ->
                         other_record invoice_id inv' = true.
Proof.
  induction 1 as [|x r Hx Hr IH]; [left; constructor|].
  destruct (has_id invoice_id x) eqn:E.
  - right. exists 0%nat, x. split; [reflexivity|]. split; [exact E|].
    intros j inv' Hj. lia.
  - assert (Ho : other_record invoice_id x = true).
    { destruct x; try discriminate Hx. unfold other_record. now rewrite E. }
    destruct IH as [IH|(i & inv & Hi & Hid & Hbefore)].
    + left. now constructor.
    + right. exists (S i), inv. split; [exact Hi|]. split; [exact Hid|].
      intros [|j] inv' Hj Hl; simpl in Hl.
      * now injection Hl as <-.
      * apply (Hbefore j inv'); [lia|exact Hl].
Qed.

Lemma well_formed_readable (d : dict) :
  well_formed d ->
  exists l e, readable d l e
              /\ Forall (fun inv => invoice_ok inv = true) l
              /\ Forall (fun exp => expense_ok exp = true) e.
Proof.
  intros (_ & (l & Hl & Hlo) & (e & He & Heo)). exists l, e.
  split; [|now split].
  split; [exact Hl|]. split; [exact He|]. split; [|split].
  - eapply Forall_impl; [exact Hlo|]. intros inv H.
    now apply invoice_ok_parts in H.
  - eapply Forall_impl; [exact Hlo|]. intros inv H.
    now apply invoice_ok_parts in H.
  - eapply Forall_impl; [exact Heo|]. intros exp H.
    unfold expense_ok in H. now apply andb_prop in H.
Qed.

Lemma well_formed_store_other (d : dict) (k : string) (v : value) :
  k <> "invoice_counter" -> k <> "invoices" -> k <> "expenses" ->
  well_formed d -> well_formed (Py.store d k v).
Proof.
  intros H1 H2 H3 (Hc & Hl & He).
  unfold well_formed, counter_of, invoices_of, expenses_of in *.
  now rewrite !lookup_store_ne by assumption.
Qed.

Lemma well_formed_store_counter (d : dict) (m : Z) :
  well_formed d -> well_formed (Py.store d "invoice_counter" (VInt m)).
Proof.
  intros (Hc & Hl & He).
  unfold well_formed, counter_of, invoices_of, expenses_of in *.
  rewrite lookup_store_eq, !lookup_store_ne by discriminate.
  split; [now exists m|now split].
Qed.

Lemma well_formed_store_invoices (d : dict) (l : list value) :
  Forall (fun inv => invoice_ok inv = true) l ->
  well_formed d -> well_formed (Py.store d "invoices" (VList l)).
Proof.
  intros Hlo (Hc & _ & He).
  unfold well_formed, counter_of, invoices_of, expenses_of in *.
  rewrite lookup_store_eq, !lookup_store_ne by discriminate.
  split; [exact Hc|]. split; [now exists l|exact He].
Qed.

Lemma well_formed_store_expenses (d : dict) (e : list value) :
  Forall (fun exp => expense_ok exp = true) e ->
  well_formed d -> well_formed (Py.store d "expenses" (VList e)).
Proof.
  intros Heo (Hc & Hl & _).
  unfold well_formed, counter_of, invoices_of, expenses_of in *.
  rewrite lookup_store_eq, !lookup_store_ne by discriminate.
  split; [exact Hc|]. split; [exact Hl|now exists e].
Qed.

Lemma form_get_cases (form : multidict) (k : string) :
  Form.get form k = VNone \/ exists s, Form.get form k = VStr s.
Proof.
  induction form as [|[k' v] form IH]; simpl; [now left|].
  destruct (String.eqb k' k); [right; now exists v|exact IH].
Qed.

Lemma form_get_text (form : multidict) (k : string) (default : string) :
  exists s, Py.or_ (Form.get form k) (VStr default) = VStr s.
Proof.
  destruct (form_get_cases form k) as [->|[s ->]]; unfold Py.or_; simpl;
    [now exists default|].
  destruct (negb (String.eqb s "")); eauto.
Qed.

Lemma created_invoice_ok (form : multidict) (now : PyDate.datetime)
    (number id : string) :
  invoice_ok (VDict (created_invoice form now number id)) = true.
Proof.
  destruct (created_invoice_readable form now number id) as (Hd & Ha & _).
  unfold invoice_ok. rewrite Ha.
  unfold listable. rewrite Hd.
  unfold has_text_key, text_key, customer_text, text_or_blank, field. simpl.
  unfold Py.or_.
  destruct (form_get_cases form "payment_mode") as [->|[s ->]]; simpl;
    repeat match goal with
           | |- context [if negb (String.eqb ?a ?b) then _ else _] =>
               destruct (negb (String.eqb a b))
           end; reflexivity.
Qed.

Lemma recorded_expense_ok (form : multidict) (now : PyDate.datetime)
    (id : string) :
  expense_ok (recorded_expense form now id) = true.
Proof.
  unfold expense_ok. rewrite recorded_expense_readable.
  unfold has_text_key, text_key, recorded_expense. simpl.
  destruct (form_get_text form "date"
              (PyDate.strftime_date (PyDate.date_of now))) as [s ->].
  reflexivity.
Qed.

Lemma converted_ok (x : dict) (s : string) (now : PyDate.datetime) :
  invoice_ok (VDict x) = true ->
  invoice_ok (VDict (converted x s now)) = true.
Proof.
  unfold invoice_ok, listable, has_text_key, text_key, customer_text,
    date_readable, amount_readable, amount_opt, text_or_blank, field,
    converted.
  rewrite (lookup_store_eq _ "notes").
  rewrite !(lookup_store_ne _ "notes") by discriminate.
  rewrite (lookup_store_eq _ "payment_mode").
  rewrite !(lookup_store_ne _ "payment_mode") by discriminate.
  rewrite !andb_true_iff. intros [[[Hl Ha] _] _].
  split; [split; [split; assumption|reflexivity]|].
  unfold Py.or_, Py.truthy.
  now destruct (negb (String.eqb _ "")).
Qed.

Ltac kept_state :=
  eexists _, _, _, _; split; [reflexivity|];
  split; [apply Unchanged|left; now split].

Ltac written_state :=
  cbn zeta; eexists _, _, _, _; split; [reflexivity|];
  split; [|right; reflexivity].

Lemma invoices_are_dicts (l : list value) :
  Forall (fun inv => invoice_ok inv = true) l ->
  Forall (fun inv => is_dict inv = true) l.
Proof.
  intros H. eapply Forall_impl; [exact H|]. intros inv Hinv.
  now apply invoice_ok_parts in Hinv.
Qed.

Lemma new_invoice_steps (req : request) (now : PyDate.datetime) :
  steps (new_invoice req now).
Proof.
  intros d f fl Hs.
  destruct (String.eqb (method req) "POST") eqn:Hm.
  - apply String.eqb_eq in Hm.
    pose proof Hs as ((n & Hc) & (l & Hl & Hlo) & _).
    rewrite (new_invoice_post float_of_str json_dumps d f fl l n req now
               Hm Hc Hl).
    written_state. now apply Created.
  - unfold new_invoice, bindM. rewrite get_store_settings_at, Hm.
    kept_state.
Qed.

Lemma delete_invoice_steps (invoice_id : string) :
  steps (delete_invoice json_dumps invoice_id).
Proof.
  intros d f fl Hs.
  pose proof Hs as (_ & (l & Hl & Hlo) & _).
  destruct (find_first invoice_id l (invoices_are_dicts l Hlo))
    as [Hnone|(i & inv & Hi & Hid & Hbefore)].
  - unfold delete_invoice, bindM, data_get, liftR. simpl.
    fold (invoices_of d). rewrite Hl. simpl.
    rewrite (find_by_id_none invoice_id l 0 Hnone).
    kept_state.
  - rewrite (delete_invoice_at d f fl l i inv invoice_id Hl Hi Hid Hbefore).
    written_state. apply Deleted; [exact Hl|].
    exact (lookup_lt_Some _ _ _ Hi).
Qed.

Lemma convert_steps (invoice_id : string) (now : PyDate.datetime) :
  steps (convert_credit_to_cash json_dumps invoice_id now).
Proof.
  intros d f fl Hs.
  pose proof Hs as (_ & (l & Hl & Hlo) & _).
  destruct (find_first invoice_id l (invoices_are_dicts l Hlo))
    as [Hnone|(i & inv & Hi & Hid & Hbefore)].
  - rewrite (convert_not_found json_dumps d f fl l invoice_id now Hl Hnone).
    kept_state.
  - pose proof (proj1 (Forall_lookup _ l) Hlo i inv Hi) as Hok.
    destruct inv as [| | | | | |x]; try discriminate Hid.
    destruct (invoice_ok_parts _ Hok) as (_ & _ & _ & _ & Hmode & Hnotes).
    unfold text_or_blank in Hmode, Hnotes.
    change (field (VDict x) "payment_mode") with (payment_mode_of x) in Hmode.
    change (field (VDict x) "notes") with (notes_of x) in Hnotes.
    destruct (Py.or_ (payment_mode_of x) (VStr "")) as [| | | |mode| |] eqn:Em;
      try discriminate Hmode.
    destruct (Py.or_ (notes_of x) (VStr "")) as [| | | |nn| |] eqn:En;
      try discriminate Hnotes.
    destruct (String.eqb (PyStr.upper mode) "CREDIT") eqn:Ec.
    + apply String.eqb_eq in Ec.
      rewrite (convert_credit json_dumps d f fl l i x invoice_id mode nn now
                 Hl Hi Hid Hbefore Em Ec En).
      written_state. now apply Converted.
    + apply String.eqb_neq in Ec.
      rewrite (convert_not_credit json_dumps d f fl l i x invoice_id mode now
                 Hl Hi Hid Hbefore Em Ec).
      kept_state.
Qed.

Lemma invoice_view_steps (invoice_id : string) :
  steps (invoice_view invoice_id).
Proof.
  intros d f fl Hs.
  pose proof Hs as (_ & (l & Hl & Hlo) & _).
  destruct (find_first invoice_id l (invoices_are_dicts l Hlo))
    as [Hnone|(i & inv & Hi & Hid & Hbefore)].
  - rewrite (invoice_view_missing d f fl l invoice_id Hl Hnone).
    kept_state.
  - rewrite (invoice_view_found d f fl l i inv invoice_id Hl Hi Hid Hbefore).
    kept_state.
Qed.

Lemma download_at (d : dict) (f : file) (fl : list (string * string))
    (l : list value) (invoice_id : string) :
  invoices_of d = VList l ->
  Forall (fun inv => is_dict inv = true) l ->
  Forall (fun inv => downloadable inv = true) l ->
  exists (r : reply) (fl' : list (string * string)),
    download_invoice invoice_id (mkstate (VDict d) f fl)
    = (Ok r, mkstate (VDict d) f fl').
Proof.
  intros Hl Hdict Hdown.
  unfold download_invoice. unfold bindM at 1.
  rewrite get_store_settings_at.
  unfold bindM, data_get, liftR. cbn [_data Py.get].
  fold (invoices_of d). rewrite Hl. cbn [Py.iter].
  destruct (find_first invoice_id l Hdict)
    as [Hnone|(i & inv & Hi & Hid & Hbefore)].
  - rewrite (find_by_id_none invoice_id l 0 Hnone). simpl.
    eexists _, _. reflexivity.
  - rewrite (find_by_id_first invoice_id l i inv 0 Hi Hid Hbefore).
    rewrite (has_id_truthy invoice_id inv Hid). cbn [negb].
    pose proof (proj1 (Forall_lookup _ l) Hdown i inv Hi) as Hd.
    destruct inv as [| | | | | |x]; try discriminate Hid.
    unfold downloadable, field in Hd. cbn [Py.get].
    destruct (Py.lookup x "invoice_number") as [[| | | |n| |]|];
      try discriminate Hd.
    unfold set_header.
    change (has_newline "text/html; charset=utf-8") with false. cbv iota.
    rewrite has_newline_app.
    change (has_newline "attachment; filename=") with false. cbn [orb].
    rewrite has_newline_app. change (has_newline "invoice-") with false.
    cbn [orb str_]. rewrite has_newline_app.
    apply negb_true_iff in Hd. rewrite Hd.
    change (has_newline ".html") with false. cbn [orb].
    eexists _, _. reflexivity.
Qed.

Lemma invoice_list_steps (req : request) : steps (invoice_list req).
Proof.
  intros d f fl Hs.
  pose proof Hs as (_ & (l & Hl & Hlo) & _).
  assert (Hlist : Forall (fun inv => listable inv = true) l).
  { eapply Forall_impl; [exact Hlo|]. intros inv H.
    now apply invoice_ok_parts in H. }
  destruct (invoice_list_page d f fl l req Hl Hlist) as (sorted & _ & ->).
  kept_state.
Qed.

Lemma expenses_steps (req : request) (now : PyDate.datetime) :
  steps (expenses req now).
Proof.
  intros d f fl Hs.
  pose proof Hs as (_ & _ & (e & He & Heo)).
  destruct (String.eqb (method req) "POST") eqn:Hm.
  - apply String.eqb_eq in Hm.
    rewrite (expenses_post d f fl e req now Hm He).
    written_state. now apply Recorded.
  - apply String.eqb_neq in Hm.
    assert (Hk : Forall (fun x => has_text_key "date" x = true) e).
    { eapply Forall_impl; [exact Heo|]. intros x H.
      unfold expense_ok in H. now apply andb_prop in H. }
    destruct (expenses_page d f fl e req now Hm He Hk) as (sorted & _ & ->).
    kept_state.
Qed.

Lemma settings_steps (req : request) : steps (settings req).
Proof.
  intros d f fl Hs.
  unfold settings. destruct (String.eqb (method req) "POST").
  - eexists _, _, _, _. split; [reflexivity|].
    split; [apply Saved|right; reflexivity].
  - unfold bindM. rewrite get_store_settings_at.
    kept_state.
Qed.

Lemma reports_step (req : request) (now : PyDate.datetime) :
  steps (reports req now).
Proof using float_of_str format_2f json_dumps str_other.
  intros d f fl Hs.
  destruct (well_formed_readable d Hs) as (l & e & Hr & _).
  destruct (report_and_export d f fl l e req now Hr) as [Hrep _].
  rewrite Hrep. kept_state.
Qed.

(** A change keeps the document well formed. *)
Lemma change_well_formed (d d' : dict) :
  well_formed d -> change d d' -> well_formed d'.
Proof.
  intros Hs Hch. pose proof Hs as (_ & (l0 & Hl0 & Hlo) & (e0 & He0 & Heo)).
  destruct Hch as [|n l form now Hc Hl|l i Hl Hi|l i x nn now Hl Hi
                   |e form now He|form].
  - exact Hs.
  - rewrite Hl in Hl0. injection Hl0 as <-.
    apply well_formed_store_invoices;
      [|now apply well_formed_store_counter].
    apply Forall_app. split; [exact Hlo|].
    constructor; [apply created_invoice_ok|constructor].
  - rewrite Hl in Hl0. injection Hl0 as <-.
    apply well_formed_store_invoices; [|exact Hs].
    now apply Forall_delete.
  - rewrite Hl in Hl0. injection Hl0 as <-.
    apply well_formed_store_invoices; [|exact Hs].
    apply Forall_insert; [exact Hlo|]. apply converted_ok.
    exact (proj1 (Forall_lookup _ l) Hlo i _ Hi).
  - rewrite He in He0. injection He0 as <-.
    apply well_formed_store_expenses; [|exact Hs].
    apply Forall_app. split; [exact Heo|].
    constructor; [apply recorded_expense_ok|constructor].
  - now apply well_formed_store_other.
Qed.

Lemma has_newline_digits (s : string) :
  PyStr.all_digits s = true -> has_newline s = false.
Proof.
  induction s as [|c s IH]; [reflexivity|].
  cbn [PyStr.all_digits has_newline]. intros H.
  apply andb_prop in H. destruct H as [Hc Hs]. rewrite (IH Hs).
  destruct c as [[] [] [] [] [] [] [] []]; try discriminate Hc; reflexivity.
Qed.

Lemma has_newline_str_of_int (n : Z) : has_newline (PyStr.str_of_int n) = false.
Proof.
  unfold PyStr.str_of_int. destruct (Z.ltb_spec n 0).
  - cbn [has_newline]. apply has_newline_digits.
    apply PyStrFacts.digits_spec. lia.
  - apply has_newline_digits. now apply PyStrFacts.digits_spec.
Qed.

Lemma has_newline_format_0d (w : nat) (n : Z) :
  has_newline (PyStr.format_0d w n) = false.
Proof.
  unfold PyStr.format_0d. destruct (Z.ltb_spec n 0).
  - cbn [has_newline]. apply has_newline_digits.
    apply PyStrFacts.zfill_spec, PyStrFacts.digits_spec. lia.
  - apply has_newline_digits.
    now apply PyStrFacts.zfill_spec, PyStrFacts.digits_spec.
Qed.

Lemma has_newline_invoice_number (y m : Z) :
  has_newline (invoice_number_text y m) = false.
Proof.
  unfold invoice_number_text. rewrite !has_newline_app.
  now rewrite has_newline_str_of_int, has_newline_format_0d.
Qed.

Lemma converted_number (x : dict) (s : string) (now : PyDate.datetime) :
  field (VDict (converted x s now)) "invoice_number"
  = field (VDict x) "invoice_number".
Proof.
  unfold field, converted. now rewrite !lookup_store_ne by discriminate.
Qed.

(** A change keeps the invoices downloadable. *)
Lemma change_servable (d d' : dict) :
  servable d -> change d d' -> servable d'.
Proof.
  intros [Hs (l0 & Hl0 & Hdo)] Hch.
  split; [exact (change_well_formed d d' Hs Hch)|].
  destruct Hch as [|n l form now Hc Hl|l i Hl Hi|l i x nn now Hl Hi
                   |e form now He|form];
    unfold invoices_of in *;
    rewrite ?lookup_store_eq, ?lookup_store_ne by discriminate.
  - now exists l0.
  - rewrite Hl in Hl0. injection Hl0 as <-.
    eexists. split; [reflexivity|].
    apply Forall_app. split; [exact Hdo|].
    constructor; [|constructor].
    unfold downloadable, field, created_invoice. cbn [Py.lookup String.eqb Ascii.eqb Bool.eqb].
    now rewrite has_newline_invoice_number.
  - rewrite Hl in Hl0. injection Hl0 as <-.
    eexists. split; [reflexivity|]. now apply Forall_delete.
  - rewrite Hl in Hl0. injection Hl0 as <-.
    eexists. split; [reflexivity|].
    apply Forall_insert; [exact Hdo|].
    pose proof (proj1 (Forall_lookup _ l) Hdo i _ Hi) as Hx.
    unfold downloadable in Hx |- *. now rewrite converted_number.
  - now exists l0.
  - now exists l0.
Qed.

Lemma steps_never_fails {A : Type} (m : M A) : steps m -> never_fails m.
Proof.
  intros Hm [dat f fl] (d & Hd & Hs). simpl in Hd. subst dat.
  destruct (Hm d f fl (proj1 Hs)) as (a & d' & f' & fl' & -> & Hch & _).
  split; [now exists a|]. exists d'. split; [reflexivity|].
  exact (change_servable d d' Hs Hch).
Qed.

Lemma steps_writes_through {A : Type} (m : M A) :
  steps m -> writes_through m.
Proof.
  intros Hm [dat f fl] (d & Hd & Hs). simpl in Hd. subst dat.
  destruct (Hm d f fl Hs) as (a & d' & f' & fl' & -> & _ & [[-> ->] | ->]).
  - left. now split.
  - right. reflexivity.
Qed.

Lemma leaves_writes_through {A : Type} (m : M A) :
  leaves_document m -> writes_through m.
Proof. intros Hm st _. left. exact (Hm st). Qed.

Lemma download_never_fails (invoice_id : string) :
  never_fails (download_invoice invoice_id).
Proof.
  intros [dat f fl] (d & Hd & Hs). simpl in Hd. subst dat.
  pose proof Hs as [(_ & (l & Hl & Hlo) & _) (l' & Hl' & Hdo)].
  rewrite Hl in Hl'. injection Hl' as <-.
  destruct (download_at d f fl l invoice_id Hl (invoices_are_dicts l Hlo) Hdo)
    as (r & fl' & ->).
  split; [now exists r|]. now exists d.
Qed.

Lemma split_nonempty (sep : ascii) (s : string) : PyStr.split sep s <> [].
Proof.
  destruct s as [|c r]; simpl; [discriminate|].
  destruct (Ascii.eqb c sep); [discriminate|].
  destruct (PyStr.split sep r); discriminate.
Qed.

Lemma split_one_piece (sep : ascii) (s q : string) :
  PyStr.split sep s = [q] -> s = q.
Proof.
  revert q. induction s as [|c r IH]; simpl; intros q H.
  - now injection H as <-.
  - destruct (Ascii.eqb c sep).
    + injection H as _ H. now apply split_nonempty in H.
    + destruct (PyStr.split sep r) as [|p' ps] eqn:E;
        [now apply split_nonempty in E|].
      injection H as <- ->. now rewrite (IH p' eq_refl).
Qed.

Lemma split_two_pieces (sep : ascii) (s p q : string) :
  PyStr.split sep s = [p; q] -> s = (p ++ String sep q)%string.
Proof.
  revert p. induction s as [|c r IH]; simpl; intros p H; [discriminate H|].
  destruct (Ascii.eqb_spec c sep) as [->|_].
  - injection H as <- H. now rewrite (split_one_piece _ _ _ H).
  - destruct (PyStr.split sep r) as [|p' ps] eqn:E; [discriminate H|].
    injection H as <- ->. now rewrite (IH p' eq_refl).
Qed.

Lemma newline_cases (c : ascii) :
  Ascii.eqb c cr || Ascii.eqb c nl = true -> c = cr \/ c = nl.
Proof.
  rewrite orb_true_iff, !Ascii.eqb_eq. tauto.
Qed.

Ltac one_line_char a H :=
  destruct (Ascii.eqb a cr || Ascii.eqb a nl) eqn:?E; [|reflexivity];
  exfalso; apply newline_cases in E; destruct E; subst a;
  vm_compute in H; discriminate H.

Lemma parse_month_one_line (s : string) (m : Z) :
  PyDate.parse_month s = Some m -> has_newline s = false.
Proof.
  destruct s as [|a [|b [|c r]]]; try discriminate; intros H;
    cbn [has_newline]; rewrite ?orb_false_r.
  - one_line_char a H.
  - assert (Ha : Ascii.eqb a cr || Ascii.eqb a nl = false).
    { destruct (Ascii.eqb a cr || Ascii.eqb a nl) eqn:E; [|reflexivity].
      exfalso. apply newline_cases in E. destruct E; subst a;
        cbn in H; discriminate H. }
    rewrite Ha. cbn [orb].
    destruct (Ascii.eqb b cr || Ascii.eqb b nl) eqn:E; [|reflexivity].
    exfalso. apply newline_cases in E.
    destruct E; subst b; destruct a as [[] [] [] [] [] [] [] []];
      vm_compute in H; discriminate H.
Qed.

Lemma parse_day_one_line (s : string) (d : Z) :
  PyDate.parse_day s = Some d -> has_newline s = false.
Proof.
  destruct s as [|a [|b [|c r]]]; try discriminate; intros H;
    cbn [has_newline]; rewrite ?orb_false_r.
  - one_line_char a H.
  - assert (Ha : Ascii.eqb a cr || Ascii.eqb a nl = false).
    { destruct (Ascii.eqb a cr || Ascii.eqb a nl) eqn:E; [|reflexivity].
      exfalso. apply newline_cases in E. destruct E; subst a;
        cbn in H; discriminate H. }
    rewrite Ha. cbn [orb].
    destruct (Ascii.eqb b cr || Ascii.eqb b nl) eqn:E; [|reflexivity].
    exfalso. apply newline_cases in E.
    destruct E; subst b; destruct a as [[] [] [] [] [] [] [] []];
      vm_compute in H; discriminate H.
Qed.

(** The text of a date [strptime] reads holds no line break. *)
Lemma strptime_one_line (s : string) (d : PyDate.date) :
  PyDate.strptime s = Some d -> has_newline s = false.
Proof.
  unfold PyDate.strptime.
  destruct s as [|a [|b [|c [|y [|dash rest]]]]]; try discriminate.
  destruct (Ascii.eqb_spec dash "-") as [->|Hne].
  2:{ destruct dash as [[] [] [] [] [] [] [] []]; try discriminate;
      now contradiction Hne. }
  destruct (PyDate.parse_year a b c y) as [yy|] eqn:Ey; [|discriminate].
  destruct (PyStr.split "-" rest) as [|ms [|ds [|? ?]]] eqn:Es;
    try discriminate.
  destruct (PyDate.parse_month ms) as [m|] eqn:Em; [|discriminate].
  destruct (PyDate.parse_day ds) as [dd|] eqn:Ed; [|discriminate].
  intros _. rewrite (split_two_pieces _ _ _ _ Es).
  change (String a (String b (String c (String y (String "-" (ms ++ String "-" ds))))))
    with (String a (String b (String c (String y "")))
          ++ String "-" (ms ++ String "-" ds))%string.
  unfold PyDate.parse_year in Ey.
  destruct (PyStr.is_digit a && PyStr.is_digit b && PyStr.is_digit c
            && PyStr.is_digit y) eqn:Hd; [|discriminate Ey].
  rewrite has_newline_app.
  rewrite (has_newline_digits (String a (String b (String c (String y "")))))
    by (cbn [PyStr.all_digits]; now rewrite andb_true_r, !andb_assoc).
  change (String "-" (ms ++ String "-" ds))
    with ("-" ++ (ms ++ String "-" ds))%string.
  rewrite !has_newline_app. change (has_newline "-") with false.
  change (String "-" ds) with ("-" ++ ds)%string.
  rewrite has_newline_app. change (has_newline "-") with false.
  now rewrite (parse_month_one_line _ _ Em), (parse_day_one_line _ _ Ed).
Qed.

Lemma has_newline_strftime_date (d : PyDate.date) :
  has_newline (PyDate.strftime_date d) = false.
Proof.
  unfold PyDate.strftime_date. rewrite !has_newline_app.
  now rewrite !has_newline_format_0d.
Qed.

(** The name of the exported file holds a line break where the request
    has one in the period, or in the month of a monthly report. *)
Lemma export_name_refused (l e : list value) (req : request)
    (now : PyDate.datetime) :
  has_newline
    ("report-" ++ period_of req ++ "-"
     ++ (if String.eqb (period_of req) "monthly"
         then selected_month_of req now
         else snd (period_filter l e req now)) ++ ".csv")
  = export_refused req now.
Proof.
  unfold export_refused, period_filter.
  rewrite has_newline_app. change (has_newline "report-") with false.
  rewrite !has_newline_app. change (has_newline "-") with false.
  change (has_newline ".csv") with false. cbn [orb].
  rewrite !orb_false_r.
  destruct (String.eqb_spec (period_of req) "monthly") as [E|_].
  - now rewrite E.
  - cbn [snd andb]. rewrite orb_false_r.
    replace (has_newline (echoed_date (selected_date_of req now) now))
      with false; [now rewrite orb_false_r|].
    unfold echoed_date.
    destruct (PyDate.strptime (selected_date_of req now)) eqn:E.
    + symmetry. exact (strptime_one_line _ _ E).
    + symmetry. apply has_newline_strftime_date.
Qed.

Lemma export_at (d : dict) (f : file) (fl : list (string * string))
    (req : request) (now : PyDate.datetime) :
  well_formed d ->
  (export_refused req now = true
   /\ export_report req now (mkstate (VDict d) f fl)
      = (Raise ValueError, mkstate (VDict d) f fl))
  \/ (export_refused req now = false
      /\ exists r, export_report req now (mkstate (VDict d) f fl)
                   = (Ok r, mkstate (VDict d) f fl)).
Proof.
  intros Hs.
  destruct (well_formed_readable d Hs) as (l & e & Hr & _).
  destruct (report_and_export d f fl l e req now Hr) as [_ Hexp].
  cbv zeta in Hexp. rewrite export_name_refused in Hexp.
  destruct (export_refused req now); [left|right]; split;
    try reflexivity; [exact Hexp|].
  eexists. exact Hexp.
Qed.



(** *** Invoice numbers do not repeat *)

Lemma split_two (sep : ascii) (a s : string) :
  exists p q qs, PyStr.split sep (a ++ String sep s) = p :: q :: qs.
Proof.
  induction a as [|c a IH]; simpl.
  - rewrite Ascii.eqb_refl.
    destruct (PyStr.split sep s) as [|q qs] eqn:E.
    + destruct s; simpl in E; [discriminate E|].
      destruct (Ascii.eqb _ sep); [discriminate E|].
      destruct (PyStr.split sep s); discriminate E.
    + now exists EmptyString, q, qs.
  - destruct IH as (p & q & qs & ->).
    destruct (Ascii.eqb c sep); eauto.
Qed.

Lemma last_split (sep : ascii) (a s : string) :
  List.last (PyStr.split sep (a ++ String sep s)) EmptyString
  = List.last (PyStr.split sep s) EmptyString.
Proof.
  induction a as [|c a IH]; simpl.
  - rewrite Ascii.eqb_refl.
    destruct (PyStr.split sep s) as [|q qs] eqn:E; [|reflexivity].
    destruct s; simpl in E; [discriminate E|].
    destruct (Ascii.eqb _ sep); [discriminate E|].
    destruct (PyStr.split sep s); discriminate E.
  - destruct (split_two sep a s) as (p & q & qs & E).
    rewrite E in IH |- *. rewrite <- IH.
    destruct (Ascii.eqb c sep); reflexivity.
Qed.

Lemma VStr_inj (s t : string) : VStr s = VStr t -> s = t.
Proof. now intros [= ->]. Qed.

(** The counter can be read off an invoice number. *)
Lemma invoice_number_text_counter (y y' m m' : Z) :
  0 <= m -> 0 <= m' ->
  invoice_number_text y m = invoice_number_text y' m' -> m = m'.
Proof.
  intros Hm Hm' E.
  destruct (PyStrFacts.int_of_str_format_0d 4 m Hm) as (Hd & _ & Hi).
  destruct (PyStrFacts.int_of_str_format_0d 4 m' Hm') as (Hd' & _ & Hi').
  assert (L : forall z k, 0 <= k ->
               PyStr.all_digits (PyStr.format_0d 4 k) = true ->
               List.last (PyStr.split "-" (invoice_number_text z k))
                         EmptyString
               = PyStr.format_0d 4 k).
  { intros z k Hk Hdk. unfold invoice_number_text.
    rewrite <- (PyStrFacts.append_assoc "RS-").
    change ("-" ++ PyStr.format_0d 4 k)%string
      with (String "-" (PyStr.format_0d 4 k)).
    rewrite last_split, (split_digits _ Hdk). reflexivity. }
  pose proof (L y m Hm Hd) as L1. pose proof (L y' m' Hm' Hd') as L2.
  rewrite E, L2 in L1. rewrite L1 in Hi'. congruence.
Qed.

(** A change keeps the invoice numbers distinct. *)
Lemma change_numbers (d d' : dict) :
  numbers_distinct d -> change d d' -> numbers_distinct d'.
Proof.
  intros (n0 & l0 & Hc0 & Hn0 & Hl0 & Hup & Hdis) Hch.
  destruct Hch as [|n l form now Hc Hl|l i Hl Hi|l i x nn now Hl Hi
                   |e form now He|form].
  - now exists n0, l0.
  - rewrite Hc in Hc0. injection Hc0 as <-.
    rewrite Hl in Hl0. injection Hl0 as <-.
    set (inv := VDict (created_invoice (form) now
                         (invoice_number_text (PyDate.dt_year now) (n + 1))
                         (Py.str (Z.of_nat (length l) + 1)))).
    assert (Hinv : field inv "invoice_number"
                   = VStr (invoice_number_text (PyDate.dt_year now) (n + 1)))
      by reflexivity.
    assert (Hfresh : forall j y, l !! j = Some y ->
                       field y "invoice_number" <> field inv "invoice_number").
    { intros j y Hy E.
      pose proof (proj1 (Forall_lookup _ l) Hup j y Hy) as (yy & m & Hf & Hm).
      rewrite Hf, Hinv in E. apply VStr_inj in E.
      apply invoice_number_text_counter in E; lia. }
    exists (n + 1), (l ++ [inv])%list.
    split; [unfold counter_of;
            now rewrite lookup_store_ne, lookup_store_eq by discriminate|].
    split; [lia|].
    split; [unfold invoices_of; now rewrite lookup_store_eq|].
    split.
    + apply Forall_app. split.
      * eapply Forall_impl; [exact Hup|].
        intros y (yy & m & Hf & Hm). exists yy, m. split; [exact Hf|lia].
      * constructor; [|constructor].
        exists (PyDate.dt_year now), (n + 1). split; [exact Hinv|lia].
    + intros i j a b Ha Hb E.
      destruct (Nat.lt_ge_cases i (length l)) as [Hi|Hi];
        destruct (Nat.lt_ge_cases j (length l)) as [Hj|Hj].
      * rewrite lookup_app_l in Ha, Hb by assumption.
        exact (Hdis i j a b Ha Hb E).
      * rewrite lookup_app_l in Ha by assumption.
        rewrite lookup_app_r in Hb by assumption.
        destruct (j - length l)%nat; [|discriminate Hb].
        injection Hb as <-. now apply Hfresh in Ha.
      * rewrite lookup_app_l in Hb by assumption.
        rewrite lookup_app_r in Ha by assumption.
        destruct (i - length l)%nat; [|discriminate Ha].
        injection Ha as <-. symmetry in E. now apply Hfresh in Hb.
      * pose proof (lookup_lt_Some _ _ _ Ha) as La.
        pose proof (lookup_lt_Some _ _ _ Hb) as Lb.
        rewrite length_app in La, Lb. simpl in La, Lb. lia.
  - rewrite Hl in Hl0. injection Hl0 as <-.
    exists n0, (delete i l).
    split; [unfold counter_of; now rewrite lookup_store_ne by discriminate|].
    split; [exact Hn0|].
    split; [unfold invoices_of; now rewrite lookup_store_eq|].
    split; [now apply Forall_delete|].
    intros j k a b Ha Hb E. rewrite list_lookup_delete in Ha, Hb.
    pose proof (Hdis _ _ a b Ha Hb E) as Hjk.
    destruct (decide (j < i)%nat), (decide (k < i)%nat); lia.
  - rewrite Hl in Hl0. injection Hl0 as <-.
    assert (Hsame : forall j a,
               <[i := VDict (converted x nn now)]> l !! j = Some a ->
               exists a', l !! j = Some a'
                          /\ field a "invoice_number"
                             = field a' "invoice_number").
    { intros j a Ha. destruct (Nat.eq_dec j i) as [->|Hne].
      - rewrite list_lookup_insert_eq in Ha
          by exact (lookup_lt_Some _ _ _ Hi).
        injection Ha as <-. exists (VDict x). split; [exact Hi|].
        apply converted_number.
      - rewrite list_lookup_insert_ne in Ha by congruence. now exists a. }
    exists n0, (<[i := VDict (converted x nn now)]> l).
    split; [unfold counter_of; now rewrite lookup_store_ne by discriminate|].
    split; [exact Hn0|].
    split; [unfold invoices_of; now rewrite lookup_store_eq|].
    split.
    + apply Forall_lookup. intros j a Ha.
      destruct (Hsame j a Ha) as (a' & Ha' & ->).
      exact (proj1 (Forall_lookup _ l) Hup j a' Ha').
    + intros j k a b Ha Hb E.
      destruct (Hsame j a Ha) as (a' & Ha' & Ea).
      destruct (Hsame k b Hb) as (b' & Hb' & Eb).
      apply (Hdis j k a' b' Ha' Hb'). congruence.
  - exists n0, l0.
    split; [unfold counter_of; now rewrite lookup_store_ne by discriminate|].
    split; [exact Hn0|].
    split; [unfold invoices_of; now rewrite lookup_store_ne by discriminate|].
    now split.
  - exists n0, l0.
    split; [unfold counter_of; now rewrite lookup_store_ne by discriminate|].
    split; [exact Hn0|].
    split; [unfold invoices_of; now rewrite lookup_store_ne by discriminate|].
    now split.
Qed.

Lemma steps_keep_numbers {A : Type} (m : M A) :
  steps m -> keeps_numbers_distinct m.
Proof.
  intros Hm [dat f fl] (d & Hd & Hs) (d0 & Hd0 & Hnum).
  simpl in Hd, Hd0. subst dat. injection Hd0 as <-.
  destruct (Hm d f fl Hs) as (a & d' & f' & fl' & -> & Hch & _).
  exists d'. split; [reflexivity|]. exact (change_numbers d d' Hnum Hch).
Qed.

(** X3. Invoice numbers do not repeat, though ids do. The empty default
    document has no two invoices with one invoice number, all made at
    counters up to the stored one, and on a well formed document every
    handler keeps it so: a created invoice gets a number no stored
    invoice has, and deleting or converting an invoice gives none of the
    others its number. *)
Theorem invoice_numbers_distinct :
  numbers_distinct
    [("store_settings", VNone); ("invoices", VList []);
     ("invoice_counter", VInt 0); ("expenses", VList [])]
  /\ (forall req now, keeps_numbers_distinct (new_invoice req now))
  /\ (forall invoice_id,
         keeps_numbers_distinct (delete_invoice json_dumps invoice_id))
  /\ (forall invoice_id now,
         keeps_numbers_distinct
           (convert_credit_to_cash json_dumps invoice_id now))
  /\ (forall req now, keeps_numbers_distinct (expenses req now))
  /\ (forall req, keeps_numbers_distinct (settings req))
  /\ (forall (d : dict) (n : Z) (l : list value) (form : multidict)
             (now : PyDate.datetime) (inv : value),
         numbers_distinct d ->
         counter_of d = VInt n ->
         invoices_of d = VList l ->
         In inv l ->
         field inv "invoice_number"
         <> VStr (invoice_number_text (PyDate.dt_year now) (n + 1))).
Proof.
  split.
  { exists 0, []. split; [reflexivity|]. split; [lia|].
    split; [reflexivity|]. split; [constructor|].
    intros i j x y Hx. discriminate Hx. }
  split; [intros; apply steps_keep_numbers, new_invoice_steps|].
  split; [intros; apply steps_keep_numbers, delete_invoice_steps|].
  split; [intros; apply steps_keep_numbers, convert_steps|].
  split; [intros; apply steps_keep_numbers, expenses_steps|].
  split; [intros; apply steps_keep_numbers, settings_steps|].
  intros d n l form now inv (n0 & l0 & Hc0 & Hn0 & Hl0 & Hup & _) Hc Hl Hin E.
  rewrite Hc in Hc0. injection Hc0 as <-.
  rewrite Hl in Hl0. injection Hl0 as <-.
  unfold numbers_upto in Hup. rewrite Forall_forall in Hup.
  destruct (Hup inv (proj2 (list_elem_of_In _ _) Hin)) as (y & m & Hf & Hm).
  rewrite Hf in E. apply VStr_inj in E.
  apply invoice_number_text_counter in E; lia.
Qed.

(** *** From the form to the conversion *)

Lemma upper_credit_nonempty (mode : string) :
  PyStr.upper mode = "CREDIT" -> Py.or_ (VStr mode) (VStr "") = VStr mode.
Proof.
  intros H. destruct mode; [discriminate H|reflexivity].
Qed.

(** X2. A credit invoice can be converted once. An invoice created with
    a payment mode that reads [CREDIT] without regard to case, under an
    id no earlier invoice has, is converted by that id: its mode becomes
    [CASH], its notes the trimmed notes of the form followed, on a new
    line when they are not empty, by the note of the conversion, and
    nothing else of the document changes; every later conversion of it
    is refused and changes only the flashed messages. *)
Theorem created_credit_invoice_converted :
  forall (d : dict) (f : file) (fl : list (string * string))
         (l : list value) (n : Z) (req : request)
         (now later : PyDate.datetime) (mode : string),
    method req = "POST" ->
    counter_of d = VInt n ->
    invoices_of d = VList l ->
    let new_id := Py.str (Z.of_nat (length l) + 1) in
    Forall (fun x => other_record new_id x = true) l ->
    Form.get (form req) "payment_mode" = VStr mode ->
    PyStr.upper mode = "CREDIT" ->
    let inv := created_invoice (form req) now
                 (invoice_number_text (PyDate.dt_year now) (n + 1)) new_id in
    let notes := PyStr.strip (Form.get_str (form req) "notes") in
    let st1 := snd (new_invoice req now (mkstate (VDict d) f fl)) in
    let paid := converted inv notes later in
    let d2 := Py.store (Py.store d "invoice_counter" (VInt (n + 1)))
                       "invoices" (VList (l ++ [VDict paid])) in
    let st2 := mkstate (VDict d2) (Content (json_dumps (VDict d2)))
                 (flashed st1
                  ++ [("Invoice payment changed from CREDIT to CASH.",
                       "success")]) in
    convert_credit_to_cash json_dumps new_id later st1
    = (Ok (Redirect "invoice_view" [("invoice_id", new_id)]), st2)
    /\ payment_mode_of paid = VStr "CASH"
    /\ notes_of paid
       = VStr (if String.eqb notes "" then conversion_note later
               else (notes ++ String "010" (conversion_note later))%string)
    /\ (forall k, k <> "payment_mode" -> k <> "notes" ->
                  Py.lookup paid k = Py.lookup inv k)
    /\ (forall again,
           convert_credit_to_cash json_dumps new_id again st2
           = (Ok (Redirect "invoice_view" [("invoice_id", new_id)]),
              mkstate (VDict d2) (Content (json_dumps (VDict d2)))
                      (flashed st2 ++ [not_credit_flash]))).
Proof.
  intros d f fl l n req now later mode Hpost Hc Hl new_id Hfresh Hmode Hcredit
    inv notes st1 paid d2 st2.
  set (d1 := Py.store (Py.store d "invoice_counter" (VInt (n + 1)))
                      "invoices" (VList (l ++ [VDict inv]))).
  assert (Est : st1 = mkstate (VDict d1) (Content (json_dumps (VDict d1)))
                        (fl ++ [("Invoice created successfully.", "success")])).
  { unfold st1.
    now rewrite (new_invoice_post float_of_str json_dumps d f fl l n req now
                   Hpost Hc Hl). }
  destruct (created_invoice_has_id (form req) now
              (invoice_number_text (PyDate.dt_year now) (n + 1)) new_id)
    as [Hid _].
  fold inv in Hid.
  assert (Hat : forall (v : value) j x,
             (j < length l)%nat -> (l ++ [v])%list !! j = Some x ->
             other_record new_id x = true).
  { intros v j x Hj Hx. rewrite lookup_app_l in Hx by exact Hj.
    rewrite Forall_lookup in Hfresh. exact (Hfresh j x Hx). }
  assert (Hins : <[length l := VDict paid]> (l ++ [VDict inv])%list
                 = (l ++ [VDict paid])%list).
  { rewrite insert_app_r_alt by lia. now rewrite Nat.sub_diag. }
  assert (Hd2 : Py.store d1 "invoices" (VList (l ++ [VDict paid])) = d2).
  { unfold d1, d2. apply store_store. }
  split; [|split; [|split; [|split]]].
  - unfold st2. rewrite Est. cbn [flashed].
    rewrite (convert_credit json_dumps d1 _ _ (l ++ [VDict inv]) (length l)
               inv new_id mode notes
               later).
    + cbn zeta.
      replace (PyStr.strip notes) with notes
        by (unfold notes; now rewrite PyStrFacts.strip_idem).
      fold paid.
      now rewrite Hins, Hd2.
    + unfold invoices_of, d1. now rewrite lookup_store_eq.
    + now rewrite list_lookup_middle.
    + exact Hid.
    + apply Hat.
    + unfold payment_mode_of, inv. simpl. rewrite Hmode.
      now apply upper_credit_nonempty.
    + exact Hcredit.
    + unfold notes_of, inv. simpl. unfold Py.or_. simpl. fold notes.
      destruct (String.eqb_spec notes "") as [E|_]; [|reflexivity].
      now rewrite E.
  - unfold payment_mode_of, paid, converted.
    now rewrite lookup_store_ne, lookup_store_eq by discriminate.
  - unfold notes_of, paid, converted. now rewrite lookup_store_eq.
  - intros k Hk1 Hk2. unfold paid, converted.
    now rewrite !lookup_store_ne by congruence.
  - intros again.
    apply (convert_not_credit json_dumps d2 _ _ (l ++ [VDict paid])
             (length l) paid new_id "CASH" again).
    + unfold invoices_of, d2. now rewrite lookup_store_eq.
    + now rewrite list_lookup_middle.
    + unfold paid, converted. simpl. apply String.eqb_refl.
    + apply Hat.
    + unfold payment_mode_of, paid, converted.
      now rewrite lookup_store_ne, lookup_store_eq by discriminate.
    + discriminate.
Qed.

(** *** Expense ids *)

Lemma change_expenses_numbered (d d' : dict) :
  expenses_numbered d -> change d d' -> expenses_numbered d'.
Proof.
  intros (e0 & He0 & Hn) Hch.
  destruct Hch as [|n l form now Hc Hl|l i Hl Hi|l i x nn now Hl Hi
                   |e form now He|form];
    try (exists e0; split; [|exact Hn]; unfold expenses_of;
         now rewrite ?lookup_store_ne by discriminate).
  rewrite He in He0. injection He0 as <-.
  eexists. split; [unfold expenses_of; now rewrite lookup_store_eq|].
  intros i x Hx.
  destruct (Nat.lt_ge_cases i (length e)) as [Hlt|Hge].
  - rewrite lookup_app_l in Hx by exact Hlt. exact (Hn i x Hx).
  - rewrite lookup_app_r in Hx by exact Hge.
    destruct (i - length e)%nat as [|k] eqn:E; [|discriminate Hx].
    injection Hx as <-. simpl. do 3 f_equal. lia.
Qed.

Lemma steps_keep {A : Type} (P : dict -> Prop) (m : M A) :
  (forall d d', P d -> change d d' -> P d') -> steps m -> keeps P m.
Proof.
  intros HP Hm [dat f fl] (d & Hd & Hs) (d0 & Hd0 & H0).
  simpl in Hd, Hd0. subst dat. injection Hd0 as <-.
  destruct (Hm d f fl Hs) as (a & d' & f' & fl' & -> & Hch & _).
  exists d'. split; [reflexivity|]. exact (HP d d' H0 Hch).
Qed.

(** X19. Expense ids do not repeat. No handler removes an expense, so
    the stored expenses keep the ids [1], [2], ... in the order they were
    recorded: the empty default document has them so, and on a well
    formed document every handler keeps them so; two stored expenses
    with one id are the same entry. *)
Theorem expense_ids_numbered :
  expenses_numbered
    [("store_settings", VNone); ("invoices", VList []);
     ("invoice_counter", VInt 0); ("expenses", VList [])]
  /\ (forall req now, keeps expenses_numbered (new_invoice req now))
  /\ (forall invoice_id,
         keeps expenses_numbered (delete_invoice json_dumps invoice_id))
  /\ (forall invoice_id now,
         keeps expenses_numbered
               (convert_credit_to_cash json_dumps invoice_id now))
  /\ (forall req now, keeps expenses_numbered (expenses req now))
  /\ (forall req, keeps expenses_numbered (settings req))
  /\ (forall (e : list value) (i j : nat) (x y : value),
         numbered e -> e !! i = Some x -> e !! j = Some y ->
         field x "id" = field y "id" -> i = j).
Proof.
  split.
  { exists []. split; [reflexivity|]. intros i x Hx. discriminate Hx. }
  split; [intros; apply (steps_keep _ _ change_expenses_numbered),
                    new_invoice_steps|].
  split; [intros; apply (steps_keep _ _ change_expenses_numbered),
                    delete_invoice_steps|].
  split; [intros; apply (steps_keep _ _ change_expenses_numbered),
                    convert_steps|].
  split; [intros; apply (steps_keep _ _ change_expenses_numbered),
                    expenses_steps|].
  split; [intros; apply (steps_keep _ _ change_expenses_numbered),
                    settings_steps|].
  intros e i j x y Hn Hx Hy E.
  rewrite (Hn i x Hx), (Hn j y Hy) in E. apply VStr_inj in E.
  apply str_injective in E; lia.
Qed.

(** *** The day within its month *)

(** X20. The daily report is part of the monthly one. On a readable
    document, when the date shown by the daily report parses to the day
    of the report (as the date asked for does when it is a date), every
    invoice and every expense of the daily report is in the monthly
    report of the month of that day. *)
Theorem daily_report_within_monthly :
  forall (d : dict) (f : file) (fl : list (string * string))
         (l e : list value) (rq rm : request) (now : PyDate.datetime),
    readable d l e ->
    period_of rq <> "monthly" ->
    period_of rm = "monthly" ->
    let st := mkstate (VDict d) f fl in
    let day := report_day (selected_date_of rq now) now in
    let shown := echoed_date (selected_date_of rq now) now in
    PyDate.strptime shown = Some day ->
    report_month (selected_month_of rm now) now
    = (PyDate.year day, PyDate.month day) ->
    exists (of_day of_month : dict),
      reports rq now st
      = (Ok (Render "reports.html"
               [("store", settings_shown d); ("report", VDict of_day);
                ("period", VStr (period_of rq)); ("selected_date", VStr shown);
                ("selected_month", VStr (selected_month_of rq now))]), st)
      /\ reports rm now st
         = (Ok (Render "reports.html"
                  [("store", settings_shown d); ("report", VDict of_month);
                   ("period", VStr "monthly");
                   ("selected_date", VStr (selected_date_of rm now));
                   ("selected_month", VStr (selected_month_of rm now))]), st)
      /\ (forall x, In x (records_of (VDict of_day) "invoices") ->
                    In x (records_of (VDict of_month) "invoices"))
      /\ (forall x, In x (records_of (VDict of_day) "expenses") ->
                    In x (records_of (VDict of_month) "expenses")).
Proof.
  intros d f fl l e rq rm now Hr Hd Hm st day shown Hshown Hmonth.
  eexists _, _.
  split; [exact (reports_daily float_of_str format_2f d f fl l e rq now
                   Hr Hd)|].
  split; [exact (reports_monthly float_of_str format_2f d f fl l e rm now
                   Hr Hm)|].
  rewrite Hmonth. cbn [fst snd].
  assert (Hrec : forall label invs exps,
             records_of (VDict (report_of label invs exps)) "invoices" = invs
             /\ records_of (VDict (report_of label invs exps)) "expenses"
                = exps)
    by (intros; split; reflexivity).
  split; intros x Hx.
  - rewrite (proj1 (Hrec _ _ _)) in Hx. rewrite (proj1 (Hrec _ _ _)).
    apply filter_In in Hx. destruct Hx as [Hin Hx].
    apply filter_In. split; [exact Hin|].
    apply on_day_iff in Hx. rewrite Hx. simpl. now rewrite !Z.eqb_refl.
  - rewrite (proj2 (Hrec _ _ _)) in Hx. rewrite (proj2 (Hrec _ _ _)).
    apply filter_In in Hx. destruct Hx as [Hin Hx].
    apply filter_In. split; [exact Hin|]. unfold expense_date.
    destruct (field x "date") as [| | | |s| |]; try discriminate Hx.
    simpl in Hx. apply String.eqb_eq in Hx. subst s.
    unfold shown in Hshown. rewrite Hshown. simpl. now rewrite !Z.eqb_refl.
Qed.

End PagesProperties.

(** ** The theorems at the session *)

Import Session.

(** The codec of the session reads back what it wrote for [st1], so
    saving and loading [st1] gives its document. *)
Ltac json_ok_parts :=
  repeat match goal with
         | |- _ /\ _ => split
         | |- True => exact I
         | |- List.NoDup [] => constructor
         | |- List.NoDup _ => constructor; [simpl; intuition discriminate|]
         | |- match Prim2SF _ with _ => _ end => vm_compute; reflexivity
         | |- (_ <= _)%Z => vm_compute; discriminate
         | |- Json.float_text_ok _ _ = true => vm_compute; reflexivity
         | |- _ = Some _ => vm_compute; reflexivity
         end.

Lemma session_json_ok :
  Json.json_ok Demo.float_repr Demo.float_of_str (_data st1).
Proof.
  cbn [st1 _data Json.json_ok fold_right map fst snd].
  unfold Json.float_ok. json_ok_parts.
Qed.


(** Two calls of the generator on the empty document. *)
Lemma generate_invoice_number_witness :
  fst (successive_numbers Demo.json_dumps [now; now] st0) !! 1%nat
  = Some (Ok "RS-2024-0002").
Proof.
  assert (Hy : Forall (fun t => 1000 <= PyDate.dt_year t <= 9999) [now; now]).
  { repeat constructor; simpl; lia. }
  exact (proj1 (proj2 (generate_invoice_number_increments Demo.float_of_str
                         Demo.format_2f Demo.json_dumps
                         d0 Missing [] [now; now] 0 eq_refl (Z.le_refl 0) Hy))
               1%nat now eq_refl).
Defined.

(** Deleting the invoice of the session, and an id that is not there. *)
Lemma delete_invoice_witness :
  delete_invoice Demo.json_dumps "1" st1
  = (Ok (Redirect "invoice_list" []),
     let d' := VDict (Py.store d1 "invoices" (VList [])) in
     mkstate d' (Content (Demo.json_dumps d'))
             (flashed st1 ++ [("Invoice deleted successfully.", "success")])).
Proof.
  refine (proj2 (delete_invoice_first_match Demo.json_dumps d1 (DATA_FILE st1)
                   (flashed st1) l1 "1" eq_refl)
                O (VDict inv1) eq_refl eq_refl _).
  intros j inv' Hj. inversion Hj.
Defined.

(** Converting the credit invoice of the session. *)
Lemma convert_credit_to_cash_witness :
  notes_of (converted inv1 "on account" now)
  = VStr ("on account" ++ String "010"
            "[Converted from CREDIT to CASH on 2024-03-15 10:30:00]").
Proof.
  assert (Hb : forall j inv', (j < 0)%nat -> l1 !! j = Some inv' ->
                              other_record "1" inv' = true).
  { intros j inv' Hj. inversion Hj. }
  exact (proj1 (proj2 (proj2
           (proj1 (proj2
              (convert_credit_to_cash_once Demo.json_dumps d1 (DATA_FILE st1)
                 (flashed st1) l1 O inv1 "1" "Credit" now
                 eq_refl eq_refl eq_refl Hb eq_refl))
              "on account" eq_refl eq_refl eq_refl)))).
Defined.

(** The invoice of the session is created with its totals. *)
Lemma new_invoice_totals_witness :
  exists (resp : response) (st' : state),
    new_invoice Demo.float_of_str Demo.json_dumps post now st0 = (Ok resp, st').
Proof.
  destruct (new_invoice_totals Demo.float_of_str Demo.json_dumps d0 Missing []
              [] 0 post now eq_refl eq_refl eq_refl)
    as (resp & st' & _ & _ & _ & _ & _ & _ & _ & _ & H & _).
  exists resp, st'. exact H.
Defined.

(** The blank row of the session is left out. *)
Lemma new_invoice_drops_blank_rows_witness :
  exists (resp : response) (st' : state) (d' inv : dict),
    new_invoice Demo.float_of_str Demo.json_dumps post now st0 = (Ok resp, st')
    /\ Py.lookup inv "items"
       = Some (VList [make_item " pen " 2 10.5 21; make_item "ink" 0 0 0])
    /\ Py.lookup inv "subtotal" = Some (VFloat 21).
Proof.
  destruct (new_invoice_drops_blank_rows Demo.float_of_str Demo.json_dumps d0
              Missing [] [] 0 post now eq_refl eq_refl eq_refl)
    as (resp & st' & d' & inv & H & _ & _ & Hitems & Hsub & _).
  exists resp, st', d', inv. split; [exact H|]. split.
  - rewrite Hitems. vm_compute. reflexivity.
  - rewrite Hsub. vm_compute. reflexivity.
Defined.

Lemma session_readable : readable Demo.float_of_str d2 l1 e2.
Proof.
  split; [reflexivity|]. split; [reflexivity|].
  split; [|split]; repeat constructor.
Qed.

(** The daily report of the session. *)
Lemma report_totals_and_trend_witness :
  exists (label selected_date : string) (invs exps : list value),
    reports Demo.float_of_str Demo.format_2f daily now
            (mkstate (VDict d2) Missing [])
    = (Ok (Render "reports.html"
             [("store", default_settings);
              ("report", VDict (report_of Demo.float_of_str Demo.format_2f
                                          label invs exps));
              ("period", VStr "daily");
              ("selected_date", VStr selected_date);
              ("selected_month", VStr "2024-03")]),
       mkstate (VDict d2) Missing []).
Proof.
  destruct (report_totals_and_trend Demo.float_of_str Demo.format_2f d2
              Missing [] l1 e2 daily now session_readable)
    as (label & selected_date & invs & exps & H & _).
  exists label, selected_date, invs, exps. exact H.
Defined.

(** The monthly report of the session. *)
Lemma monthly_report_filter_witness :
  exists (label selected_date : string),
    reports Demo.float_of_str Demo.format_2f monthly now
            (mkstate (VDict d2) Missing [])
    = (Ok (Render "reports.html"
             [("store", default_settings);
              ("report",
               VDict (report_of Demo.float_of_str Demo.format_2f label
                        (List.filter
                           (fun inv => in_month 2024 3 (effective_date inv)) l1)
                        (List.filter
                           (fun exp => in_month 2024 3 (expense_date exp)) e2)));
              ("period", VStr "monthly");
              ("selected_date", VStr selected_date);
              ("selected_month", VStr "2024-03")]),
       mkstate (VDict d2) Missing []).
Proof.
  destruct (proj1 (monthly_report_filter Demo.float_of_str Demo.format_2f d2
                     Missing [] l1 e2 monthly now 2024 3 session_readable
                     eq_refl eq_refl))
    as (label & selected_date & H & _).
  exists label, selected_date. exact H.
Defined.

(** The daily report of the session for a date that does not parse is
    the report of today, and today's date is what the template gets. *)
Lemma reports_stops_on_null_created_at_witness :
  reports Demo.float_of_str Demo.format_2f monthly now
          (mkstate (VDict d_null) Missing [])
  = (Raise AttributeError, mkstate (VDict d_null) Missing []).
Proof.
  assert (Hpre : Forall (fun inv => date_readable inv = true) l1).
  { repeat constructor. }
  exact (proj1 (reports_stops_on_null_created_at Demo.float_of_str
                  Demo.format_2f d_null Missing [] l1 [] null_created
                  monthly now eq_refl Hpre eq_refl)).
Defined.

Lemma reports_daily_echoes_today_witness :
  reports Demo.float_of_str Demo.format_2f daily_unparsed now
          (mkstate (VDict d2) Missing [])
  = (Ok (Render "reports.html"
           [("store", default_settings);
            ("report",
             VDict (report_of Demo.float_of_str Demo.format_2f
                      "2024-03-15 (Daily)"
                      (List.filter
                         (fun inv => on_day (PyDate.date_of now)
                                            (effective_date inv)) l1)
                      (List.filter
                         (fun exp => Py.eq_str (field exp "date") "2024-03-15")
                         e2)));
            ("period", VStr "daily");
            ("selected_date", VStr "2024-03-15");
            ("selected_month", VStr "2024-03")]),
     mkstate (VDict d2) Missing []).
Proof.
  assert (Hp : period_of daily_unparsed <> "monthly") by discriminate.
  exact (reports_daily_echoes_today Demo.float_of_str Demo.format_2f d2
           Missing [] l1 e2 daily_unparsed now session_readable Hp eq_refl).
Defined.

(** The settings of the session are shown once they are saved. *)
Lemma settings_saved_then_shown_witness :
  get_store_settings (snd (settings Demo.json_dumps settings_post st0))
  = (Ok (VDict [("store_name", VStr "Corner Shop"); ("address", VStr "");
                ("phone", VStr "12345"); ("email", VStr "");
                ("logo_url", VStr "")]),
     snd (settings Demo.json_dumps settings_post st0)).
Proof.
  destruct (settings_saved_then_shown Demo.json_dumps d0 Missing []
              settings_post eq_refl) as (H1 & H2 & _).
  change (mkstate (VDict d0) Missing []) with st0 in H1.
  rewrite H1. exact H2.
Defined.

(** The expense of the session is recorded on the empty document. *)
Lemma expense_recorded_witness :
  exists st',
    expenses Demo.float_of_str Demo.json_dumps Demo.sort_other expense_post
             now st0
    = (Ok (Redirect "expenses" []), st')
    /\ _data st'
       = VDict [("store_settings", VNone); ("invoices", VList []);
                ("invoice_counter", VInt 0);
                ("expenses",
                 VList [VDict [("id", VStr "1"); ("date", VStr "2024-03-15");
                               ("description", VStr "paper");
                               ("category", VStr "office");
                               ("amount", VFloat 7)]])].
Proof.
  destruct (expense_recorded Demo.float_of_str Demo.json_dumps Demo.sort_other
              d0 Missing [] [] expense_post now eq_refl eq_refl)
    as (H & _).
  eexists. split; [exact H|]. vm_compute. reflexivity.
Defined.

(** The expense of the session shows in the report of its day. *)
Lemma recorded_expense_in_daily_report_witness :
  report_field
    (reports Demo.float_of_str Demo.format_2f daily now
       (snd (expenses Demo.float_of_str Demo.json_dumps Demo.sort_other
               expense_post now (mkstate (VDict d2) Missing []))))
    "expense_count"
  = Some (VInt 2).
Proof.
  assert (Hp : period_of daily <> "monthly") by discriminate.
  destruct (recorded_expense_in_daily_report Demo.float_of_str Demo.format_2f
              Demo.json_dumps Demo.sort_other d2 Missing [] l1 e2
              expense_post daily now now session_readable eq_refl Hp)
    as (_ & H & _).
  destruct (H eq_refl) as (Hafter & _).
  rewrite Hafter. reflexivity.
Defined.

(** The list of the session, searched for a customer in capitals. *)
Lemma invoice_list_newest_first_witness :
  exists shown,
    invoice_list Demo.sort_other search (mkstate (VDict d1) Missing [])
    = (Ok (Render "invoice_list.html"
             [("store", default_settings); ("invoices", VList shown);
              ("search_customer", VStr "ASH"); ("search_date", VStr "")]),
       mkstate (VDict d1) Missing []).
Proof.
  assert (Hl : Forall (fun inv => listable inv = true) l1).
  { repeat constructor. }
  destruct (invoice_list_newest_first Demo.sort_other d1 Missing [] l1 search
              eq_refl Hl) as (sorted & _ & H).
  eexists. exact H.
Defined.

(** The expenses page of the session. *)
Lemma expenses_latest_first_witness :
  exists sorted,
    expenses Demo.float_of_str Demo.json_dumps Demo.sort_other get now
             (mkstate (VDict d2) Missing [])
    = (Ok (Render "expenses.html"
             [("store", default_settings); ("expenses", VList sorted);
              ("today", VStr "2024-03-15")]),
       mkstate (VDict d2) Missing []).
Proof.
  assert (Hg : method get <> "POST") by discriminate.
  assert (Hk : Forall (fun x => has_text_key "date" x = true) e2).
  { repeat constructor. }
  destruct (expenses_latest_first Demo.float_of_str Demo.json_dumps
              Demo.sort_other d2 Missing [] e2 get now Hg eq_refl Hk)
    as (sorted & _ & H).
  eexists. exact H.
Defined.

(** The export of the daily report of the session. *)
Lemma export_agrees_with_report_witness :
  exists csv,
    export_report Demo.float_of_str Demo.format_2f Demo.str_other daily now
                  (mkstate (VDict d2) Missing [])
    = (Ok (MadeText csv
             [("Content-Type", "text/csv; charset=utf-8");
              ("Content-Disposition",
               "attachment; filename=report-daily-2024-03-15.csv")]),
       mkstate (VDict d2) Missing []).
Proof.
  destruct (export_agrees_with_report Demo.float_of_str Demo.format_2f
              Demo.str_other d2 Missing [] l1 e2 daily now session_readable)
    as (_ & H).
  eexists. exact H.
Defined.

(** The invoice of the session is shown by the id it was given. *)
Lemma created_invoice_view_witness :
  fst (invoice_view "1" st1)
  = Ok (Render "invoice_view.html"
          [("store", default_settings); ("invoice", VDict inv1)]).
Proof.
  destruct (created_invoice_view Demo.float_of_str Demo.json_dumps d0 Missing
              [] [] 0 post now eq_refl eq_refl eq_refl)
    as (_ & _ & H & _).
  specialize (H (List.Forall_nil _)).
  change (snd (new_invoice Demo.float_of_str Demo.json_dumps post now
                 (mkstate (VDict d0) Missing []))) with st1 in H.
  change (Py.str (Z.of_nat (length (@nil value)) + 1)) with "1" in H.
  rewrite H. reflexivity.
Defined.

Lemma session_numbered : numbered l12.
Proof.
  intros [|[|i]] x Hx; try discriminate Hx; injection Hx as <-; reflexivity.
Qed.

(** After the first of two invoices is deleted, a third one gets the id
    [2], and the view of that id shows the second invoice. *)
Lemma id_reused_after_delete_witness :
  exists last,
    l12 !! 1%nat = Some last
    /\ field last "invoice_number" = VStr "RS-2024-0002"
    /\ fst (invoice_view "2"
              (snd (new_invoice Demo.float_of_str Demo.json_dumps post now
                      (snd (delete_invoice Demo.json_dumps "1"
                              (mkstate (VDict d12) Missing []))))))
       = Ok (Render "invoice_view.html"
               [("store", default_settings); ("invoice", last)]).
Proof.
  assert (Hi : (0 + 1 < length l12)%nat) by (simpl; lia).
  destruct (id_reused_after_delete Demo.float_of_str Demo.json_dumps d12
              Missing [] l12 2 post now 0%nat eq_refl eq_refl eq_refl
              session_numbered Hi)
    as (last & Hlast & _ & _ & _ & Hview).
  exists last. split; [exact Hlast|]. split.
  - simpl in Hlast. injection Hlast as <-. reflexivity.
  - change (Py.str (Z.of_nat 0 + 1)) with "1" in Hview.
    change (Py.str (Z.of_nat (length l12))) with "2" in Hview.
    rewrite Hview. reflexivity.
Defined.

(** The dates of the session read back. *)
Lemma written_dates_read_back_witness :
  PyDate.strptime "2024-03-15" = Some (PyDate.mkdate 2024 3 15)
  /\ parse_year_month "2024-03" = Some (2024, 3).
Proof.
  assert (Hy : 1000 <= PyDate.dt_year now) by (simpl; lia).
  destruct (written_dates_read_back Demo.float_of_str now eq_refl Hy)
    as (H1 & H2 & _).
  split; [exact H1|exact H2].
Defined.

(** The invoice of the session shows in the report of its day. *)
Lemma created_invoice_in_daily_report_witness :
  report_field
    (reports Demo.float_of_str Demo.format_2f daily now st1) "invoice_count"
  = Some (VInt 1).
Proof.
  assert (Hp : period_of daily <> "monthly") by discriminate.
  assert (Hr : readable Demo.float_of_str d0 [] []).
  { repeat split; constructor. }
  destruct (created_invoice_in_daily_report Demo.float_of_str Demo.format_2f
              Demo.json_dumps d0 Missing [] [] [] 0 post daily now now
              Hr eq_refl eq_refl Hp)
    as (_ & H & _).
  assert (Hd : effective_date
                 (VDict (created_invoice Demo.float_of_str (form post) now
                           (invoice_number_text (PyDate.dt_year now) (0 + 1))
                           (Py.str (Z.of_nat (length (@nil value)) + 1))))
               = Some (report_day (selected_date_of daily now) now))
    by (vm_compute; reflexivity).
  destruct (H Hd) as (Hafter & _).
  change (snd (new_invoice Demo.float_of_str Demo.json_dumps post now
                 (mkstate (VDict d0) Missing []))) with st1 in Hafter.
  rewrite Hafter. reflexivity.
Defined.

Lemma spelled_readable :
  readable Demo.float_of_str spelled
    [VDict [("id", VStr "1"); ("invoice_date", VStr "2024-3-15");
            ("total", VFloat 500)]]
    [VDict [("id", VStr "1"); ("date", VStr "2024-3-15");
            ("amount", VFloat 200)]].
Proof.
  split; [reflexivity|]. split; [reflexivity|].
  split; [|split]; repeat constructor.
Qed.

(** Of an invoice and an expense dated [2024-3-15] the report of
    [2024-03-15] has the invoice only. *)
Lemma daily_report_filter_witness :
  ids (report_field
         (reports Demo.float_of_str Demo.format_2f daily now
                  (mkstate (VDict spelled) Missing [])) "invoices")
  = [VStr "1"]
  /\ ids (report_field
            (reports Demo.float_of_str Demo.format_2f daily now
                     (mkstate (VDict spelled) Missing [])) "expenses")
     = [].
Proof.
  assert (Hp : period_of daily <> "monthly") by discriminate.
  destruct (daily_report_filter Demo.float_of_str Demo.format_2f spelled
              Missing [] _ _ daily now spelled_readable Hp)
    as (H & _).
  rewrite H. split; reflexivity.
Defined.

(** The credit invoice of the session is converted once. *)
Lemma created_credit_invoice_converted_witness :
  fst (convert_credit_to_cash Demo.json_dumps "1" now st1)
  = Ok (Redirect "invoice_view" [("invoice_id", "1")]).
Proof.
  destruct (created_credit_invoice_converted Demo.float_of_str Demo.json_dumps
              d0 Missing [] [] 0 post now now "Credit" eq_refl eq_refl eq_refl
              (List.Forall_nil _) eq_refl eq_refl)
    as (H & _).
  change (snd (new_invoice Demo.float_of_str Demo.json_dumps post now
                 (mkstate (VDict d0) Missing []))) with st1 in H.
  change (Py.str (Z.of_nat (length (@nil value)) + 1)) with "1" in H.
  rewrite H. reflexivity.
Defined.

(** The daily report of the session lies within its monthly report. *)
Lemma daily_report_within_monthly_witness :
  exists of_day of_month : dict,
    report_field (reports Demo.float_of_str Demo.format_2f daily now
                          (mkstate (VDict d2) Missing [])) "invoices"
    = Py.lookup of_day "invoices"
    /\ report_field (reports Demo.float_of_str Demo.format_2f monthly now
                             (mkstate (VDict d2) Missing [])) "invoices"
       = Py.lookup of_month "invoices"
    /\ forall x, In x (records_of (VDict of_day) "invoices") ->
                 In x (records_of (VDict of_month) "invoices").
Proof.
  assert (Hp : period_of daily <> "monthly") by discriminate.
  destruct (daily_report_within_monthly Demo.float_of_str Demo.format_2f d2
              Missing [] l1 e2 daily monthly now session_readable Hp eq_refl
              eq_refl eq_refl)
    as (of_day & of_month & Hd & Hm & Hi & _).
  exists of_day, of_month. rewrite Hd, Hm.
  split; [reflexivity|]. split; [reflexivity|exact Hi].
Defined.

(** ** The examples of the specification *)

Module Examples.
Import Session.

Example daily_report_of_the_spec :
  report_field day_report "sales_total" = Some (VFloat 500)
  /\ report_field day_report "expenses_total" = Some (VFloat 200)
  /\ report_field day_report "net_total" = Some (VFloat 300)
  /\ report_field day_report "invoice_count" = Some (VInt 1)
  /\ report_field day_report "expense_count" = Some (VInt 1)
  /\ report_field day_report "ai_summary"
     = Some (VStr ("AI summary: For 2024-03-15 (Daily), total sales are "
                   ++ "Rs. 500.00 across 1 invoice(s), with expenses of "
                   ++ "Rs. 200.00. The period is profitable with a net of "
                   ++ "Rs. 300.00. Consider reviewing infrastructure and "
                   ++ "operational costs to optimize profit.")).
Proof. vm_compute. repeat split. Qed.

Example monthly_report_of_the_spec :
  let out := reports Demo.float_of_str Demo.format_2f monthly now
                     month_document in
  ids (report_field out "invoices") = [VStr "mar1"; VStr "mar31"; VStr "made"]
  /\ ids (report_field out "expenses") = [VStr "mar"]
  /\ report_field out "label" = Some (VStr "2024-03 (Monthly)").
Proof. vm_compute. repeat split. Qed.

(** What [strptime] takes for [%Y-%m-%d]. *)
Example strptime_examples :
  PyDate.strptime "2024-03-15" = Some (PyDate.mkdate 2024 3 15)
  /\ PyDate.strptime "2024-3-5" = Some (PyDate.mkdate 2024 3 5)
  /\ PyDate.strptime "2024-02-29" = Some (PyDate.mkdate 2024 2 29)
  /\ PyDate.strptime "2023-02-29" = None
  /\ PyDate.strptime "2024-03-15 10:30:00" = None
  /\ PyDate.strptime "2024-13-01" = None
  /\ PyDate.strptime "24-03-15" = None
  /\ PyDate.strptime "" = None.
Proof. vm_compute. repeat split. Qed.

(** What the month of a monthly report is read from. *)
Example parse_year_month_examples :
  parse_year_month "2024-03" = Some (2024, 3)
  /\ parse_year_month " 2024 -3" = Some (2024, 3)
  /\ parse_year_month "2024-13" = Some (2024, 13)
  /\ parse_year_month "2024" = None
  /\ parse_year_month "2024-03-15" = None
  /\ parse_year_month "2024-" = None
  /\ parse_year_month "garbage" = None.
Proof. vm_compute. repeat split. Qed.

(** [int] skips the ASCII white space and not the separators 28 to 31,
    takes underscores between digits, and refuses more than 4300
    digits. *)
Example int_examples :
  PyStr.int_ (String "028" "2024") = None
  /\ parse_year_month (String "028" "2024-02") = None
  /\ PyStr.int_ (String "011" (String.append "2024" (String "010" ""))) = Some 2024
  /\ PyStr.int_ "1_000" = Some 1000
  /\ PyStr.int_ "1__0" = None
  /\ PyStr.int_ (PyStr.zeros 4300) = Some 0
  /\ PyStr.int_ (PyStr.zeros 4301) = None
  /\ parse_year_month (String.append "2024-" (PyStr.zeros 4301)) = None.
Proof. vm_compute. repeat split. Qed.

(** A header cannot hold a line break: the export for a month text that
    ends in a line feed, which [int] reads as March, raises [ValueError],
    where the report of the same request is made; so does the download of
    an invoice whose number holds a line feed, where the view renders. *)
Example line_break_in_a_header :
  fst (export_report Demo.float_of_str Demo.format_2f Demo.str_other
         monthly_newline now (mkstate (VDict d2) Missing []))
  = Raise ValueError
  /\ report_field (reports Demo.float_of_str Demo.format_2f monthly_newline
                     now (mkstate (VDict d2) Missing [])) "label"
     = Some (VStr "2024-03 (Monthly)")
  /\ fst (download_invoice Demo.str_other "1"
            (mkstate (VDict d_newline) Missing []))
     = Raise ValueError
  /\ (exists page,
         fst (invoice_view "1" (mkstate (VDict d_newline) Missing []))
         = Ok (Render "invoice_view.html" page)).
Proof. vm_compute. repeat split. eexists. reflexivity. Qed.

(** The file of the session, as [json.dump] writes it with an indent of
    two, and what [json.load] makes of a text: a key read twice keeps its
    place and takes the later value, an escape above 255 leaves the
    embedding, and a trailing comma, a control character in a string, a
    leading zero and a nesting beyond the allowed one are errors, on
    which [_load_data] gives the empty default. *)
Example json_examples :
  Demo.json_dumps (VDict [("a", VList [VInt 1; VFloat 10.5; VNone]);
                          ("b", VDict []); ("c", VStr (String "010" "x"))])
  = String.concat (String "010" "")
      ["{"; "  " ++ Demo.quote ++ "a" ++ Demo.quote ++ ": [";
       "    1,"; "    10.5,"; "    null"; "  ],";
       "  " ++ Demo.quote ++ "b" ++ Demo.quote ++ ": {},";
       "  " ++ Demo.quote ++ "c" ++ Demo.quote ++ ": " ++ Demo.quote
       ++ "\nx" ++ Demo.quote;
       "}"]
  /\ _load_data Demo.json_loads (DATA_FILE st1) = Some (_data st1)
  /\ Demo.json_loads
       ("{" ++ Demo.quote ++ "a" ++ Demo.quote ++ ": 1, " ++ Demo.quote ++ "b"
        ++ Demo.quote ++ ": true, " ++ Demo.quote ++ "a" ++ Demo.quote
        ++ " :[ ] }")
     = Loaded (VDict [("a", VList []); ("b", VBool true)])
  /\ Demo.json_loads (Demo.quote ++ "\u00e9" ++ Demo.quote)
     = Loaded (VStr (String "233" ""))
  /\ Demo.json_loads (Demo.quote ++ "\u20ac" ++ Demo.quote) = Outside
  /\ Demo.json_loads "[1,]" = Fails
  /\ Demo.json_loads "01" = Fails
  /\ Demo.json_loads (Demo.quote ++ String "009" Demo.quote) = Fails
  /\ Demo.json_loads "[NaN, -Infinity]"
     = Loaded (VList [VFloat nan; VFloat neg_infinity])
  /\ Json.loads Demo.float_of_str 2 "[[[]]]" = Fails
  /\ _load_data Demo.json_loads (Content "[1,]") = Some empty_document.
Proof. vm_compute. repeat split. Qed.

(** The session: the invoice created from the form, the conversion, a
    second conversion, and the deletion of an id that is not there. *)
Example session_invoice :
  Py.lookup inv1 "invoice_number" = Some (VStr "RS-2024-0001")
  /\ Py.lookup inv1 "id" = Some (VStr "1")
  /\ Py.lookup inv1 "customer_name" = Some (VStr "Asha")
  /\ Py.lookup inv1 "items"
     = Some (VList [make_item "pen" 2 10.5 21; make_item "ink" 0 0 0])
  /\ Py.lookup inv1 "subtotal" = Some (VFloat 21)
  /\ Py.lookup inv1 "discount" = Some (VFloat 1)
  /\ Py.lookup inv1 "tax" = Some (VFloat 0)
  /\ Py.lookup inv1 "total" = Some (VFloat 20)
  /\ Py.lookup inv1 "notes" = Some (VStr "on account").
Proof. vm_compute. repeat split. Qed.

Example session_conversions :
  let once := convert_credit_to_cash Demo.json_dumps "1" now st1 in
  let twice := convert_credit_to_cash Demo.json_dumps "1" now (snd once) in
  fst once = Ok (Redirect "invoice_view" [("invoice_id", "1")])
  /\ fst twice = Ok (Redirect "invoice_view" [("invoice_id", "1")])
  /\ _data (snd twice) = _data (snd once)
  /\ DATA_FILE (snd twice) = DATA_FILE (snd once)
  /\ flashed (snd twice)
     = [("Invoice created successfully.", "success");
        ("Invoice payment changed from CREDIT to CASH.", "success");
        ("Invoice is not in CREDIT payment mode.", "error")].
Proof. vm_compute. repeat split. Qed.

Example session_delete_unknown :
  delete_invoice Demo.json_dumps "7" st1
  = (Ok (Redirect "invoice_list" []),
     mkstate (_data st1) (DATA_FILE st1)
       [("Invoice created successfully.", "success");
        ("Invoice not found.", "error")]).
Proof. vm_compute. reflexivity. Qed.

(** Outside the stored layout a handler can raise: an invoice whose
    [created_at] is null and that has no [invoice_date] stops [reports]
    with [AttributeError]. *)
Example reports_raises_on_null_created_at :
  fst (reports Demo.float_of_str Demo.format_2f monthly now
         (mkstate (VDict [("invoices", VList [VDict [("created_at", VNone)]])])
                  Missing []))
  = Raise AttributeError.
Proof. vm_compute. reflexivity. Qed.

(** The id of a new invoice is the number of stored invoices plus
    one: after two invoices and the deletion of the first, a third invoice
    gets the id of the second, while the invoice numbers stay apart. *)
Example invoice_id_reused_after_delete :
  stored_ids after_two_and_a_delete = [VStr "2"]
  /\ fst third_invoice = Ok (Redirect "invoice_view" [("invoice_id", "2")])
  /\ stored_ids (snd third_invoice) = [VStr "2"; VStr "2"]
  /\ stored_numbers (snd third_invoice)
     = [VStr "RS-2024-0002"; VStr "RS-2024-0003"].
Proof. vm_compute. repeat split. Qed.

End Examples.
